(** * EzAigents event-stream viewers: a shallow embedding

    The three terminal viewers of the repository are embedded here:

    - [AgentEventStream]   (src/cli/agent-stream.py, the append-log viewer),
    - [CursesAgentStream]  (src/cli/agent-stream.py, the full-screen viewer),
    - [SimpleAgentStream]  (src/cli/agent-stream-simple.py, the polling viewer).

    Objects keep their Python fields; a method becomes a computation in a
    small state-and-exception monad in which the state survives a raised
    exception, as the fields of a Python object do. *)

From Stdlib Require Import ZArith String Ascii.
From stdpp Require Import gmap list fin_maps.

Set Warnings "-register-all".
Local Open Scope Z_scope.

(** ** Python values *)

Module Py.

(** A Python [str] is its sequence of code points. *)
Definition pystr : Type := list N.

(** The [str] of an ASCII literal of the source. *)
Definition str (s : string) : pystr := N_of_ascii <$> list_ascii_of_string s.
Arguments str s%_string : simpl never.

(** What [json.loads] builds: [None], [bool], [int], [str], [list] and
    [dict] with [str] keys, in insertion order, the first binding of a key
    being the one the dict holds.  Numbers are the integers; fractional numbers
    are outside the model. *)
Inductive value : Type :=
| VNone
| VBool (b : bool)
| VInt (n : Z)
| VStr (s : pystr)
| VList (xs : list value)
| VDict (kvs : list (pystr * value)).

(** Hashable values as dictionary or set keys.  [True == 1] and
    [False == 0] also as keys, so a [bool] is the key of its integer. *)
Inductive key : Type :=
| KNone
| KInt (n : Z)
| KStr (s : pystr).

Global Instance key_eq_dec : EqDecision key.
Proof. solve_decision. Defined.

Definition key_to_sum (k : key) : unit + Z + pystr :=
  match k with
  | KNone => inl (inl ())
  | KInt n => inl (inr n)
  | KStr s => inr s
  end.

Definition key_of_sum (x : unit + Z + pystr) : key :=
  match x with
  | inl (inl _) => KNone
  | inl (inr n) => KInt n
  | inr s => KStr s
  end.

Global Instance key_countable : Countable key.
Proof.
  refine (inj_countable' key_to_sum key_of_sum _).
  intros k. destruct k; reflexivity.
Defined.

Inductive exn : Type :=
| JSONDecodeError
| AttributeError
| TypeError
| ValueError
| KeyError
| RecursionError
| UnicodeDecodeError
| ConnectionClosed
| ConnectError
| CursesError.

Inductive result (A : Type) : Type :=
| Ok (a : A)
| Raise (e : exn).
Arguments Ok {A} a.
Arguments Raise {A} e.

(** A method body: it reads and writes the object [S] and either returns or
    raises; what it wrote before raising stays written. *)
Definition M (S A : Type) : Type := S -> result A * S.

Definition ret {S A} (a : A) : M S A := fun s => (Ok a, s).

Definition bind {S A B} (c : M S A) (k : A -> M S B) : M S B :=
  fun s =>
    match c s with
    | (Ok a, s') => k a s'
    | (Raise e, s') => (Raise e, s')
    end.

Definition raise {S A} (e : exn) : M S A := fun s => (Raise e, s).

Definition lift {S A} (r : result A) : M S A := fun s => (r, s).

Definition get {S} : M S S := fun s => (Ok s, s).

Definition modify {S} (f : S -> S) : M S unit := fun s => (Ok (), f s).

(** [try: c; except Exception: h] *)
Definition try_except {S A} (c : M S A) (h : exn -> M S A) : M S A :=
  fun s =>
    match c s with
    | (Ok a, s') => (Ok a, s')
    | (Raise e, s') => h e s'
    end.

Definition exec {S A} (c : M S A) (s : S) : S := snd (c s).

Definition outcome {S A} (c : M S A) (s : S) : result A := fst (c s).

Declare Scope py_scope.
Delimit Scope py_scope with py.
Notation "x <- c ;; k" := (bind c (fun x => k))
  (at level 100, c at next level, right associativity) : py_scope.
Notation "c ;; k" := (bind c (fun _ => k))
  (at level 100, right associativity) : py_scope.

Local Open Scope py_scope.

(** [for x in xs: body x] *)
Fixpoint for_each {S A} (body : A -> M S unit) (xs : list A) : M S unit :=
  match xs with
  | [] => ret ()
  | x :: rest => body x ;; for_each body rest
  end.

(** [d.get(k)] on the items of a dict with [str] keys. *)
Fixpoint assoc {V} (k : pystr) (kvs : list (pystr * V)) : option V :=
  match kvs with
  | [] => None
  | (k', v) :: rest => if decide (k' = k) then Some v else assoc k rest
  end.

(** [obj.get(k, dflt)]: only a dict has the method. *)
Definition py_get (obj : value) (k : pystr) (dflt : value) : result value :=
  match obj with
  | VDict kvs => Ok (default dflt (assoc k kvs))
  | _ => Raise AttributeError
  end.

(** [hash(v)], as a subscript or a membership test computes it. *)
Definition py_hash (v : value) : result key :=
  match v with
  | VNone => Ok KNone
  | VBool b => Ok (KInt (if b then 1 else 0))
  | VInt n => Ok (KInt n)
  | VStr s => Ok (KStr s)
  | VList _ | VDict _ => Raise TypeError
  end.

(** [bool(v)] *)
Definition truthy (v : value) : bool :=
  match v with
  | VNone => false
  | VBool b => b
  | VInt n => negb (n =? 0)
  | VStr s => negb (bool_decide (s = []))
  | VList xs => negb (bool_decide (xs = []))
  | VDict kvs => negb (bool_decide (kvs = []))
  end.

(** [v == s] for a [str] [s]. *)
Definition eq_str (v : value) (s : pystr) : bool :=
  match v with
  | VStr s' => bool_decide (s' = s)
  | _ => false
  end.

(** [iter(v)]: the elements of a list, the characters of a str, the keys of
    a dict. *)
Definition py_iter (v : value) : result (list value) :=
  match v with
  | VList xs => Ok xs
  | VStr s => Ok ((fun c => VStr [c]) <$> s)
  | VDict kvs => Ok ((fun kv => VStr kv.1) <$> kvs)
  | VNone | VBool _ | VInt _ => Raise TypeError
  end.

(** [len(v)] *)
Definition py_len (v : value) : result Z :=
  match v with
  | VStr s => Ok (Z.of_nat (length s))
  | VList xs => Ok (Z.of_nat (length xs))
  | VDict kvs => Ok (Z.of_nat (length kvs))
  | VNone | VBool _ | VInt _ => Raise TypeError
  end.

(** [l[:n]]: a negative [n] counts from the end. *)
Definition slice_to {A} (n : Z) (l : list A) : list A :=
  if n <? 0 then take (Z.to_nat (Z.of_nat (length l) + n)) l
  else take (Z.to_nat n) l.

(** [l[n:]] *)
Definition slice_from {A} (n : Z) (l : list A) : list A :=
  if n <? 0 then drop (Z.to_nat (Z.of_nat (length l) + n)) l
  else drop (Z.to_nat n) l.

(** [v[:n]]: a str and a list can be sliced. *)
Definition py_slice_to (v : value) (n : Z) : result value :=
  match v with
  | VStr s => Ok (VStr (slice_to n s))
  | VList xs => Ok (VList (slice_to n xs))
  | VDict _ | VNone | VBool _ | VInt _ => Raise TypeError
  end.

(** [d[k] += 1] on a [defaultdict(int)] *)
Definition incr (k : key) (d : gmap key Z) : gmap key Z :=
  <[k := default 0 (d !! k) + 1]> d.

(** [table.get(k, dflt)] on a module-level dict with [str] keys: the key is
    hashed, and no key that is not a [str] equals one of the table's. *)
Definition table_get {V} (table : list (pystr * V)) (k : value) (dflt : V)
  : result V :=
  match py_hash k with
  | Ok (KStr s) => Ok (default dflt (assoc s table))
  | Ok _ => Ok dflt
  | Raise e => Raise e
  end.

(** [sep.join(parts)] *)
Fixpoint join (sep : pystr) (parts : list pystr) : pystr :=
  match parts with
  | [] => []
  | [p] => p
  | p :: rest => p ++ sep ++ join sep rest
  end.

End Py.

(** ** Module-level tables of src/cli/agent-stream.py *)

Module Constants.
Import Py.

(** ["\033" ++ s] *)
Definition esc (s : string) : pystr := 27%N :: str s.
Arguments esc s%_string.

(** ANSI color codes for different agent types *)
Definition AGENT_COLORS : list (pystr * pystr) :=
  [ (str "openai", esc "[92m");
    (str "anthropic", esc "[94m");
    (str "google", esc "[93m");
    (str "cohere", esc "[95m");
    (str "mistral", esc "[96m");
    (str "deepseek", esc "[91m");
    (str "langchain", esc "[97m");
    (str "custom", esc "[90m");
    (str "unknown", esc "[37m") ].

(** The glyphs are the code points the source file holds. *)
Definition EVENT_TYPE_ICONS : list (pystr * pystr) :=
  [ (str "llm_request", [0xf0; 0x178; 0xa4; 0x2013]%N);
    (str "llm_response", [0xf0; 0x178; 0x2019; 0xac]%N);
    (str "tool_use", [0xf0; 0x178; 0x201d; 0xa7]%N);
    (str "function_call_start", [0xe2; 0x2013; 0xb6; 0xef; 0xb8]%N);
    (str "function_call_complete", [0xe2; 0x153; 0x2026]%N);
    (str "function_call_error", [0xe2; 0x152]%N);
    (str "error", [0xf0; 0x178; 0x161; 0xa8]%N);
    (str "token_usage", [0xf0; 0x178; 0xaa; 0x2122]%N);
    (str "test", [0xf0; 0x178; 0xa7; 0xaa]%N);
    (str "pre_tool_use", [0xf0; 0x178; 0x201d; 0xa8]%N);
    (str "post_tool_use", [0xe2; 0x153; 0x201d; 0xef; 0xb8]%N);
    (str "stop", [0xf0; 0x178; 0x203a; 0x2018]%N);
    (str "custom", [0xf0; 0x178; 0x201c; 0x152]%N) ].

(** The second argument of every [EVENT_TYPE_ICONS.get]. *)
Definition default_icon : pystr := [0xf0; 0x178; 0x201c]%N.

Definition RESET_COLOR : pystr := esc "[0m".
Definition BOLD : pystr := esc "[1m".
Definition DIM : pystr := esc "[2m".

(** [table[k]] *)
Definition subscript {V} (table : list (pystr * V)) (k : pystr) : result V :=
  match assoc k table with
  | Some v => Ok v
  | None => Raise KeyError
  end.

(** [datetime.fromisoformat(v)] wants a [str]; [hms_of_iso] is then
    [datetime.fromisoformat(s).strftime("%H:%M:%S")], [None] where
    [fromisoformat] raises [ValueError]. *)
Definition clock (hms_of_iso : pystr -> option pystr) (v : value)
  : result pystr :=
  match v with
  | VStr s =>
      match hms_of_iso s with
      | Some t => Ok t
      | None => Raise ValueError
      end
  | _ => Raise TypeError
  end.

End Constants.

(** ** The append-log viewer: class [AgentEventStream] *)

Module AgentEventStream.
Import Py Constants.
Local Open Scope py_scope.

(** [print] writes to [sys.stdout]; nothing in the viewers names another
    stream. *)
Inductive channel : Type := Stdout | Stderr.

(** One constructor for each [print] call of the class. *)
Inductive printed : Type :=
| ConnectedBanner              (* connect_and_stream, "Connected to observability server" *)
| InvalidMessage               (* connect_and_stream, "Invalid message received" *)
| ConnectionLost               (* connect_and_stream, "Connection lost. Reconnecting..." *)
| ErrorLine (e : exn)          (* connect_and_stream, "Error: {e}" *)
| EventLine (line : pystr)     (* run_display_thread, the formatted event *)
| DisplayError (e : exn).      (* run_display_thread, "Display error: {e}" *)

Record t : Type := mk {
  events : list value;
  stats : gmap key Z;
  agent_stats : gmap key (gmap key Z);
  event_queue : list value;
  running : bool;
  filter_app : option pystr;
  filter_type : option pystr;
  show_details : bool;
  pause : bool;
  output : list (channel * printed)
}.

(** [__init__] *)
Definition init : t :=
  {| events := []; stats := ∅; agent_stats := ∅; event_queue := [];
     running := true; filter_app := None; filter_type := None;
     show_details := false; pause := false; output := [] |}.

Definition set_events (f : list value -> list value) (self : t) : t :=
  mk (f (events self)) (stats self) (agent_stats self) (event_queue self)
     (running self) (filter_app self) (filter_type self) (show_details self)
     (pause self) (output self).

Definition set_stats (f : gmap key Z -> gmap key Z) (self : t) : t :=
  mk (events self) (f (stats self)) (agent_stats self) (event_queue self)
     (running self) (filter_app self) (filter_type self) (show_details self)
     (pause self) (output self).

Definition set_agent_stats
    (f : gmap key (gmap key Z) -> gmap key (gmap key Z)) (self : t) : t :=
  mk (events self) (stats self) (f (agent_stats self)) (event_queue self)
     (running self) (filter_app self) (filter_type self) (show_details self)
     (pause self) (output self).

Definition set_event_queue (f : list value -> list value) (self : t) : t :=
  mk (events self) (stats self) (agent_stats self) (f (event_queue self))
     (running self) (filter_app self) (filter_type self) (show_details self)
     (pause self) (output self).

Definition set_filter_app (a : option pystr) (self : t) : t :=
  mk (events self) (stats self) (agent_stats self) (event_queue self)
     (running self) a (filter_type self) (show_details self)
     (pause self) (output self).

Definition set_filter_type (a : option pystr) (self : t) : t :=
  mk (events self) (stats self) (agent_stats self) (event_queue self)
     (running self) (filter_app self) a (show_details self)
     (pause self) (output self).

Definition set_pause (b : bool) (self : t) : t :=
  mk (events self) (stats self) (agent_stats self) (event_queue self)
     (running self) (filter_app self) (filter_type self) (show_details self)
     b (output self).

Definition set_output
    (f : list (channel * printed) -> list (channel * printed)) (self : t) : t :=
  mk (events self) (stats self) (agent_stats self) (event_queue self)
     (running self) (filter_app self) (filter_type self) (show_details self)
     (pause self) (f (output self)).

Definition print (p : printed) : M t unit :=
  modify (set_output (fun out => out ++ [(Stdout, p)])).

(** [self.filter_x and event.get(field) != self.filter_x]: [None] and the
    empty string are false, and [and] then leaves [event.get] unevaluated. *)
Definition filtered_out (criterion : option pystr) (event : value)
    (field : pystr) : result bool :=
  match criterion with
  | None | Some [] => Ok false
  | Some (c :: s) =>
      match py_get event field VNone with
      | Ok v => Ok (negb (eq_str v (c :: s)))
      | Raise e => Raise e
      end
  end.

(** Window of the append-log viewer ("Keep only last 1000 events in memory"). *)
Definition window : nat := 1000.

(** [self.events.append(event)], then [pop(0)] when longer than [w]. *)
Definition append_bounded (w : nat) (event : value) (evs : list value)
  : list value :=
  let evs' := evs ++ [event] in
  if (Z.of_nat w <? Z.of_nat (length evs')) then drop 1 evs' else evs'.

Definition process_event (event : value) : M t unit :=
  self <- get ;;
  if pause self then ret () else
  out_app <- lift (filtered_out (filter_app self) event (str "app")) ;;
  if out_app then ret () else
  out_type <- lift (filtered_out (filter_type self) event (str "event_type")) ;;
  if out_type then ret () else
  (* Update stats *)
  modify (set_stats (incr (KStr (str "total")))) ;;
  event_type <- lift (py_get event (str "event_type") (VStr (str "unknown"))) ;;
  type_key <- lift (py_hash event_type) ;;
  modify (set_stats (incr type_key)) ;;
  payload <- lift (py_get event (str "payload") (VDict [])) ;;
  agent_type <- lift (py_get payload (str "agent_type") (VStr (str "unknown"))) ;;
  app <- lift (py_get event (str "app") (VStr (str "unknown"))) ;;
  app_key <- lift (py_hash app) ;;
  (* the outer defaultdict makes the inner one when it reads a new key *)
  modify (set_agent_stats
            (fun a => <[app_key := default ∅ (a !! app_key)]> a)) ;;
  agent_key <- lift (py_hash agent_type) ;;
  modify (set_agent_stats
            (fun a => <[app_key := incr agent_key (default ∅ (a !! app_key))]> a)) ;;
  (* Add to queue for display *)
  modify (set_event_queue (fun q => q ++ [event])) ;;
  (* Keep only last 1000 events in memory *)
  modify (set_events (append_bounded window event)).

Definition handle_message (data : value) : M t unit :=
  type <- lift (py_get data (str "type") VNone) ;;
  if eq_str type (str "init") then
    evs <- lift (py_get data (str "events") (VList [])) ;;
    items <- lift (py_iter evs) ;;
    for_each process_event items
  else
    type' <- lift (py_get data (str "type") VNone) ;;
    if eq_str type' (str "event") then
      event <- lift (py_get data (str "data") (VDict [])) ;;
      process_event event
    else ret ().

Section Formatting.

(** [datetime.fromisoformat(s).strftime("%H:%M:%S")], [None] for the
    [ValueError] of [fromisoformat]. *)
Variable hms_of_iso : pystr -> option pystr.

(** [str(v)], what an f-string writes for [{v}]. *)
Variable py_str : value -> pystr.

(** [f"{key}={str(value)[:50]}"] for the first three items, [agent_type]
    left out. *)
Definition details_of (items : list (pystr * value)) : list pystr :=
  omap (fun kv : pystr * value =>
          if decide (kv.1 = str "agent_type") then None
          else Some (kv.1 ++ str "=" ++ slice_to 50 (py_str kv.2)))
       (slice_to 3 items).

Definition format_event (event : value) : M t pystr :=
  self <- get ;;
  stamp <- lift (py_get event (str "timestamp") (VStr [])) ;;
  timestamp <- lift (clock hms_of_iso stamp) ;;
  app <- lift (py_get event (str "app") (VStr (str "unknown"))) ;;
  event_type <- lift (py_get event (str "event_type") (VStr (str "unknown"))) ;;
  summary <- lift (py_get event (str "summary") (VStr [])) ;;
  (* Get agent type and color *)
  payload <- lift (py_get event (str "payload") (VDict [])) ;;
  agent_type <- lift (py_get payload (str "agent_type") (VStr (str "unknown"))) ;;
  unknown_color <- lift (subscript AGENT_COLORS (str "unknown")) ;;
  color <- lift (table_get AGENT_COLORS agent_type unknown_color) ;;
  (* Get event icon *)
  icon <- lift (table_get EVENT_TYPE_ICONS event_type default_icon) ;;
  (* Build formatted line *)
  let line := DIM ++ timestamp ++ RESET_COLOR ++ str " " in
  let line := line ++ color ++ BOLD ++ str "[" ++ py_str app ++ str "]"
                   ++ RESET_COLOR ++ str " " in
  let line := line ++ icon ++ str " " ++ py_str event_type in
  let line :=
    if truthy summary
    then line ++ str " - " ++ DIM ++ py_str summary ++ RESET_COLOR
    else line in
  shown <- lift (py_get event (str "payload") VNone) ;;
  if show_details self && truthy shown then
    payload' <- lift (py_get event (str "payload") (VDict [])) ;;
    match payload' with
    | VDict items =>
        let details := details_of items in
        ret (if bool_decide (details = []) then line
             else line ++ [10%N] ++ str "    " ++ DIM
                       ++ join (str " | ") details ++ RESET_COLOR)
    | _ => raise AttributeError
    end
  else ret line.

(** One turn of [run_display_thread] with an event waiting: an empty queue
    is [queue.Empty], and the loop goes round. *)
Definition run_display_thread_step : M t unit :=
  self <- get ;;
  match event_queue self with
  | [] => ret ()
  | event :: rest =>
      modify (set_event_queue (fun _ => rest)) ;;
      try_except
        (line <- format_event event ;; print (EventLine line))
        (fun e => print (DisplayError e))
  end.

End Formatting.

Section Transport.

(** [json.loads] on a frame, [None] when it raises. *)
Variable json_loads : pystr -> option value.

(** The exception [json.loads] raises on a frame it does not decode:
    [json.JSONDecodeError] for a text that is not JSON, and also
    [RecursionError] for a text nested too deeply, [UnicodeDecodeError] for a
    binary frame that is not UTF-8, [ValueError] for an integer of too many
    digits. *)
Variable json_error : pystr -> exn.

Definition loads (message : pystr) : result value :=
  match json_loads message with
  | Some data => Ok data
  | None => Raise (json_error message)
  end.

(** The [try] of the receive loop: [except json.JSONDecodeError] catches
    that exception only. *)
Definition on_message (message : pystr) : M t unit :=
  try_except
    (data <- lift (loads message) ;; handle_message data)
    (fun e =>
       match e with
       | JSONDecodeError => print InvalidMessage
       | _ => raise e
       end).

(** [async for message in websocket]: the frames one connection delivers;
    [lost] says that the connection then closes with an error. *)
Fixpoint receive (lost : bool) (messages : list pystr) : M t unit :=
  match messages with
  | [] => if lost then raise ConnectionClosed else ret ()
  | message :: rest =>
      self <- get ;;
      if negb (running self) then ret ()
      else on_message message ;; receive lost rest
  end.

(** What one [websockets.connect] meets. *)
Inductive connection : Type :=
| Refused
| Accepted (messages : list pystr) (lost : bool).

(** One turn of [while self.running]. *)
Definition connect_once (c : connection) : M t unit :=
  try_except
    (match c with
     | Refused => raise ConnectError
     | Accepted messages lost =>
         print ConnectedBanner ;; receive lost messages
     end)
    (fun e =>
       match e with
       | ConnectionClosed => print ConnectionLost
       | _ => print (ErrorLine e)
       end).

Fixpoint connect_and_stream (cs : list connection) : M t unit :=
  match cs with
  | [] => ret ()
  | c :: rest =>
      self <- get ;;
      if running self then connect_once c ;; connect_and_stream rest
      else ret ()
  end.

End Transport.

End AgentEventStream.

(** ** The full-screen viewer: class [CursesAgentStream] *)

Module CursesAgentStream.
Import Py Constants.
Local Open Scope py_scope.

Inductive attr : Type :=
| A_NORMAL
| A_BOLD
| A_DIM
| color_pair (n : Z).

(** What reaches the terminal. *)
Inductive draw_op : Type :=
| Clear
| AddStr (y x : Z) (text : pystr) (a : attr)
| Refresh
| StatsWindow.

(** The fields of the object and, in [screen], the calls made on [stdscr]. *)
Record t : Type := mk {
  events : list value;
  stats : gmap key Z;
  agent_stats : gmap key (gmap key Z);
  running : bool;
  filter_app : option pystr;
  filter_type : option pystr;
  show_details : bool;
  pause : bool;
  selected_index : Z;
  screen : list draw_op
}.

(** [__init__] *)
Definition init : t :=
  {| events := []; stats := ∅; agent_stats := ∅; running := true;
     filter_app := None; filter_type := None; show_details := false;
     pause := false; selected_index := 0; screen := [] |}.

Definition set_events (f : list value -> list value) (self : t) : t :=
  mk (f (events self)) (stats self) (agent_stats self) (running self)
     (filter_app self) (filter_type self) (show_details self) (pause self)
     (selected_index self) (screen self).

Definition set_stats (f : gmap key Z -> gmap key Z) (self : t) : t :=
  mk (events self) (f (stats self)) (agent_stats self) (running self)
     (filter_app self) (filter_type self) (show_details self) (pause self)
     (selected_index self) (screen self).

Definition set_agent_stats
    (f : gmap key (gmap key Z) -> gmap key (gmap key Z)) (self : t) : t :=
  mk (events self) (stats self) (f (agent_stats self)) (running self)
     (filter_app self) (filter_type self) (show_details self) (pause self)
     (selected_index self) (screen self).

Definition set_running (b : bool) (self : t) : t :=
  mk (events self) (stats self) (agent_stats self) b
     (filter_app self) (filter_type self) (show_details self) (pause self)
     (selected_index self) (screen self).

Definition set_show_details (b : bool) (self : t) : t :=
  mk (events self) (stats self) (agent_stats self) (running self)
     (filter_app self) (filter_type self) b (pause self)
     (selected_index self) (screen self).

Definition set_pause (b : bool) (self : t) : t :=
  mk (events self) (stats self) (agent_stats self) (running self)
     (filter_app self) (filter_type self) (show_details self) b
     (selected_index self) (screen self).

Definition set_screen (f : list draw_op -> list draw_op) (self : t) : t :=
  mk (events self) (stats self) (agent_stats self) (running self)
     (filter_app self) (filter_type self) (show_details self) (pause self)
     (selected_index self) (f (screen self)).

(** Window of the full-screen viewer ("Keep only last 500 events"). *)
Definition window : nat := 500.

Definition update_stats (event : value) : M t unit :=
  modify (set_stats (incr (KStr (str "total")))) ;;
  event_type <- lift (py_get event (str "event_type") (VStr (str "unknown"))) ;;
  type_key <- lift (py_hash event_type) ;;
  modify (set_stats (incr type_key)) ;;
  payload <- lift (py_get event (str "payload") (VDict [])) ;;
  agent_type <- lift (py_get payload (str "agent_type") (VStr (str "unknown"))) ;;
  app <- lift (py_get event (str "app") (VStr (str "unknown"))) ;;
  app_key <- lift (py_hash app) ;;
  modify (set_agent_stats
            (fun a => <[app_key := default ∅ (a !! app_key)]> a)) ;;
  agent_key <- lift (py_hash agent_type) ;;
  modify (set_agent_stats
            (fun a => <[app_key := incr agent_key (default ∅ (a !! app_key))]> a)).

(** [if len(self.events) > 500: self.events.pop(0)] *)
Definition trim (w : nat) (evs : list value) : list value :=
  if (Z.of_nat w <? Z.of_nat (length evs)) then drop 1 evs else evs.

Section Transport.

(** [json.loads] on a frame, [None] when it raises: the bare [except] of
    the loop passes on every exception alike, so that which one it is makes no
    difference here. *)
Variable json_loads : pystr -> option value.

Definition loads (message : pystr) : result value :=
  match json_loads message with
  | Some data => Ok data
  | None => Raise JSONDecodeError
  end.

(** The [try] of the receive loop; its bare [except] passes. *)
Definition on_message (message : pystr) : M t unit :=
  try_except
    (data <- lift (loads message) ;;
     type <- lift (py_get data (str "type") VNone) ;;
     if eq_str type (str "event") then
       event <- lift (py_get data (str "data") (VDict [])) ;;
       modify (set_events (fun evs => evs ++ [event])) ;;
       update_stats event ;;
       (* Keep only last 500 events *)
       modify (set_events (trim window))
     else ret ())
    (fun _ => ret ()).

(** [async for message in websocket] *)
Fixpoint receive (messages : list pystr) : M t unit :=
  match messages with
  | [] => ret ()
  | message :: rest =>
      self <- get ;;
      if negb (running self) then ret ()
      else on_message message ;; receive rest
  end.

End Transport.

Section Drawing.

(** [datetime.fromisoformat(s).strftime("%H:%M:%S")], [None] for the
    [ValueError] of [fromisoformat]. *)
Variable hms_of_iso : pystr -> option pystr.

(** [str(v)], what an f-string writes for [{v}]. *)
Variable py_str : value -> pystr.

(** Whether [stdscr.addstr(y, x, text)] succeeds on a [height] by [width]
    screen; where it does not, [curses.error] is raised. *)
Variable addstr_ok : Z -> Z -> Z -> Z -> pystr -> bool.

Definition addstr (height width y x : Z) (text : pystr) (a : attr)
  : M t unit :=
  if addstr_ok height width y x text
  then modify (set_screen (fun ops => ops ++ [AddStr y x text a]))
  else raise CursesError.

Definition header : pystr :=
  [0xf0; 0x178; 0x161; 0x20ac]%N ++ str " LIVE AGENT EVENT STREAM".

Definition footer : pystr :=
  str "q:Quit | p:Pause | d:Details | f:Filter | s:Stats".

Definition color_map : list (pystr * Z) :=
  [ (str "openai", 1); (str "anthropic", 2); (str "google", 3);
    (str "cohere", 4); (str "mistral", 5); (str "deepseek", 6);
    (str "langchain", 7); (str "custom", 7); (str "unknown", 7) ].

Definition len (s : pystr) : Z := Z.of_nat (length s).

(** [summary[:n] + "..."] *)
Definition ellipsize (summary : value) (n : Z) : result value :=
  match py_slice_to summary n with
  | Ok (VStr s) => Ok (VStr (s ++ str "..."))
  | Ok _ => Raise TypeError
  | Raise e => Raise e
  end.

(** "Add summary if available" *)
Definition with_summary (width : Z) (line : pystr) (summary : value)
  : result pystr :=
  if truthy summary then
    let remaining_width := width - len line - 3 in
    match py_len summary with
    | Raise e => Raise e
    | Ok n =>
        if remaining_width <? n then
          match ellipsize summary (remaining_width - 3) with
          | Ok summary' => Ok (line ++ str " - " ++ py_str summary')
          | Raise e => Raise e
          end
        else Ok (line ++ str " - " ++ py_str summary)
    end
  else Ok line.

(** "Truncate if too long" *)
Definition truncate (width : Z) (line : pystr) : pystr :=
  if width - 1 <? len line
  then slice_to (width - 4) line ++ str "..."
  else line.

(** "Format event line": [f"{timestamp} [{app}] {icon} {event_type}"] *)
Definition line_start (event : value) : result pystr :=
  match py_get event (str "timestamp") (VStr []) with Raise e => Raise e | Ok stamp =>
  match clock hms_of_iso stamp with Raise e => Raise e | Ok timestamp =>
  match py_get event (str "app") (VStr (str "unknown")) with Raise e => Raise e | Ok app0 =>
  match py_slice_to app0 20 with Raise e => Raise e | Ok app =>
  match py_get event (str "event_type") (VStr (str "unknown")) with Raise e => Raise e | Ok event_type =>
  match table_get EVENT_TYPE_ICONS event_type default_icon with Raise e => Raise e | Ok icon =>
  Ok (timestamp ++ str " [" ++ py_str app ++ str "] " ++ icon
                ++ str " " ++ py_str event_type)
  end end end end end end.

(** "Get color based on agent type" *)
Definition line_color (event : value) : result attr :=
  match py_get event (str "payload") (VDict []) with Raise e => Raise e | Ok payload =>
  match py_get payload (str "agent_type") (VStr (str "unknown")) with Raise e => Raise e | Ok agent_type =>
  match table_get color_map agent_type 7 with Raise e => Raise e | Ok number =>
  Ok (color_pair number)
  end end end.

(** The line of one event and its color: the body of the loop of [draw_ui]
    up to its [addstr]. *)
Definition event_line (width : Z) (event : value) : result (pystr * attr) :=
  match line_start event with Raise e => Raise e | Ok line =>
  match py_get event (str "summary") (VStr []) with Raise e => Raise e | Ok summary =>
  match with_summary width line summary with Raise e => Raise e | Ok line =>
  let line := truncate width line in
  match line_color event with Raise e => Raise e | Ok color =>
  Ok (line, color)
  end end end end.


(** [for i, event in enumerate(visible_events)], from index [i]. *)
Fixpoint draw_events (height width i : Z) (visible : list value) : M t unit :=
  match visible with
  | [] => ret ()
  | event :: rest =>
      let y := 3 + i in
      if height - 3 <=? y then ret ()
      else
        la <- lift (event_line width event) ;;
        addstr height width y 0 la.1 la.2 ;;
        draw_events height width (i + 1) rest
  end.

(** [draw_ui], on a screen for which [getmaxyx] gives [(height, width)]. *)
Definition draw_ui (height width : Z) : M t unit :=
  modify (set_screen (fun ops => ops ++ [Clear])) ;;
  (* Header *)
  addstr height width 0 ((width - len header) `div` 2) header A_BOLD ;;
  (* Stats bar; reading [self.stats['total']] makes the key *)
  modify (set_stats (fun d => <[KStr (str "total")
                                := default 0 (d !! KStr (str "total"))]> d)) ;;
  self <- get ;;
  let stats_line :=
    str "Total: "
      ++ py_str (VInt (default 0 (stats self !! KStr (str "total"))))
      ++ str " | " in
  let stats_line :=
    stats_line ++ str "Agents: "
      ++ py_str (VInt (Z.of_nat (size (agent_stats self)))) ++ str " | " in
  let stats_line :=
    if pause self then stats_line ++ str "PAUSED" else stats_line in
  addstr height width 1 0 stats_line A_NORMAL ;;
  (* Events area *)
  let event_height := height - 3 - 3 in
  let visible_events := slice_from (- event_height) (events self) in
  draw_events height width 0 visible_events ;;
  (* Footer *)
  addstr height width (height - 1) 0 footer A_DIM ;;
  modify (set_screen (fun ops => ops ++ [Refresh])).

(** The calls that [show_stats_window] makes on its window, in three
    stages: [curses.newwin], [win.box] and the title; the two lines written
    before [sorted]; the lines written after it, [win.refresh] and
    [win.getch]. *)
Inductive popup_stage : Type :=
| NewWindow
| Heading
| Rows.

(** Whether the calls of a stage succeed on a window of [win_height] by
    [win_width], for the object as it is; where they do not, [curses.error]
    is raised. *)
Variable popup_ok : Z -> Z -> popup_stage -> t -> bool.

(** Two keys that [<] compares: two [str], or two numbers. *)
Definition same_kind (k k' : key) : bool :=
  match k, k' with
  | KStr _, KStr _ | KInt _, KInt _ => true
  | _, _ => false
  end.

(** [sorted(d.items())] returns: the items are compared by their keys, which
    are distinct, and keys of different types raise [TypeError]. *)
Definition sortable (d : gmap key Z) : bool :=
  match (map_to_list d).*1 with
  | [] => true
  | k :: rest => forallb (same_kind k) rest
  end.

(** [show_stats_window], on a screen for which [getmaxyx] gives
    [(height, width)]. What the window shows depends on the order in which
    the keys entered the two dictionaries; it is one [StatsWindow] on the
    screen. The reading of [self.stats['total']] makes the key. *)
Definition show_stats_window (height width : Z) : M t unit :=
  (* Create window *)
  let win_height := Z.min 20 (height - 4) in
  let win_width := Z.min 60 (width - 4) in
  self <- get ;;
  (if popup_ok win_height win_width NewWindow self then ret ()
   else raise CursesError) ;;
  (* Content *)
  modify (set_stats (fun d => <[KStr (str "total")
                                := default 0 (d !! KStr (str "total"))]> d)) ;;
  self <- get ;;
  (if popup_ok win_height win_width Heading self then ret ()
   else raise CursesError) ;;
  (* Event types *)
  (if sortable (stats self) then ret () else raise TypeError) ;;
  (if popup_ok win_height win_width Rows self then ret ()
   else raise CursesError) ;;
  modify (set_screen (fun ops => ops ++ [StatsWindow])).

(** [handle_input] when [getch] gives [key]. *)
Definition handle_input (height width key : Z) : M t unit :=
  self <- get ;;
  if key =? 113 (* ord('q') *) then modify (set_running false)
  else if key =? 112 (* ord('p') *) then modify (set_pause (negb (pause self)))
  else if key =? 100 (* ord('d') *) then
    modify (set_show_details (negb (show_details self)))
  else if key =? 115 (* ord('s') *) then show_stats_window height width
  else ret ().

(** One turn of the main loop of [run]; its [except Exception] passes. *)
Definition run_step (height width key : Z) : M t unit :=
  try_except (draw_ui height width ;; handle_input height width key)
             (fun _ => ret ()).

End Drawing.

End CursesAgentStream.

(** ** The polling viewer: class [SimpleAgentStream] of
    src/cli/agent-stream-simple.py *)

Module SimpleAgentStream.
Import Py Constants.
Local Open Scope py_scope.

(** ANSI color codes *)
Definition COLORS : list (pystr * pystr) :=
  [ (str "openai", esc "[92m");
    (str "anthropic", esc "[94m");
    (str "custom", esc "[93m");
    (str "default", esc "[97m") ].

Definition RESET : pystr := esc "[0m".

(** One constructor for each [print] call that can follow a fetch. *)
Inductive printed : Type :=
| FetchError                 (* fetch_events, "Error fetching events: {e}" *)
| EventLine (line : pystr)   (* display_event *)
| ErrorLine (e : exn).       (* poll_events, "Error: {e}" *)

(** The fields of the object, the local [seen_ids] of [poll_events] and
    what was printed. *)
Record t : Type := mk {
  running : bool;
  stats : gmap key Z;
  seen_ids : gset key;
  output : list printed
}.

(** [__init__], and [seen_ids = set()] *)
Definition init : t :=
  {| running := true; stats := ∅; seen_ids := ∅; output := [] |}.

Definition set_stats (f : gmap key Z -> gmap key Z) (self : t) : t :=
  mk (running self) (f (stats self)) (seen_ids self) (output self).

Definition set_seen_ids (f : gset key -> gset key) (self : t) : t :=
  mk (running self) (stats self) (f (seen_ids self)) (output self).

Definition set_output (f : list printed -> list printed) (self : t) : t :=
  mk (running self) (stats self) (seen_ids self) (f (output self)).

Definition print (p : printed) : M t unit :=
  modify (set_output (fun out => out ++ [p])).

(** What one [urlopen] of [/events?limit=10] meets. *)
Inductive response : Type :=
| Unreachable
| Body (body : pystr).

Section Polling.

(** [json.loads], [None] where it raises. *)
Variable json_loads : pystr -> option value.

(** [datetime.fromisoformat(s).strftime('%H:%M:%S')], [None] for the
    [ValueError] of [fromisoformat]. *)
Variable hms_of_iso : pystr -> option pystr.

(** [str(v)], what an f-string writes for [{v}]. *)
Variable py_str : value -> pystr.

(** [seen_ids.pop()]: the element a non-empty set gives up. *)
Variable set_pop : gset key -> key.

Definition fetch_events (r : response) : M t value :=
  match r with
  | Unreachable => print FetchError ;; ret (VList [])
  | Body body =>
      match json_loads body with
      | Some data => ret data
      | None => print FetchError ;; ret (VList [])
      end
  end.

Definition display_event (event : value) : M t unit :=
  (* Parse event data *)
  stamp <- lift (py_get event (str "timestamp") (VStr [])) ;;
  timestamp <- lift (clock hms_of_iso stamp) ;;
  app <- lift (py_get event (str "app") (VStr (str "unknown"))) ;;
  event_type <- lift (py_get event (str "event_type") (VStr (str "unknown"))) ;;
  summary <- lift (py_get event (str "summary") (VStr [])) ;;
  (* Get agent type from payload *)
  payload <- lift (py_get event (str "payload") (VDict [])) ;;
  let payload :=
    match payload with
    | VStr s => default (VDict []) (json_loads s)
    | _ => payload
    end in
  agent_type <- lift (py_get payload (str "agent_type") (VStr (str "default"))) ;;
  default_color <- lift (subscript COLORS (str "default")) ;;
  color <- lift (table_get COLORS agent_type default_color) ;;
  (* Update stats *)
  modify (set_stats (incr (KStr (str "total")))) ;;
  type_key <- lift (py_hash event_type) ;;
  modify (set_stats (incr type_key)) ;;
  (* Format output *)
  let line := DIM ++ timestamp ++ RESET ++ str " " ++ color ++ BOLD
                  ++ str "[" ++ py_str app ++ str "]" ++ RESET ++ str " "
                  ++ py_str event_type in
  print (EventLine (if truthy summary
                    then line ++ str " - " ++ DIM ++ py_str summary ++ RESET
                    else line)).

(** The body of [for event in events]. *)
Definition visit (event : value) : M t unit :=
  event_id <- lift (py_get event (str "id") VNone) ;;
  id_key <- lift (py_hash event_id) ;;
  self <- get ;;
  if bool_decide (id_key ∈ seen_ids self) then ret ()
  else
    modify (set_seen_ids (fun ids => {[id_key]} ∪ ids)) ;;
    display_event event ;;
    (* Keep only last 100 IDs *)
    self' <- get ;;
    if 100 <? Z.of_nat (size (seen_ids self'))
    then modify (set_seen_ids (fun ids => ids ∖ {[set_pop ids]}))
    else ret ().

(** One turn of [while self.running]. *)
Definition poll_once (r : response) : M t unit :=
  try_except
    (events <- fetch_events r ;;
     items <- lift (py_iter events) ;;
     for_each visit items)
    (fun e => print (ErrorLine e)).

Fixpoint poll_loop (rs : list response) : M t unit :=
  match rs with
  | [] => ret ()
  | r :: rest =>
      self <- get ;;
      if running self then poll_once r ;; poll_loop rest else ret ()
  end.

Definition poll_events (rs : list response) : M t unit :=
  modify (set_seen_ids (fun _ => ∅)) ;; poll_loop rs.

End Polling.

End SimpleAgentStream.

(** ** Vocabulary of the statements *)

Import Py Constants.
Local Open Scope py_scope.

(** Events delivered one after the other to [process_event]; an event on
    which it raises leaves what it had written, and the next one is
    processed from there. *)
Definition process_all (es : list value) (s : AgentEventStream.t)
  : AgentEventStream.t :=
  foldl (fun s e => exec (AgentEventStream.process_event e) s) s es.

(** [stats["total"]], zero while the key is missing. *)
Definition total (d : gmap key Z) : Z := default 0 (d !! KStr (str "total")).

Definition sum_counts (d : gmap key Z) : Z :=
  map_fold (fun _ n acc => n + acc) 0 d.

(** The sum of [stats[k]] over the keys other than ["total"]. *)
Definition category_sum (d : gmap key Z) : Z :=
  sum_counts (delete (KStr (str "total")) d).

(** The sum of all the counts nested in [agent_stats]. *)
Definition agent_sum (a : gmap key (gmap key Z)) : Z :=
  map_fold (fun _ inner acc => sum_counts inner + acc) 0 a.

(** The last [n] elements of [l]. *)
Definition last_n {A} (n : nat) (l : list A) : list A :=
  drop (length l - n) l.

(** A message is a dict whose ["type"] is [kind] and which carries [v]
    under [field]. *)
Definition carries (kind field : pystr) (v data : value) : Prop :=
  exists kvs, data = VDict kvs
              /\ assoc (str "type") kvs = Some (VStr kind)
              /\ assoc field kvs = Some v.

(** An event with the given source and category and nothing else. *)
Definition sample_event (app event_type : pystr) : value :=
  VDict [(str "app", VStr app); (str "event_type", VStr event_type)].

(** [event.get(field, "unknown")] as a key of the counters. *)
Definition field_key (event : value) (field : pystr) : result key :=
  match py_get event field (VStr (str "unknown")) with
  | Ok v => py_hash v
  | Raise e => Raise e
  end.

(** [event.get("payload", {}).get("agent_type", "unknown")] as a key. *)
Definition agent_type_key (event : value) : result key :=
  match py_get event (str "payload") (VDict []) with
  | Ok payload =>
      match py_get payload (str "agent_type") (VStr (str "unknown")) with
      | Ok v => py_hash v
      | Raise e => Raise e
      end
  | Raise e => Raise e
  end.

(** The object after [process_event] has run to its end on [event], counted
    under the three keys. *)
Definition counted (type_key app_key agent_key : key) (event : value)
    (s : AgentEventStream.t) : AgentEventStream.t :=
  AgentEventStream.set_events
    (AgentEventStream.append_bounded AgentEventStream.window event)
    (AgentEventStream.set_event_queue (fun q => q ++ [event])
       (AgentEventStream.set_agent_stats
          (fun a => <[app_key := incr agent_key (default ∅ (a !! app_key))]> a)
          (AgentEventStream.set_stats
             (fun d => incr type_key (incr (KStr (str "total")) d)) s))).

(** [event.get("app") == source] *)
Definition from_source (source : pystr) (event : value) : bool :=
  match py_get event (str "app") VNone with
  | Ok v => eq_str v source
  | Raise _ => false
  end.

(** An event of the given category that carries its number in the stream. *)
Definition numbered_event (event_type : pystr) (n : Z) : value :=
  VDict [(str "event_type", VStr event_type); (str "seq", VInt n)].

(** A criterion that is not set: absent, or the empty string. *)
Definition no_criterion (c : option pystr) : Prop := c = None \/ c = Some [].

(** A record with a timestamp, a source and a category, and no "id". *)
Definition record_without_id (stamp app event_type : pystr) : value :=
  VDict [(str "timestamp", VStr stamp); (str "app", VStr app);
         (str "event_type", VStr event_type)].

(** A record that carries the identifier [n]. *)
Definition record_with_id (stamp : pystr) (n : Z) : value :=
  VDict [(str "id", VInt n); (str "timestamp", VStr stamp);
         (str "app", VStr (str "A")); (str "event_type", VStr (str "tool_use"))].

(** The number of event lines among what was printed. *)
Definition lines_shown (out : list SimpleAgentStream.printed) : nat :=
  length (List.filter
            (fun p => match p with
                      | SimpleAgentStream.EventLine _ => true
                      | _ => false
                      end) out).

(** An instance of [str]: a [str] is written as it is, any other value as
    [?]. *)
Definition str_of_str (v : value) : pystr :=
  match v with
  | VStr s => s
  | _ => str "?"
  end.


(** [k] is one of the keys of the table. *)
Definition recognized {V} (table : list (pystr * V)) (k : value) : bool :=
  match k with
  | VStr s => bool_decide (is_Some (assoc s table))
  | _ => false
  end.

(** A computation that neither reads nor writes what [f] changes. *)
Definition commutes {S A} (f : S -> S) (c : M S A) : Prop :=
  forall s, c (f s) = ((c s).1, f (c s).2).

(** An event of a category and an agent type that are in no table, with a
    summary longer than a screen is wide. *)
Definition unlisted_event : value :=
  VDict [(str "timestamp", VStr (str "2024-01-01T12:00:00"));
         (str "app", VStr (str "A"));
         (str "event_type", VStr (str "brand_new"));
         (str "summary", VStr (replicate 200 120%N));
         (str "payload", VDict [(str "agent_type", VStr (str "llama"))])].

(** [process_event] runs to its end on [e] from [s]: [pause] is off, the
    event passes both filters, and its category, source and agent type can be
    counter keys. *)
Definition accepted (s : AgentEventStream.t) (e : value) : Prop :=
  AgentEventStream.pause s = false
  /\ AgentEventStream.filtered_out (AgentEventStream.filter_app s) e (str "app")
     = Ok false
  /\ AgentEventStream.filtered_out (AgentEventStream.filter_type s) e
       (str "event_type") = Ok false
  /\ (exists tk, field_key e (str "event_type") = Ok tk)
  /\ (exists ak, field_key e (str "app") = Ok ak)
  /\ (exists gk, agent_type_key e = Ok gk).

(** The category of the event is the string "total". *)
Definition category_is_total (e : value) : bool :=
  match field_key e (str "event_type") with
  | Ok k => bool_decide (k = KStr (str "total"))
  | Raise _ => false
  end.

(** The sum of [weight v] over the values of a map. *)
Definition weighted_sum {V} (weight : V -> Z) (m : gmap key V) : Z :=
  map_fold (fun _ v acc => weight v + acc) 0 m.

(** A decoder for which every frame is a live message whose event has a
    JSON string for payload. *)
Definition string_payload_frame (_ : pystr) : option value :=
  Some (VDict [(str "type", VStr (str "event"));
               (str "data", VDict [(str "app", VStr (str "A"));
                                   (str "event_type", VStr (str "tool_use"));
                                   (str "payload", VStr (str "{}"))])]).

(** ** Vocabulary of the further properties *)

(** [P] holds after [c] whenever it held before, whether [c] returns or
    raises. *)
Definition preserves {S A} (P : S -> Prop) (c : M S A) : Prop :=
  forall s, P s -> P (c s).2.

(** [c] returns, whatever the state it starts from. *)
Definition never_raises {S} (c : M S unit) : Prop :=
  forall s, (c s).1 = Ok ().

(** [d[k]] on a [defaultdict(int)], without the write. *)
Definition count (k : key) (d : gmap key Z) : Z := default 0 (d !! k).

(** A decoder with four kinds of frame: a backfill of two events, a live
    event, a live event whose payload is [null], and anything else, which it
    does not decode. *)
Definition sample_loads (frame : pystr) : option value :=
  match frame with
  | [1%N] =>
      Some (VDict [(str "type", VStr (str "init"));
                   (str "events",
                    VList [sample_event (str "A") (str "tool_use");
                           sample_event (str "B") (str "error")])])
  | [2%N] =>
      Some (VDict [(str "type", VStr (str "event"));
                   (str "data", sample_event (str "A") (str "tool_use"))])
  | [3%N] =>
      Some (VDict [(str "type", VStr (str "event"));
                   (str "data", VDict [(str "payload", VNone)])])
  | _ => None
  end.

(** The exception of [json.loads] on the frames that [sample_loads] does not
    decode: the frame [[4]] is nested too deeply, the others are not JSON. *)
Definition sample_error (frame : pystr) : exn :=
  match frame with
  | [4%N] => RecursionError
  | _ => JSONDecodeError
  end.

(** [event.get("event_type") == category] *)
Definition of_category (category : pystr) (event : value) : bool :=
  match py_get event (str "event_type") VNone with
  | Ok v => eq_str v category
  | Raise _ => false
  end.

(** [run_display_thread] for at most [n] turns of its [while self.running],
    each turn finding an event in the queue or the queue empty. *)
Fixpoint run_display_thread (hms_of_iso : pystr -> option pystr)
    (py_str : value -> pystr) (n : nat)
  : M AgentEventStream.t unit :=
  match n with
  | O => ret ()
  | S n' =>
      self <- get ;;
      if AgentEventStream.running self then
        AgentEventStream.run_display_thread_step hms_of_iso py_str ;;
        run_display_thread hms_of_iso py_str n'
      else ret ()
  end.

(** What the display thread prints for [event]: its line, or the display
    error when [format_event] raises. *)
Definition displayed (hms_of_iso : pystr -> option pystr)
    (py_str : value -> pystr) (s : AgentEventStream.t) (event : value)
  : AgentEventStream.channel * AgentEventStream.printed :=
  match (AgentEventStream.format_event hms_of_iso py_str event s).1 with
  | Ok line => (AgentEventStream.Stdout, AgentEventStream.EventLine line)
  | Raise e => (AgentEventStream.Stdout, AgentEventStream.DisplayError e)
  end.

(** The full-screen viewer with other values in [filter_app] and
    [filter_type]. *)
Definition with_filters (a b : option pystr) (self : CursesAgentStream.t)
  : CursesAgentStream.t :=
  CursesAgentStream.mk
    (CursesAgentStream.events self) (CursesAgentStream.stats self)
    (CursesAgentStream.agent_stats self) (CursesAgentStream.running self)
    a b (CursesAgentStream.show_details self) (CursesAgentStream.pause self)
    (CursesAgentStream.selected_index self) (CursesAgentStream.screen self).

(** The category, the source and the agent type of the event can be counter
    keys: [update_stats] runs to its end on it.  *)
Definition countable (e : value) : Prop :=
  (exists tk, field_key e (str "event_type") = Ok tk)
  /\ (exists ak, field_key e (str "app") = Ok ak)
  /\ (exists gk, agent_type_key e = Ok gk).

(** The frame is a live message that carries the event. *)
Definition live_frame (json_loads : pystr -> option value) (m : pystr)
    (e : value) : Prop :=
  exists data, json_loads m = Some data
               /\ carries (str "event") (str "data") e data.

(** A call of [draw_ui] that writes an event line: at column 0, on a row of
    the events area that starts at [first]. *)
Definition event_row (height first : Z) (op : CursesAgentStream.draw_op)
  : Prop :=
  exists y text a,
    op = CursesAgentStream.AddStr y 0 text a /\ first <= y < height - 3.

(** The call writes an event line: only those are written with a color
    pair. *)
Definition is_event_line (op : CursesAgentStream.draw_op) : bool :=
  match op with
  | CursesAgentStream.AddStr _ _ _ (CursesAgentStream.color_pair _) => true
  | _ => false
  end.

(** The two objects hold the same events, the same flags and the same
    counts; the screens may differ, and so may the keys of [stats] that
    count zero. *)
Definition same_aggregate (s0 s : CursesAgentStream.t) : Prop :=
  CursesAgentStream.events s = CursesAgentStream.events s0
  /\ CursesAgentStream.agent_stats s = CursesAgentStream.agent_stats s0
  /\ CursesAgentStream.running s = CursesAgentStream.running s0
  /\ CursesAgentStream.pause s = CursesAgentStream.pause s0
  /\ CursesAgentStream.show_details s = CursesAgentStream.show_details s0
  /\ forall k, count k (CursesAgentStream.stats s)
               = count k (CursesAgentStream.stats s0).

(** An instance of [addstr] that always succeeds. *)
Definition addstr_always (_ _ _ _ : Z) (_ : pystr) : bool := true.

(** [event.get('id')] as an element of [seen_ids]. *)
Definition id_key (event : value) : result key :=
  match py_get event (str "id") VNone with
  | Ok v => py_hash v
  | Raise e => Raise e
  end.

(** The identifiers of the records of a batch. *)
Fixpoint ids_of (es : list value) : gset key :=
  match es with
  | [] => ∅
  | e :: rest =>
      match id_key e with
      | Ok k => {[k]} ∪ ids_of rest
      | Raise _ => ids_of rest
      end
  end.

(** The record has an identifier that can be in a set, and [display_event]
    runs to its end on it. *)
Definition showable (json_loads : pystr -> option value)
    (hms_of_iso : pystr -> option pystr) (py_str : value -> pystr)
    (e : value) : Prop :=
  (exists k, id_key e = Ok k)
  /\ forall s, (SimpleAgentStream.display_event json_loads hms_of_iso py_str e
                  s).1 = Ok ().


(** ** Vocabulary of the event lines *)




(** An instance of the popup's calls that always succeed. *)
Definition popup_always (_ _ : Z) (_ : CursesAgentStream.popup_stage)
    (_ : CursesAgentStream.t) : bool := true.
(** ** Lemmas on the monad *)

Lemma for_each_Forall2 {S A B} (f : A -> M S unit) (g : B -> M S unit)
    (xs : list A) (ys : list B) (R : A -> B -> Prop) :
  (forall x y, R x y -> forall s, f x s = g y s) ->
  Forall2 R xs ys -> forall s, for_each f xs s = for_each g ys s.
Proof.
  intros Hfg HR. induction HR as [|x y xs ys Hxy _ IH]; intros s; simpl.
  - reflexivity.
  - unfold bind. rewrite (Hfg x y Hxy s).
    destruct (g y s) as [[[]|e] s']; auto.
Qed.

(** ** Backfill and live delivery *)

Lemma handle_message_event (data e : value) (s : AgentEventStream.t) :
  carries (str "event") (str "data") e data ->
  AgentEventStream.handle_message data s = AgentEventStream.process_event e s.
Proof.
  intros (kvs & -> & Htype & Hdata).
  unfold AgentEventStream.handle_message, py_get.
  rewrite Htype, Hdata. reflexivity.
Qed.

Lemma handle_message_init (data : value) (es : list value)
    (s : AgentEventStream.t) :
  carries (str "init") (str "events") (VList es) data ->
  AgentEventStream.handle_message data s
  = for_each AgentEventStream.process_event es s.
Proof.
  intros (kvs & -> & Htype & Hevents).
  unfold AgentEventStream.handle_message, py_get.
  rewrite Htype, Hevents. reflexivity.
Qed.

(** C7. For every list of events [e1; ...; en], handling one message of type
    "init" that carries the list gives the same outcome and leaves the object
    in the same state (recent buffer, total, per-category and per-source
    counters, display queue, everything printed) as handling, one after the
    other, n messages of type "event" that carry e1, ..., en: both go through
    [process_event], event by event, and both stop at the first event on which
    it raises. *)
Theorem backfill_same_as_live
    (backfill : value) (lives es : list value) (s : AgentEventStream.t) :
  carries (str "init") (str "events") (VList es) backfill ->
  Forall2 (fun live e => carries (str "event") (str "data") e live) lives es ->
  AgentEventStream.handle_message backfill s
  = for_each AgentEventStream.handle_message lives s.
Proof.
  intros Hinit Hlives.
  rewrite (handle_message_init _ _ _ Hinit).
  symmetry. revert s.
  apply (for_each_Forall2 _ _ _ _ _
           (fun live e H s => handle_message_event live e s H) Hlives).
Qed.

(** ** [process_event], case by case *)

Import AgentEventStream.

Lemma process_event_paused (e : value) (s : t) :
  pause s = true -> process_event e s = (Ok (), s).
Proof.
  intros Hp. unfold process_event, bind, get. simpl. rewrite Hp. reflexivity.
Qed.

Lemma process_event_counted (e : value) (s : t) (tk ak gk : key) :
  pause s = false ->
  filtered_out (filter_app s) e (str "app") = Ok false ->
  filtered_out (filter_type s) e (str "event_type") = Ok false ->
  field_key e (str "event_type") = Ok tk ->
  agent_type_key e = Ok gk ->
  field_key e (str "app") = Ok ak ->
  process_event e s = (Ok (), counted tk ak gk e s).
Proof.
  intros Hp Hfa Hft Htk Hgk Hak.
  unfold process_event, bind, get, lift, modify, ret. simpl.
  rewrite Hp, Hfa, Hft.
  unfold field_key in Htk, Hak. unfold agent_type_key in Hgk.
  destruct (py_get e (str "event_type") _) as [ty|]; [|discriminate].
  rewrite Htk.
  destruct (py_get e (str "payload") _) as [payload|]; [|discriminate].
  destruct (py_get payload (str "agent_type") _) as [agent|]; [|discriminate].
  destruct (py_get e (str "app") _) as [app|]; [|discriminate].
  rewrite Hak, Hgk.
  unfold counted, set_events, set_event_queue, set_agent_stats, set_stats.
  simpl. rewrite lookup_insert_eq, insert_insert_eq. reflexivity.
Qed.

Ltac destruct_scrutinee :=
  match goal with
  | |- context [match ?x with _ => _ end] => destruct x eqn:?
  | |- context [if ?x then _ else _] => destruct x eqn:?
  end.

Ltac destruct_inner :=
  match goal with
  | |- context [match ?x with _ => _ end] =>
      lazymatch x with
      | context [match _ with _ => _ end] => fail
      | _ => destruct x eqn:?
      end
  end.

Ltac exec_py :=
  unfold process_event, exec, outcome, bind, get, lift, modify, ret, raise;
  simpl; repeat (destruct_scrutinee; simpl).

(** [process_event] writes the counters, the queue and the buffer, nothing
    else. *)
Lemma process_event_frame (e : value) (s : t) :
  let s' := exec (process_event e) s in
  running s' = running s /\ filter_app s' = filter_app s
  /\ filter_type s' = filter_type s /\ show_details s' = show_details s
  /\ pause s' = pause s /\ output s' = output s.
Proof. exec_py; repeat split; congruence. Qed.

(** An event that does not pass the filters, or arrives while paused, leaves
    the object as it was. *)
Lemma process_event_rejected (e : value) (s : t) :
  pause s = true
  \/ filtered_out (filter_app s) e (str "app") <> Ok false
  \/ filtered_out (filter_type s) e (str "event_type") <> Ok false ->
  exec (process_event e) s = s.
Proof.
  intros H. unfold process_event, exec, bind, get, lift, ret. simpl.
  destruct (pause s); [reflexivity|].
  destruct H as [H|[H|H]]; [discriminate| |].
  - destruct (filtered_out (filter_app s) e _) as [[]|]; simpl;
      try reflexivity. congruence.
  - destruct (filtered_out (filter_app s) e _) as [[]|]; simpl;
      try reflexivity.
    destruct (filtered_out (filter_type s) e _) as [[]|]; simpl;
      try reflexivity. congruence.
Qed.

Lemma elem_of_append_bounded (w : nat) (e x : value) (evs : list value) :
  x ∈ append_bounded w e evs -> x ∈ evs \/ x = e.
Proof.
  unfold append_bounded. intros H.
  assert (x ∈ evs ++ [e]) as Hin.
  { destruct (_ <? _); [|exact H].
    apply (subseteq_drop 1 (evs ++ [e])). exact H. }
  apply elem_of_app in Hin as [Hin|Hin]; [left; exact Hin|].
  right. apply list_elem_of_singleton in Hin. exact Hin.
Qed.

(** Which parts of the aggregate an event can touch, whatever becomes of it. *)
Lemma process_event_effect (e : value) (s : t) :
  let s' := exec (process_event e) s in
  (forall k, field_key e (str "app") <> Ok k ->
             agent_stats s' !! k = agent_stats s !! k)
  /\ (events s' = events s
      \/ events s' = append_bounded window e (events s))
  /\ (event_queue s' = event_queue s
      \/ event_queue s' = event_queue s ++ [e]).
Proof.
  unfold field_key.
  exec_py; (split; [intros k Hk | split; auto]); try reflexivity.
  all: try (rewrite lookup_insert_ne; [| congruence]).
  all: try (rewrite lookup_insert_ne; [| congruence]).
  all: try reflexivity.
Qed.

(** ** The source filter *)

Lemma from_source_field_key (S : pystr) (e : value) :
  from_source S e = true -> field_key e (str "app") = Ok (KStr S).
Proof.
  unfold from_source, field_key, py_get.
  destruct e as [| | | | |kvs]; try discriminate.
  destruct (assoc (str "app") kvs) as [v|]; simpl; [|discriminate].
  destruct v; simpl; try discriminate.
  intros H. apply bool_decide_eq_true in H. subst. reflexivity.
Qed.

Lemma filtered_out_other_source (S : pystr) (e : value) :
  S <> [] -> from_source S e = false ->
  filtered_out (Some S) e (str "app") <> Ok false.
Proof.
  intros HS. unfold from_source, filtered_out.
  destruct S as [|c S']; [congruence|].
  destruct (py_get e (str "app") VNone) as [v|]; [|discriminate].
  intros ->. discriminate.
Qed.

Lemma process_event_source_filter (S : pystr) (e : value) (s : t) :
  S <> [] -> filter_app s = Some S ->
  let s' := exec (process_event e) s in
  (from_source S e = false -> s' = s)
  /\ (forall k, k <> KStr S -> agent_stats s' !! k = agent_stats s !! k)
  /\ (forall x, x ∈ events s' -> x ∈ events s \/ from_source S x = true)
  /\ (forall x, x ∈ event_queue s' ->
                x ∈ event_queue s \/ from_source S x = true).
Proof.
  intros HS Hf s'.
  assert (from_source S e = false -> s' = s) as Hrej.
  { intros Hfrom. apply process_event_rejected. right. left.
    rewrite Hf. apply filtered_out_other_source; assumption. }
  split; [exact Hrej|].
  destruct (from_source S e) eqn:Hfrom.
  - pose proof (process_event_effect e s) as (Ha & Hev & Hq).
    fold s' in Ha, Hev, Hq.
    rewrite (from_source_field_key _ _ Hfrom) in Ha.
    split; [|split].
    + intros k Hk. apply Ha. congruence.
    + intros x Hx. destruct Hev as [Hev|Hev]; rewrite Hev in Hx; [auto|].
      apply elem_of_append_bounded in Hx as [Hx| ->]; auto.
    + intros x Hx. destruct Hq as [Hq|Hq]; rewrite Hq in Hx; [auto|].
      apply elem_of_app in Hx as [Hx|Hx]; [auto|].
      apply list_elem_of_singleton in Hx. subst. auto.
  - rewrite (Hrej eq_refl). auto.
Qed.

(** C2. For every non-empty string S, every stream of records and every
    state whose source criterion is S, processing the stream leaves exactly the state that processing only the records whose "app" is
    the string S would leave: a record from any other source T changes no
    counter, adds no entry to agent_stats and does not reach the recent buffer
    or the display queue. No key other than S of agent_stats changes, and
    every record added to the buffer or the queue has "app" equal to S. A
    criterion that is absent (None) rejects no record. *)
Theorem source_filter_keeps_only_its_source
    (S : pystr) (es : list value) (s0 : t) :
  S <> [] -> filter_app s0 = Some S ->
  let s := process_all es s0 in
  s = process_all (List.filter (from_source S) es) s0
  /\ (forall k, k <> KStr S -> agent_stats s !! k = agent_stats s0 !! k)
  /\ (forall x, x ∈ events s -> x ∈ events s0 \/ from_source S x = true)
  /\ (forall x, x ∈ event_queue s ->
                x ∈ event_queue s0 \/ from_source S x = true)
  /\ (forall e field, filtered_out None e field = Ok false
                      /\ filtered_out (Some []) e field = Ok false).
Proof.
  intros HS. revert s0.
  induction es as [|e es IH]; intros s0 Hf; simpl.
  - repeat split; auto.
  - pose proof (process_event_source_filter S e s0 HS Hf) as (Hrej & Ha & Hev & Hq).
    pose proof (process_event_frame e s0) as (_ & Hf' & _).
    simpl in Hf'. rewrite Hf in Hf'.
    specialize (IH _ Hf') as (IH1 & IHa & IHev & IHq & _).
    unfold process_all in *.
    split; [|split; [|split; [|split]]].
    + rewrite IH1. destruct (from_source S e) eqn:Hfrom; simpl.
      * reflexivity.
      * rewrite (Hrej eq_refl). reflexivity.
    + intros k Hk. rewrite (IHa k Hk). apply Ha, Hk.
    + intros x Hx. destruct (IHev x Hx) as [Hx'|Hx']; auto.
    + intros x Hx. destruct (IHq x Hx) as [Hx'|Hx']; auto.
    + split; reflexivity.
Qed.

Lemma source_filter_keeps_only_its_source_witness :
  str "A" <> []
  /\ filter_app (set_filter_app (Some (str "A")) init) = Some (str "A")
  /\ let es := [sample_event (str "A") (str "tool_use");
                sample_event (str "B") (str "error")] in
     let s0 := set_filter_app (Some (str "A")) init in
     let s := process_all es s0 in
     s = process_all (List.filter (from_source (str "A")) es) s0
     /\ (forall k, k <> KStr (str "A") ->
                   agent_stats s !! k = agent_stats s0 !! k)
     /\ (forall x, x ∈ events s ->
                   x ∈ events s0 \/ from_source (str "A") x = true)
     /\ (forall x, x ∈ event_queue s ->
                   x ∈ event_queue s0 \/ from_source (str "A") x = true)
     /\ (forall e field, filtered_out None e field = Ok false
                         /\ filtered_out (Some []) e field = Ok false).
Proof.
  split; [discriminate|]. split; [reflexivity|].
  apply (source_filter_keeps_only_its_source (str "A")
           [sample_event (str "A") (str "tool_use");
            sample_event (str "B") (str "error")]
           (set_filter_app (Some (str "A")) init)).
  - discriminate.
  - reflexivity.
Defined.

(** Beside C2, whose sources are non-empty strings: the empty string given
    as a criterion is treated by [process_event] as no criterion, so that a
    record from source "T" is counted. *)
Lemma empty_source_criterion_filters_nothing :
  ~ (agent_stats
       (process_all [sample_event (str "T") (str "tool_use")]
          (set_filter_app (Some []) init)) !! KStr (str "T") = None).
Proof. vm_compute. discriminate. Qed.

(** ** Pause *)

Lemma process_all_paused (es : list value) (s : t) :
  pause s = true -> process_all es s = s.
Proof.
  intros Hp. induction es as [|e es IH]; simpl; [reflexivity|].
  unfold exec. rewrite (process_event_paused e s Hp). exact IH.
Qed.

Lemma curses_on_message_pause (json_loads : pystr -> option value)
    (m : pystr) (b : bool) (c : CursesAgentStream.t) :
  CursesAgentStream.on_message json_loads m (CursesAgentStream.set_pause b c)
  = ((CursesAgentStream.on_message json_loads m c).1,
     CursesAgentStream.set_pause b
       (CursesAgentStream.on_message json_loads m c).2).
Proof.
  unfold CursesAgentStream.on_message, CursesAgentStream.update_stats,
    CursesAgentStream.loads, try_except, bind, lift, modify, ret.
  simpl. repeat (destruct_inner; simpl); reflexivity.
Qed.

(** C3, as the code has it. In the append-log viewer the events that arrive
    while [pause] is on are discarded: they change no counter, are not queued
    for display and do not enter the recent buffer, so that turning [pause]
    off finds the counters where they were. In the full-screen viewer the key
    'p' only flips the flag: a frame received while [pause] is on is appended
    and counted exactly as when it is off. *)
Theorem pause_drops_events_in_the_log_viewer
    (s : t) (es : list value)
    (json_loads : pystr -> option value) (m : pystr) (b : bool)
    (popup_ok : Z -> Z -> CursesAgentStream.popup_stage
                -> CursesAgentStream.t -> bool)
    (height width : Z) (c : CursesAgentStream.t) :
  pause s = true ->
  process_all es s = s
  /\ stats (set_pause false (process_all es s)) = stats s
  /\ exec (CursesAgentStream.handle_input popup_ok height width 112) c
     = CursesAgentStream.set_pause (negb (CursesAgentStream.pause c)) c
  /\ CursesAgentStream.on_message json_loads m (CursesAgentStream.set_pause b c)
     = ((CursesAgentStream.on_message json_loads m c).1,
        CursesAgentStream.set_pause b
          (CursesAgentStream.on_message json_loads m c).2).
Proof.
  intros Hp. rewrite (process_all_paused es s Hp).
  repeat split.
  apply curses_on_message_pause.
Qed.

Lemma pause_drops_events_in_the_log_viewer_witness :
  pause (set_pause true init) = true
  /\ process_all [sample_event (str "A") (str "tool_use")] (set_pause true init)
     = set_pause true init.
Proof.
  split; [reflexivity|].
  apply (pause_drops_events_in_the_log_viewer (set_pause true init)
           [sample_event (str "A") (str "tool_use")]
           (fun _ => None) [] true popup_always 24 80 CursesAgentStream.init).
  reflexivity.
Defined.

(** C3, as stated, fails in the append-log viewer: an event that arrives
    while [pause] is on is neither counted nor queued. *)
Lemma paused_event_is_lost :
  let paused := set_pause true init in
  let e := sample_event (str "A") (str "tool_use") in
  ~ (total (stats paused) < total (stats (exec (process_event e) paused))
     \/ e ∈ event_queue (exec (process_event e) paused)).
Proof.
  intros paused e. unfold exec.
  rewrite (process_event_paused e paused eq_refl). simpl.
  intros [H|H]; [lia | inversion H].
Qed.

(** ** No validation of the record *)

Lemma filtered_out_not_timestamp (c : option pystr) (field : pystr)
    (v : value) (kvs : list (pystr * value)) :
  field <> str "timestamp" ->
  filtered_out c (VDict ((str "timestamp", v) :: kvs)) field
  = filtered_out c (VDict kvs) field.
Proof.
  intros Hne. unfold filtered_out, py_get. simpl.
  destruct (decide (str "timestamp" = field)); [congruence | reflexivity].
Qed.

(** C5, as the code has it. [process_event] validates nothing: every record
    that passes the filters while [pause] is off, and whose category, source
    and agent type can be counter keys, is counted, queued for display and
    appended to the recent buffer, a missing "event_type" or "app"
    being counted under "unknown". The "timestamp" is not read: the same
    record with any other value for it gives the same counters. *)
Theorem process_event_accepts_without_validation
    (kvs : list (pystr * value)) (s : t) (tk ak gk : key) :
  pause s = false ->
  filtered_out (filter_app s) (VDict kvs) (str "app") = Ok false ->
  filtered_out (filter_type s) (VDict kvs) (str "event_type") = Ok false ->
  field_key (VDict kvs) (str "event_type") = Ok tk ->
  field_key (VDict kvs) (str "app") = Ok ak ->
  agent_type_key (VDict kvs) = Ok gk ->
  process_event (VDict kvs) s = (Ok (), counted tk ak gk (VDict kvs) s)
  /\ (assoc (str "event_type") kvs = None -> tk = KStr (str "unknown"))
  /\ (assoc (str "app") kvs = None -> ak = KStr (str "unknown"))
  /\ (forall v,
        let s' := exec (process_event (VDict ((str "timestamp", v) :: kvs))) s in
        stats s' = stats (counted tk ak gk (VDict kvs) s)
        /\ agent_stats s' = agent_stats (counted tk ak gk (VDict kvs) s)).
Proof.
  intros Hp Hfa Hft Htk Hak Hgk.
  split; [apply process_event_counted; assumption|].
  split; [|split].
  - intros Hnone. unfold field_key, py_get in Htk. rewrite Hnone in Htk.
    simpl in Htk. congruence.
  - intros Hnone. unfold field_key, py_get in Hak. rewrite Hnone in Hak.
    simpl in Hak. congruence.
  - intros v s'. subst s'. unfold exec.
    rewrite (process_event_counted _ s tk ak gk); try assumption;
      try (rewrite filtered_out_not_timestamp; [assumption | discriminate]).
    split; reflexivity.
Qed.

Lemma process_event_accepts_without_validation_witness :
  pause init = false
  /\ filtered_out (filter_app init) (VDict []) (str "app") = Ok false
  /\ filtered_out (filter_type init) (VDict []) (str "event_type") = Ok false
  /\ field_key (VDict []) (str "event_type") = Ok (KStr (str "unknown"))
  /\ field_key (VDict []) (str "app") = Ok (KStr (str "unknown"))
  /\ agent_type_key (VDict []) = Ok (KStr (str "unknown"))
  /\ process_event (VDict []) init
     = (Ok (), counted (KStr (str "unknown")) (KStr (str "unknown"))
                 (KStr (str "unknown")) (VDict []) init).
Proof.
  repeat (split; [reflexivity|]).
  apply (process_event_accepts_without_validation [] init
           (KStr (str "unknown")) (KStr (str "unknown"))
           (KStr (str "unknown"))); reflexivity.
Defined.

(** C5, as stated, fails: a record with no timestamp, no source and no
    category is counted and enters the recent buffer. *)
Lemma record_without_fields_is_counted :
  let s' := exec (process_event (VDict [])) init in
  ~ (total (stats s') = total (stats init) /\ VDict [] ∉ events s').
Proof.
  intros s' [H _]. vm_compute in H. discriminate.
Qed.

(** ** The total and the category "total" share a key *)

(** C1. The claim: after N > 1000 accepted events the recent buffer holds
    the last 1000 in arrival order and stats["total"] is N. The code at 1001
    events of category "total": the buffer holds the last 1000 of them, and
    stats["total"] is 2002, the category count having been added to the key of
    the total. *)
Theorem total_counts_category_total_twice :
  let es := numbered_event (str "total") <$> seqZ 1 1001 in
  let s := process_all es init in
  length es = 1001%nat
  /\ events s = last_n 1000 es
  /\ total (stats s) = 2002.
Proof. vm_compute. repeat split; reflexivity. Qed.

(** C10. The claim: stats["total"], the sum of the other keys of stats and
    the sum of the counts of agent_stats stay equal. The code at one event of
    category "total": they are 2, 0 and 1. The code at one event whose
    payload is a JSON string, as the polling viewer expects it can be:
    [process_event] raises between the tallies, which are left at 1, 1 and 0,
    the event in neither the buffer nor the queue. *)
Theorem tallies_disagree :
  (let s := process_all [sample_event (str "A") (str "total")] init in
   total (stats s) = 2
   /\ category_sum (stats s) = 0
   /\ agent_sum (agent_stats s) = 1)
  /\ (let e := VDict [(str "app", VStr (str "A"));
                      (str "event_type", VStr (str "tool_use"));
                      (str "payload", VStr (str "{}"))] in
      let s := exec (process_event e) init in
      outcome (process_event e) init = Raise AttributeError
      /\ total (stats s) = 1
      /\ category_sum (stats s) = 1
      /\ agent_sum (agent_stats s) = 0
      /\ events s = [] /\ event_queue s = []).
Proof. vm_compute. repeat split; reflexivity. Qed.

(** ** Malformed frames *)

Lemma commutes_bind {S A B} (f : S -> S) (c : M S A) (k : A -> M S B) :
  commutes f c -> (forall a, commutes f (k a)) -> commutes f (bind c k).
Proof.
  intros Hc Hk s. unfold bind. rewrite Hc.
  destruct (c s) as [[a|e] s']; simpl; [apply Hk | reflexivity].
Qed.

Lemma commutes_for_each {S A} (f : S -> S) (body : A -> M S unit)
    (xs : list A) :
  (forall x, commutes f (body x)) -> commutes f (for_each body xs).
Proof.
  intros Hb. induction xs as [|x xs IH]; simpl.
  - intros s. reflexivity.
  - apply commutes_bind; [apply Hb | intros _; exact IH].
Qed.

Lemma commutes_lift {S A} (f : S -> S) (r : result A) : commutes f (lift r).
Proof. intros s. reflexivity. Qed.

Lemma commutes_ret {S A} (f : S -> S) (a : A) : commutes f (ret a).
Proof. intros s. reflexivity. Qed.

Lemma process_event_output (f : list (channel * printed) -> list (channel * printed))
    (e : value) :
  commutes (set_output f) (process_event e).
Proof.
  intros s. unfold process_event, bind, get, lift, modify, ret. simpl.
  repeat (destruct_inner; simpl); reflexivity.
Qed.

Lemma handle_message_output
    (f : list (channel * printed) -> list (channel * printed)) (data : value) :
  commutes (set_output f) (handle_message data).
Proof.
  unfold handle_message.
  apply commutes_bind; [apply commutes_lift|]. intros type.
  destruct (eq_str type (str "init")).
  - apply commutes_bind; [apply commutes_lift|]. intros evs.
    apply commutes_bind; [apply commutes_lift|]. intros items.
    apply commutes_for_each. intros e. apply process_event_output.
  - apply commutes_bind; [apply commutes_lift|]. intros type'.
    destruct (eq_str type' (str "event")); [|apply commutes_ret].
    apply commutes_bind; [apply commutes_lift|]. intros e.
    apply process_event_output.
Qed.

Lemma on_message_output (json_loads : pystr -> option value)
    (json_error : pystr -> exn)
    (pre : list (channel * printed)) (m : pystr) :
  commutes (set_output (fun out => pre ++ out)) (on_message json_loads json_error m).
Proof.
  intros s. unfold on_message, try_except, bind, lift, loads.
  destruct (json_loads m) as [data|]; simpl.
  - rewrite handle_message_output.
    destruct (handle_message data s) as [[[]|e] s']; simpl; [reflexivity|].
    destruct e; try reflexivity.
    unfold print, modify, set_output. simpl. rewrite app_assoc. reflexivity.
  - destruct (json_error m); try reflexivity.
    unfold print, modify, set_output. simpl. rewrite app_assoc. reflexivity.
Qed.

Lemma receive_cons (json_loads : pystr -> option value)
    (json_error : pystr -> exn) (lost : bool)
    (m : pystr) (ms : list pystr) (s : t) :
  receive json_loads json_error lost (m :: ms) s
  = if running s
    then bind (on_message json_loads json_error m)
              (fun _ => receive json_loads json_error lost ms) s
    else (Ok (), s).
Proof.
  simpl. unfold bind at 1. unfold get. destruct (running s); reflexivity.
Qed.

Lemma receive_output (json_loads : pystr -> option value)
    (json_error : pystr -> exn)
    (pre : list (channel * printed)) (lost : bool) (ms : list pystr) :
  commutes (set_output (fun out => pre ++ out)) (receive json_loads json_error lost ms).
Proof.
  induction ms as [|m ms IH]; intros s.
  - simpl. destruct lost; reflexivity.
  - rewrite !receive_cons. simpl.
    destruct (running s); simpl; [|reflexivity].
    unfold bind. rewrite on_message_output.
    destruct (on_message json_loads json_error m s) as [[[]|e] s']; simpl;
      [apply IH | reflexivity].
Qed.

Lemma output_split (s : t) :
  s = set_output (fun out => output s ++ out) (set_output (fun _ => []) s).
Proof. destruct s. unfold set_output. simpl. rewrite app_nil_r. reflexivity. Qed.

Lemma run_display_thread_step_prints
    (hms_of_iso : pystr -> option pystr) (py_str : value -> pystr)
    (s : t) (e : value) (q : list value) :
  event_queue s = e :: q ->
  exists p, output (exec (run_display_thread_step hms_of_iso py_str) s)
            = output s ++ [(Stdout, p)].
Proof.
  intros Hq.
  unfold exec, run_display_thread_step, format_event, try_except, print,
    bind, get, lift, modify, ret, raise.
  simpl. rewrite Hq. simpl.
  repeat (destruct_inner; simpl); eexists; reflexivity.
Qed.

(** C4, as the code has it. A frame on which [json.loads] raises
    [json.JSONDecodeError] changes no counter, no queue and no buffer; the
    append-log viewer prints "Invalid message received" on standard output,
    the stream on which the display thread prints the event lines, and the
    full-screen viewer prints nothing. The receive loop goes on with the next
    frame of the same connection, and from there the outcome, the counters,
    the buffer and the queue are those the frames that follow would have
    given without the malformed one. *)
Theorem malformed_frame_is_skipped
    (json_loads : pystr -> option value) (json_error : pystr -> exn)
    (m : pystr) (rest : list pystr)
    (lost : bool) (s : t) (c : CursesAgentStream.t) :
  json_loads m = None ->
  json_error m = JSONDecodeError ->
  running s = true ->
  let s1 := set_output (fun out => out ++ [(Stdout, InvalidMessage)]) s in
  let after := receive json_loads json_error lost (m :: rest) s in
  let without := receive json_loads json_error lost rest s in
  on_message json_loads json_error m s = (Ok (), s1)
  /\ after = receive json_loads json_error lost rest s1
  /\ after.1 = without.1
  /\ events after.2 = events without.2
  /\ stats after.2 = stats without.2
  /\ agent_stats after.2 = agent_stats without.2
  /\ event_queue after.2 = event_queue without.2
  /\ (forall hms_of_iso py_str s' e q, event_queue s' = e :: q ->
        exists p, output (exec (run_display_thread_step hms_of_iso py_str) s')
                  = output s' ++ [(Stdout, p)])
  /\ CursesAgentStream.on_message json_loads m c = (Ok (), c).
Proof.
  intros Hbad Hexn Hrun s1 after without.
  assert (on_message json_loads json_error m s = (Ok (), s1)) as Hon.
  { unfold on_message, try_except, bind, lift, loads. rewrite Hbad, Hexn.
    reflexivity. }
  assert (after = receive json_loads json_error lost rest s1) as Hafter.
  { unfold after. rewrite receive_cons, Hrun. unfold bind. rewrite Hon.
    reflexivity. }
  split; [exact Hon|]. split; [exact Hafter|].
  assert (s1 = set_output (fun out => (output s ++ [(Stdout, InvalidMessage)]) ++ out)
                 (set_output (fun _ => []) s)) as Hs1.
  { unfold s1. destruct s. unfold set_output. simpl. rewrite app_nil_r.
    reflexivity. }
  rewrite Hafter, Hs1. unfold without.
  rewrite (output_split s) at 2 4 6 8 10.
  rewrite !receive_output. simpl.
  repeat (split; [reflexivity|]).
  split.
  - intros hms_of_iso py_str s' e q Hq.
    exact (run_display_thread_step_prints hms_of_iso py_str s' e q Hq).
  - unfold CursesAgentStream.on_message, CursesAgentStream.loads, try_except,
      bind, lift. rewrite Hbad. reflexivity.
Qed.

Lemma malformed_frame_is_skipped_witness :
  (fun _ : pystr => @None value) (str "{") = None
  /\ (fun _ : pystr => JSONDecodeError) (str "{") = JSONDecodeError
  /\ running init = true
  /\ on_message (fun _ => None) (fun _ => JSONDecodeError) (str "{") init
     = (Ok (), set_output (fun out => out ++ [(Stdout, InvalidMessage)]) init).
Proof.
  split; [reflexivity|]. split; [reflexivity|]. split; [reflexivity|].
  apply (malformed_frame_is_skipped (fun _ => None) (fun _ => JSONDecodeError)
           (str "{") [] false init CursesAgentStream.init); reflexivity.
Defined.

(** C4, as stated, fails: what a malformed frame makes the viewer print goes
    to standard output, where the event lines go, not to another channel. *)
Lemma diagnostic_shares_the_event_channel :
  ~ (forall (json_loads : pystr -> option value) (json_error : pystr -> exn)
            (m : pystr) (s : t),
       json_loads m = None ->
       json_error m = JSONDecodeError ->
       forall entry,
         entry ∈ output (exec (on_message json_loads json_error m) s) ->
         entry ∈ output s \/ entry.1 <> Stdout).
Proof.
  intros H.
  destruct (H (fun _ => None) (fun _ => JSONDecodeError) [] init eq_refl eq_refl
              (Stdout, InvalidMessage)) as [Hin|Hne].
  - apply list_elem_of_singleton. reflexivity.
  - inversion Hin.
  - apply Hne. reflexivity.
Qed.

Lemma backfill_same_as_live_witness :
  let e1 := sample_event (str "A") (str "tool_use") in
  let e2 := sample_event (str "B") (str "error") in
  let backfill := VDict [(str "type", VStr (str "init"));
                         (str "events", VList [e1; e2])] in
  let lives := [VDict [(str "type", VStr (str "event")); (str "data", e1)];
                VDict [(str "type", VStr (str "event")); (str "data", e2)]] in
  carries (str "init") (str "events") (VList [e1; e2]) backfill
  /\ Forall2 (fun live e => carries (str "event") (str "data") e live)
             lives [e1; e2]
  /\ handle_message backfill init = for_each handle_message lives init.
Proof.
  intros e1 e2 backfill lives.
  assert (carries (str "init") (str "events") (VList [e1; e2]) backfill) as H1.
  { eexists. split; [reflexivity|]. split; reflexivity. }
  assert (Forall2 (fun live e => carries (str "event") (str "data") e live)
                  lives [e1; e2]) as H2.
  { repeat constructor; eexists; (split; [reflexivity|]); split; reflexivity. }
  split; [exact H1|]. split; [exact H2|].
  exact (backfill_same_as_live backfill lives [e1; e2] init H1 H2).
Defined.

(** ** The polling viewer *)

Import SimpleAgentStream.

(** C6. The claim: a record with no "id" is never de-duplicated. The code at
    one fetched batch of two records without "id": [event.get('id')] is [None]
    for both, the first puts [None] among the seen identifiers, and the second
    is taken for a duplicate of it: one line is shown, one event counted, and
    the category of the second record has no count. *)
Theorem records_without_id_are_deduplicated
    (json_loads : pystr -> option value) (hms_of_iso : pystr -> option pystr)
    (py_str : value -> pystr) (set_pop : gset key -> key)
    (body stamp clock_time : pystr) :
  json_loads body
  = Some (VList [record_without_id stamp (str "A") (str "tool_use");
                 record_without_id stamp (str "B") (str "error")]) ->
  hms_of_iso stamp = Some clock_time ->
  let s := exec (poll_events json_loads hms_of_iso py_str set_pop [Body body])
                SimpleAgentStream.init in
  lines_shown (SimpleAgentStream.output s) = 1%nat
  /\ total (SimpleAgentStream.stats s) = 1
  /\ SimpleAgentStream.stats s !! KStr (str "error") = None
  /\ seen_ids s = {[KNone]}.
Proof.
  intros Hbody Hstamp.
  unfold exec, poll_events, poll_loop, poll_once, fetch_events, try_except,
    bind, get, modify, ret, lift.
  simpl. rewrite Hbody. simpl.
  unfold visit, display_event, bind, get, modify, ret, lift, print. simpl.
  rewrite Hstamp. simpl.
  repeat split; vm_compute; reflexivity.
Qed.

Lemma records_without_id_are_deduplicated_witness :
  let batch := VList [record_without_id (str "2024-01-01T12:00:00")
                        (str "A") (str "tool_use");
                      record_without_id (str "2024-01-01T12:00:00")
                        (str "B") (str "error")] in
  let s := exec (poll_events (fun _ => Some batch)
                   (fun _ => Some (str "12:00:00")) str_of_str
                   (fun _ => KNone) [Body []])
                SimpleAgentStream.init in
  (fun _ : pystr => Some batch) [] = Some batch
  /\ (fun _ : pystr => Some (str "12:00:00")) (str "2024-01-01T12:00:00")
     = Some (str "12:00:00")
  /\ lines_shown (SimpleAgentStream.output s) = 1%nat
  /\ total (SimpleAgentStream.stats s) = 1
  /\ SimpleAgentStream.stats s !! KStr (str "error") = None
  /\ seen_ids s = {[KNone]}.
Proof.
  intros batch s.
  split; [reflexivity|]. split; [reflexivity|].
  apply (records_without_id_are_deduplicated (fun _ => Some batch)
           (fun _ => Some (str "12:00:00")) str_of_str (fun _ => KNone)
           [] (str "2024-01-01T12:00:00") (str "12:00:00")); reflexivity.
Defined.

(** ** Lookups in the static tables *)

Lemma table_get_hashable {V} (table : list (pystr * V)) (k : value) (hk : key)
    (dflt : V) :
  py_hash k = Ok hk -> exists v, table_get table k dflt = Ok v.
Proof.
  intros H. unfold table_get. rewrite H. destruct hk; eexists; reflexivity.
Qed.

Lemma table_get_unrecognized {V} (table : list (pystr * V)) (k : value)
    (hk : key) (dflt : V) :
  py_hash k = Ok hk -> recognized table k = false ->
  table_get table k dflt = Ok dflt.
Proof.
  intros H Hrec. unfold table_get. rewrite H.
  destruct k; simpl in *; try discriminate; inversion H; subst; try reflexivity.
  apply bool_decide_eq_false in Hrec.
  destruct (assoc s table); [|reflexivity].
  exfalso. apply Hrec. eexists. reflexivity.
Qed.

(** C8, as the code has it. An event whose "event_type" and "agent_type" are
    values that can be dictionary keys (strings, numbers, booleans, None),
    whose timestamp parses and whose "app" and "summary" are strings where
    present, is formatted by [format_event] and by the loop of [draw_ui]
    without an error, whether or not the two keys are in the tables; and a key
    that is in no table gets the default glyph, the color of "unknown" and the
    color pair 7. *)
Theorem unrecognized_keys_get_the_defaults
    (hms_of_iso : pystr -> option pystr) (py_str : value -> pystr)
    (kvs : list (pystr * value)) (s : AgentEventStream.t) (width : Z)
    (stamp clock_time : pystr) (tk gk : key) :
  assoc (str "timestamp") kvs = Some (VStr stamp) ->
  hms_of_iso stamp = Some clock_time ->
  field_key (VDict kvs) (str "event_type") = Ok tk ->
  agent_type_key (VDict kvs) = Ok gk ->
  (forall v, assoc (str "app") kvs = Some v -> exists a, v = VStr a) ->
  (forall v, assoc (str "summary") kvs = Some v -> exists a, v = VStr a) ->
  (exists line,
      AgentEventStream.format_event hms_of_iso py_str (VDict kvs) s
      = (Ok line, s))
  /\ (exists line a,
        CursesAgentStream.event_line hms_of_iso py_str width (VDict kvs)
        = Ok (line, a))
  /\ (forall k hk, py_hash k = Ok hk ->
        (recognized EVENT_TYPE_ICONS k = false ->
         table_get EVENT_TYPE_ICONS k default_icon = Ok default_icon)
        /\ (recognized AGENT_COLORS k = false ->
            table_get AGENT_COLORS k (esc "[37m") = Ok (esc "[37m"))
        /\ (recognized CursesAgentStream.color_map k = false ->
            table_get CursesAgentStream.color_map k 7 = Ok 7)).
Proof.
  intros Hstamp Hclock Htk Hgk Happ Hsummary.
  unfold field_key, py_get in Htk. unfold agent_type_key in Hgk.
  unfold py_get at 1 in Hgk.
  set (ty := default (VStr (str "unknown")) (assoc (str "event_type") kvs)) in *.
  set (payload := default (VDict []) (assoc (str "payload") kvs)) in *.
  destruct (py_get payload (str "agent_type") _) as [agent|] eqn:Hag;
    [|discriminate].
  destruct (table_get_hashable EVENT_TYPE_ICONS ty tk default_icon Htk)
    as [icon Hicon].
  split; [|split].
  - destruct (table_get_hashable AGENT_COLORS agent gk (esc "[37m") Hgk)
      as [color Hcolor].
    unfold AgentEventStream.format_event, bind, get, lift, ret, raise, py_get.
    rewrite Hstamp. simpl. rewrite Hclock. simpl.
    fold ty payload. fold (py_get payload (str "agent_type") (VStr (str "unknown"))).
    rewrite Hag. simpl. rewrite Hcolor, Hicon.
    destruct (AgentEventStream.show_details s); simpl;
      [|eexists; reflexivity].
    destruct (assoc (str "payload") kvs) as [p|] eqn:Hp; simpl;
      [|eexists; reflexivity].
    destruct (truthy p); [|eexists; reflexivity].
    subst payload. simpl in Hag.
    destruct p as [| | | | |items]; try discriminate.
    eexists; reflexivity.
  - destruct (table_get_hashable CursesAgentStream.color_map agent gk 7 Hgk)
      as [number Hnumber].
    assert (exists a, py_slice_to (default (VStr (str "unknown"))
                                     (assoc (str "app") kvs)) 20 = Ok a)
      as [app Happ'].
    { destruct (assoc (str "app") kvs) as [v|]; simpl.
      - destruct (Happ v eq_refl) as [a ->]. eexists; reflexivity.
      - eexists; reflexivity. }
    assert (forall line, exists line',
               CursesAgentStream.with_summary py_str width line
                 (default (VStr []) (assoc (str "summary") kvs)) = Ok line')
      as Hws.
    { intros line. destruct (assoc (str "summary") kvs) as [v|]; simpl.
      - destruct (Hsummary v eq_refl) as [a ->].
        unfold CursesAgentStream.with_summary, CursesAgentStream.ellipsize.
        simpl. repeat (destruct_inner; simpl); eexists; reflexivity.
      - eexists; reflexivity. }
    unfold CursesAgentStream.event_line, CursesAgentStream.line_start,
      CursesAgentStream.line_color, py_get.
    rewrite Hstamp. simpl. rewrite Hclock, Happ'.
    fold ty payload. rewrite Hicon.
    match goal with
    | |- context [CursesAgentStream.with_summary py_str width ?l _] =>
        destruct (Hws l) as [line' Hline']; rewrite Hline'
    end.
    fold (py_get payload (str "agent_type") (VStr (str "unknown"))).
    rewrite Hag, Hnumber. eexists _, _; reflexivity.
  - intros k hk Hk. repeat split; intros Hrec;
      exact (table_get_unrecognized _ k hk _ Hk Hrec).
Qed.

(** ** Truncation of the event lines of the full-screen viewer *)

Import CursesAgentStream.

Lemma len_app (a b : pystr) : len (a ++ b) = len a + len b.
Proof. unfold len. rewrite length_app. lia. Qed.





Section Shape.

Variable py_str : value -> pystr.
Hypothesis py_str_str : forall s, py_str (VStr s) = s.


Variable hms_of_iso : pystr -> option pystr.


End Shape.



Section Screen.

Variable hms_of_iso : pystr -> option pystr.
Variable py_str : value -> pystr.
Variable addstr_ok : Z -> Z -> Z -> Z -> pystr -> bool.
Hypothesis py_str_str : forall s, py_str (VStr s) = s.
Hypothesis addstr_left_of_screen :
  forall height width y x text,
    x < 0 -> addstr_ok height width y x text = false.





End Screen.



Lemma unrecognized_keys_get_the_defaults_witness :
  let hms := fun _ : pystr => Some (str "12:00:00") in
  let kvs := match unlisted_event with VDict kvs => kvs | _ => [] end in
  assoc (str "timestamp") kvs = Some (VStr (str "2024-01-01T12:00:00"))
  /\ hms (str "2024-01-01T12:00:00") = Some (str "12:00:00")
  /\ field_key (VDict kvs) (str "event_type") = Ok (KStr (str "brand_new"))
  /\ agent_type_key (VDict kvs) = Ok (KStr (str "llama"))
  /\ (forall v, assoc (str "app") kvs = Some v -> exists a, v = VStr a)
  /\ (forall v, assoc (str "summary") kvs = Some v -> exists a, v = VStr a)
  /\ (exists line,
        AgentEventStream.format_event hms str_of_str (VDict kvs)
          AgentEventStream.init
        = (Ok line, AgentEventStream.init))
  /\ (exists line a, event_line hms str_of_str 80 (VDict kvs) = Ok (line, a))
  /\ recognized EVENT_TYPE_ICONS (VStr (str "brand_new")) = false
  /\ recognized AGENT_COLORS (VStr (str "llama")) = false.
Proof.
  intros hms kvs.
  assert (forall v, assoc (str "app") kvs = Some v -> exists a, v = VStr a) as Ha.
  { intros v Hv. vm_compute in Hv. inversion Hv. eexists; reflexivity. }
  assert (forall v, assoc (str "summary") kvs = Some v -> exists a, v = VStr a)
    as Hs.
  { intros v Hv. vm_compute in Hv. inversion Hv. eexists; reflexivity. }
  destruct (unrecognized_keys_get_the_defaults hms str_of_str kvs
              AgentEventStream.init 80 (str "2024-01-01T12:00:00")
              (str "12:00:00") (KStr (str "brand_new")) (KStr (str "llama"))
              eq_refl eq_refl eq_refl eq_refl Ha Hs) as (Hf & Hl & _).
  repeat (split; [reflexivity|]).
  split; [exact Ha|]. split; [exact Hs|].
  split; [exact Hf|]. split; [exact Hl|].
  split; reflexivity.
Defined.

(** C8, as stated, fails for a category that is a JSON array: it is in no
    table, and the lookup does not give the default glyph but raises
    [TypeError], the key being unhashable; the loop of [draw_ui] raises on
    such an event. *)
Lemma unhashable_category_has_no_glyph :
  let e := VDict [(str "timestamp", VStr (str "2024-01-01T12:00:00"));
                  (str "event_type", VList [])] in
  recognized EVENT_TYPE_ICONS (VList []) = false
  /\ ~ (exists glyph,
          table_get EVENT_TYPE_ICONS (VList []) default_icon = Ok glyph)
  /\ event_line (fun _ => Some (str "12:00:00")) str_of_str 80 e
     = Raise TypeError.
Proof.
  split; [reflexivity|]. split; [|reflexivity].
  intros [glyph H]. discriminate H.
Qed.

(** ** The recent buffer and the tallies on accepted events *)

Import AgentEventStream.

Lemma append_bounded_last_n (w : nat) (e : value) (m : list value) :
  append_bounded w e (last_n w m) = last_n w (m ++ [e]).
Proof.
  unfold append_bounded, last_n.
  rewrite !length_app, length_drop. simpl.
  destruct (Z.of_nat w <? _) eqn:Hlong.
  - apply Z.ltb_lt in Hlong.
    assert (w <= length m)%nat as Hw by lia.
    destruct (decide (w = 0%nat)) as [->|Hpos].
    + rewrite Nat.sub_0_r, (drop_ge m (length m)) by lia. simpl.
      rewrite drop_ge; [reflexivity|]. rewrite length_app. simpl. lia.
    + rewrite drop_app_le by (rewrite length_drop; lia).
      rewrite drop_drop.
      rewrite (drop_app_le m) by lia.
      f_equal. f_equal. lia.
  - apply Z.ltb_ge in Hlong.
    assert (length m < w \/ w = 0%nat /\ False)%nat as [Hw|[_ []]] by lia.
    replace (length m - w)%nat with 0%nat by lia.
    replace (length m + 1 - w)%nat with 0%nat by lia.
    reflexivity.
Qed.

Lemma accepted_frame (s s' : t) (e : value) :
  pause s' = pause s -> filter_app s' = filter_app s ->
  filter_type s' = filter_type s -> accepted s e -> accepted s' e.
Proof.
  unfold accepted. intros -> -> ->. auto.
Qed.

Lemma process_event_accepted (s : t) (e : value) :
  accepted s e ->
  exists tk ak gk,
    field_key e (str "event_type") = Ok tk
    /\ exec (process_event e) s = counted tk ak gk e s.
Proof.
  intros (Hp & Hfa & Hft & [tk Htk] & [ak Hak] & [gk Hgk]).
  exists tk, ak, gk. split; [exact Htk|].
  unfold exec. rewrite (process_event_counted e s tk ak gk); auto.
Qed.

Lemma process_all_snoc (es : list value) (e : value) (s : t) :
  process_all (es ++ [e]) s = exec (process_event e) (process_all es s).
Proof. unfold process_all. rewrite foldl_snoc. reflexivity. Qed.

Lemma process_all_frame (es : list value) (s : t) :
  pause (process_all es s) = pause s
  /\ filter_app (process_all es s) = filter_app s
  /\ filter_type (process_all es s) = filter_type s.
Proof.
  revert s. induction es as [|e es IH]; intros s; simpl; [auto|].
  destruct (IH (exec (process_event e) s)) as (H1 & H2 & H3).
  destruct (process_event_frame e s) as (_ & F2 & F3 & _ & F5 & _).
  unfold process_all in *. simpl in *.
  rewrite H1, H2, H3. auto.
Qed.

Lemma total_incr (k : key) (d : gmap key Z) :
  total (incr k (incr (KStr (str "total")) d))
  = total d + 1 + (if bool_decide (k = KStr (str "total")) then 1 else 0).
Proof.
  unfold total, incr.
  destruct (decide (k = KStr (str "total"))) as [->|Hne].
  - rewrite bool_decide_eq_true_2 by reflexivity.
    rewrite !lookup_insert_eq. simpl. lia.
  - rewrite bool_decide_eq_false_2 by exact Hne.
    rewrite lookup_insert_ne by exact Hne.
    rewrite lookup_insert_eq. simpl. lia.
Qed.

(** X1. What the code does on every stream of accepted events, whatever their
    number: the recent buffer is the last 1000 of what it held and what
    arrived, in arrival order, and stats["total"] has grown by the number of
    events, plus one more for each event of category "total". *)
Lemma recent_and_total_on_accepted (es : list value) (s : t) :
  Forall (accepted s) es ->
  (length (events s) <= window)%nat ->
  events (process_all es s) = last_n window (events s ++ es)
  /\ total (stats (process_all es s))
     = total (stats s) + Z.of_nat (length es)
       + Z.of_nat (length (List.filter category_is_total es)).
Proof.
  intros Hacc Hlen. induction es as [|e es IH] using rev_ind.
  - simpl. rewrite app_nil_r. unfold last_n.
    replace (length (events s) - window)%nat with 0%nat by lia.
    split; [reflexivity | lia].
  - apply Forall_app in Hacc as [Hes He].
    apply Forall_inv in He.
    destruct (IH Hes) as [IHev IHtot].
    rewrite process_all_snoc.
    destruct (process_all_frame es s) as (F1 & F2 & F3).
    destruct (process_event_accepted (process_all es s) e
                (accepted_frame s _ e F1 F2 F3 He)) as (tk & ak & gk & Htk & ->).
    split.
    + simpl. rewrite IHev, append_bounded_last_n, <- app_assoc. reflexivity.
    + assert (category_is_total e = bool_decide (tk = KStr (str "total")))
        as Hcat by (unfold category_is_total; rewrite Htk; reflexivity).
      simpl. rewrite total_incr, IHtot.
      rewrite List.filter_app, !length_app. simpl. rewrite Hcat.
      destruct (bool_decide (tk = KStr (str "total"))); simpl; lia.
Qed.

Lemma weighted_sum_insert {V} (weight : V -> Z) (k : key) (v : V)
    (m : gmap key V) :
  weighted_sum weight (<[k := v]> m)
  = weight v + weighted_sum weight (delete k m).
Proof.
  unfold weighted_sum. rewrite <- insert_delete_eq.
  apply (map_fold_insert_L (fun _ v acc => weight v + acc)).
  - intros. lia.
  - apply lookup_delete_eq.
Qed.

Lemma weighted_sum_lookup {V} (weight : V -> Z) (k : key) (m : gmap key V) :
  weighted_sum weight m
  = from_option weight 0 (m !! k) + weighted_sum weight (delete k m).
Proof.
  destruct (m !! k) as [v|] eqn:Hk; simpl.
  - unfold weighted_sum.
    apply (map_fold_delete_L (fun _ v acc => weight v + acc)); [|exact Hk].
    intros. lia.
  - rewrite (delete_id m k Hk). lia.
Qed.

Lemma sum_counts_incr (k : key) (d : gmap key Z) :
  sum_counts (incr k d) = sum_counts d + 1.
Proof.
  change sum_counts with (weighted_sum (fun n : Z => n)).
  unfold incr. rewrite weighted_sum_insert, (weighted_sum_lookup _ k d).
  destruct (d !! k); simpl; lia.
Qed.

Lemma category_sum_incr (k : key) (d : gmap key Z) :
  category_sum (incr k (incr (KStr (str "total")) d))
  = category_sum d + (if bool_decide (k = KStr (str "total")) then 0 else 1).
Proof.
  unfold category_sum.
  destruct (decide (k = KStr (str "total"))) as [->|Hne].
  - rewrite bool_decide_eq_true_2 by reflexivity.
    unfold incr. rewrite !delete_insert_eq. lia.
  - rewrite bool_decide_eq_false_2 by exact Hne.
    unfold incr at 1. rewrite delete_insert_ne by congruence.
    unfold incr at 1 2. rewrite lookup_insert_ne by congruence.
    rewrite delete_insert_eq.
    rewrite <- (lookup_delete_ne d (KStr (str "total")) k) by congruence.
    apply sum_counts_incr.
Qed.

Lemma agent_sum_incr (ak gk : key) (a : gmap key (gmap key Z)) :
  agent_sum (<[ak := incr gk (default ∅ (a !! ak))]> a) = agent_sum a + 1.
Proof.
  change agent_sum with (weighted_sum sum_counts).
  rewrite weighted_sum_insert, (weighted_sum_lookup _ ak a), sum_counts_incr.
  destruct (a !! ak); simpl; [lia|].
  unfold sum_counts. rewrite map_fold_empty. lia.
Qed.

(** X2. The three tallies on every stream of accepted events: each event adds
    one to the sum of agent_stats, one to stats["total"], and one to the sum
    of the other keys of stats, except that an event of category "total" adds
    its category count to stats["total"] instead. *)
Lemma tallies_on_accepted (es : list value) (s : t) :
  Forall (accepted s) es ->
  let s' := process_all es s in
  let totals := Z.of_nat (length (List.filter category_is_total es)) in
  total (stats s') = total (stats s) + Z.of_nat (length es) + totals
  /\ category_sum (stats s')
     = category_sum (stats s) + Z.of_nat (length es) - totals
  /\ agent_sum (agent_stats s')
     = agent_sum (agent_stats s) + Z.of_nat (length es).
Proof.
  intros Hacc. induction es as [|e es IH] using rev_ind.
  - simpl. repeat split; lia.
  - apply Forall_app in Hacc as [Hes He]. apply Forall_inv in He.
    destruct (IH Hes) as (IHt & IHc & IHa).
    destruct (process_all_frame es s) as (F1 & F2 & F3).
    destruct (process_event_accepted (process_all es s) e
                (accepted_frame s _ e F1 F2 F3 He)) as (tk & ak & gk & Htk & Hstep).
    assert (category_is_total e = bool_decide (tk = KStr (str "total")))
      as Hcat by (unfold category_is_total; rewrite Htk; reflexivity).
    cbv zeta. rewrite process_all_snoc, Hstep.
    rewrite List.filter_app, !length_app. simpl. rewrite Hcat.
    rewrite total_incr, category_sum_incr, agent_sum_incr, IHt, IHc, IHa.
    destruct (bool_decide (tk = KStr (str "total"))); simpl; lia.
Qed.

(** In the full-screen viewer the buffer is trimmed after [update_stats], in
    the same [try]: an event on which [update_stats] raises has been appended
    and is not trimmed. After 501 events whose payload is a JSON string the
    buffer holds 501 events. *)
Lemma curses_buffer_outgrows_its_window :
  let s := exec (CursesAgentStream.receive string_payload_frame
                   (replicate 501 []))
                CursesAgentStream.init in
  length (CursesAgentStream.events s) = 501%nat
  /\ total (CursesAgentStream.stats s) = 501
  /\ agent_sum (CursesAgentStream.agent_stats s) = 0.
Proof. vm_compute. repeat split; reflexivity. Qed.

(** ** Invariants of the append-log viewer *)

Lemma preserves_bind {S A B} (P : S -> Prop) (c : M S A) (k : A -> M S B) :
  preserves P c -> (forall a, preserves P (k a)) -> preserves P (bind c k).
Proof.
  intros Hc Hk s Hs. unfold bind. specialize (Hc s Hs).
  destruct (c s) as [[a|e] s']; simpl in *; [apply Hk, Hc | exact Hc].
Qed.

Lemma preserves_lift {S A} (P : S -> Prop) (r : result A) :
  preserves P (lift r).
Proof. intros s Hs. exact Hs. Qed.

Lemma preserves_ret {S A} (P : S -> Prop) (a : A) : preserves P (ret a).
Proof. intros s Hs. exact Hs. Qed.

Lemma preserves_raise {S A} (P : S -> Prop) (e : exn) :
  preserves P (@raise S A e).
Proof. intros s Hs. exact Hs. Qed.

Lemma preserves_get {S} (P : S -> Prop) : preserves P (@get S).
Proof. intros s Hs. exact Hs. Qed.

Lemma preserves_try_except {S A} (P : S -> Prop) (c : M S A)
    (h : exn -> M S A) :
  preserves P c -> (forall e, preserves P (h e)) -> preserves P (try_except c h).
Proof.
  intros Hc Hh s Hs. unfold try_except. specialize (Hc s Hs).
  destruct (c s) as [[a|e] s']; simpl in *; [exact Hc | apply Hh, Hc].
Qed.

Lemma preserves_for_each {S A} (P : S -> Prop) (body : A -> M S unit)
    (xs : list A) :
  (forall x, preserves P (body x)) -> preserves P (for_each body xs).
Proof.
  intros Hb. induction xs as [|x xs IH]; simpl.
  - apply preserves_ret.
  - apply preserves_bind; [apply Hb | intros _; exact IH].
Qed.

Section LogViewerInvariants.

Variable json_loads : pystr -> option value.
Variable json_error : pystr -> exn.
Variable P : AgentEventStream.t -> Prop.
Hypothesis P_process_event : forall e, preserves P (process_event e).
Hypothesis P_print : forall p, preserves P (AgentEventStream.print p).

Lemma handle_message_preserves (data : value) :
  preserves P (handle_message data).
Proof.
  unfold handle_message.
  apply preserves_bind; [apply preserves_lift|]. intros type.
  destruct (eq_str type (str "init")).
  - apply preserves_bind; [apply preserves_lift|]. intros evs.
    apply preserves_bind; [apply preserves_lift|]. intros items.
    apply preserves_for_each, P_process_event.
  - apply preserves_bind; [apply preserves_lift|]. intros type'.
    destruct (eq_str type' (str "event")); [|apply preserves_ret].
    apply preserves_bind; [apply preserves_lift|]. intros e.
    apply P_process_event.
Qed.

Lemma on_message_preserves (m : pystr) :
  preserves P (AgentEventStream.on_message json_loads json_error m).
Proof.
  unfold AgentEventStream.on_message. apply preserves_try_except.
  - apply preserves_bind; [apply preserves_lift|]. intros data.
    apply handle_message_preserves.
  - intros e. destruct e; try apply preserves_raise. apply P_print.
Qed.

Lemma receive_preserves (lost : bool) (ms : list pystr) :
  preserves P (AgentEventStream.receive json_loads json_error lost ms).
Proof.
  induction ms as [|m ms IH]; simpl.
  - destruct lost; [apply preserves_raise | apply preserves_ret].
  - apply preserves_bind; [apply preserves_get|]. intros self.
    destruct (negb (AgentEventStream.running self)); [apply preserves_ret|].
    apply preserves_bind; [apply on_message_preserves | intros _; exact IH].
Qed.

Lemma connect_once_preserves (c : connection) :
  preserves P (connect_once json_loads json_error c).
Proof.
  unfold connect_once. apply preserves_try_except.
  - destruct c as [|ms lost]; [apply preserves_raise|].
    apply preserves_bind; [apply P_print | intros _; apply receive_preserves].
  - intros e. destruct e; apply P_print.
Qed.

Lemma connect_and_stream_preserves (cs : list connection) :
  preserves P (connect_and_stream json_loads json_error cs).
Proof.
  induction cs as [|c cs IH]; simpl.
  - apply preserves_ret.
  - apply preserves_bind; [apply preserves_get|]. intros self.
    destruct (AgentEventStream.running self); [|apply preserves_ret].
    apply preserves_bind; [apply connect_once_preserves | intros _; exact IH].
Qed.

End LogViewerInvariants.

Lemma length_append_bounded (w : nat) (e : value) (evs : list value) :
  (length evs <= w)%nat -> (length (append_bounded w e evs) <= w)%nat.
Proof.
  intros H. unfold append_bounded.
  destruct (_ <? _) eqn:Hlong.
  - rewrite length_drop, length_app. simpl. lia.
  - apply Z.ltb_ge in Hlong. lia.
Qed.

Lemma count_incr (k k' : key) (d : gmap key Z) :
  count k (incr k' d) = count k d + (if bool_decide (k = k') then 1 else 0).
Proof.
  unfold count, incr. destruct (decide (k = k')) as [->|Hne].
  - rewrite bool_decide_eq_true_2 by reflexivity.
    rewrite lookup_insert_eq. simpl. lia.
  - rewrite bool_decide_eq_false_2 by exact Hne.
    rewrite lookup_insert_ne by congruence. lia.
Qed.

Lemma count_incr_le (k k' : key) (d : gmap key Z) :
  count k d <= count k (incr k' d).
Proof. rewrite count_incr. destruct (bool_decide _); lia. Qed.

(** What an event can do to the counters, whatever becomes of it. *)
Lemma process_event_stats_effect (e : value) (s : t) :
  let s' := exec (process_event e) s in
  (forall k, k <> KStr (str "total") ->
             field_key e (str "event_type") <> Ok k ->
             stats s' !! k = stats s !! k)
  /\ (forall k, count k (stats s) <= count k (stats s'))
  /\ (forall ka kg,
        count kg (default ∅ (agent_stats s !! ka))
        <= count kg (default ∅ (agent_stats s' !! ka))).
Proof.
  unfold field_key.
  exec_py; (split; [intros k Hk Hty | split; [intros k | intros ka kg]]);
    try reflexivity; try lia.
  all: try (rewrite lookup_insert_ne by congruence;
            rewrite lookup_insert_ne by congruence; reflexivity).
  all: try (rewrite lookup_insert_ne by congruence; reflexivity).
  all: try (etransitivity; [|apply count_incr_le]; apply count_incr_le).
  all: try apply count_incr_le.
  all: try (unfold incr; rewrite !lookup_insert_ne by congruence; reflexivity).
  all: match goal with
       | |- context [<[?a := _]> _ !! ?b] =>
           destruct (decide (a = b)) as [->|Hne];
           rewrite ?lookup_insert_eq, ?lookup_insert_ne by congruence; simpl;
           try lia; try apply count_incr_le
       end.
Qed.

(** X3. Whatever the connections bring (refused connections, lost connections,
    frames that [json.loads] does not decode, messages and events of any
    shape), the recent buffer of the append-log viewer never holds more than
    1000 events. *)
Theorem recent_buffer_stays_within_its_window
    (json_loads : pystr -> option value) (json_error : pystr -> exn)
    (cs : list connection) (s : t) :
  (length (events s) <= window)%nat ->
  (length (events (exec (connect_and_stream json_loads json_error cs) s))
   <= window)%nat.
Proof.
  apply (connect_and_stream_preserves json_loads json_error
           (fun s => (length (events s) <= window)%nat)).
  - intros e s0 H0.
    destruct (process_event_effect e s0) as (_ & [Hev|Hev] & _);
      unfold exec in Hev; rewrite Hev; [exact H0|].
    apply length_append_bounded, H0.
  - intros p s0 H0. exact H0.
Qed.

Lemma recent_buffer_stays_within_its_window_witness :
  let cs := [Accepted [[1%N]; []; [2%N]; [3%N]; [2%N]] true; Refused;
             Accepted [[2%N]; [4%N]; [2%N]] false] in
  (length (events init) <= window)%nat
  /\ (length (events (exec (connect_and_stream sample_loads sample_error cs)
                         init))
      <= window)%nat.
Proof.
  intros cs.
  assert (length (events init) <= window)%nat as H by (simpl; lia).
  split; [exact H|].
  exact (recent_buffer_stays_within_its_window sample_loads sample_error cs
           init H).
Defined.

(** X4. No counter ever decreases: whatever the connections bring, each key of
    stats and each count nested in agent_stats is at least what it was. *)
Theorem counters_never_decrease
    (json_loads : pystr -> option value) (json_error : pystr -> exn)
    (cs : list connection) (s : t)
    (k ka kg : key) :
  let s' := exec (connect_and_stream json_loads json_error cs) s in
  count k (stats s) <= count k (stats s')
  /\ count kg (default ∅ (agent_stats s !! ka))
     <= count kg (default ∅ (agent_stats s' !! ka)).
Proof.
  apply (connect_and_stream_preserves json_loads json_error
           (fun s' => count k (stats s) <= count k (stats s')
                      /\ count kg (default ∅ (agent_stats s !! ka))
                         <= count kg (default ∅ (agent_stats s' !! ka)))).
  - intros e s0 [H1 H2].
    destruct (process_event_stats_effect e s0) as (_ & Hs & Ha).
    unfold exec in Hs, Ha. split.
    + etransitivity; [exact H1 | apply Hs].
    + etransitivity; [exact H2 | apply Ha].
  - intros p s0 H0. exact H0.
  - split; reflexivity.
Qed.

(** ** The reconnect loop *)

Lemma connect_once_never_raises (json_loads : pystr -> option value)
    (json_error : pystr -> exn)
    (c : connection) :
  never_raises (connect_once json_loads json_error c).
Proof.
  intros s. unfold connect_once, try_except.
  match goal with |- context [match ?x with _ => _ end] => destruct x as [[[]|e] s'] end;
    [reflexivity|].
  destruct e; reflexivity.
Qed.

(** X5. [connect_and_stream] of the append-log viewer never raises: a refused
    connection, a lost connection, a frame that [json.loads] does not decode
    (whatever it raises on it) and an event on which [process_event] raises
    are all caught, and the loop goes on to the next connection. *)
Theorem connect_and_stream_never_raises
    (json_loads : pystr -> option value) (json_error : pystr -> exn)
    (cs : list connection) :
  never_raises (connect_and_stream json_loads json_error cs).
Proof.
  induction cs as [|c cs IH]; intros s; simpl; [reflexivity|].
  unfold bind at 1. unfold get. simpl.
  destruct (AgentEventStream.running s); [|reflexivity].
  unfold bind. pose proof (connect_once_never_raises json_loads json_error c s) as Hc.
  destruct (connect_once json_loads json_error c s) as [[[]|e] s']; simpl in Hc;
    [apply IH | discriminate].
Qed.

Lemma process_event_bad_payload (e p : value) (tk : key) (s : t) :
  pause s = false ->
  filtered_out (filter_app s) e (str "app") = Ok false ->
  filtered_out (filter_type s) e (str "event_type") = Ok false ->
  field_key e (str "event_type") = Ok tk ->
  py_get e (str "payload") (VDict []) = Ok p ->
  (forall items, p <> VDict items) ->
  process_event e s
  = (Raise AttributeError,
     set_stats (fun d => incr tk (incr (KStr (str "total")) d)) s).
Proof.
  intros Hp Hfa Hft Htk Hpl Hnd.
  unfold process_event, bind, get, lift, modify, ret. simpl.
  rewrite Hp, Hfa, Hft. unfold field_key in Htk.
  destruct (py_get e (str "event_type") _) as [ty|]; [|discriminate].
  rewrite Htk, Hpl.
  destruct p; try reflexivity. exfalso. exact (Hnd _ eq_refl).
Qed.

(** X6. An event whose payload is not a JSON object (null, a string, a number, a
    list) ends its connection in the append-log viewer: the event has been
    added to stats["total"] and to its category, it is not added to
    agent_stats, to the queue or to the buffer, "Error: ..." is printed, and
    the frames that follow on the connection are never read. *)
Theorem event_with_bad_payload_ends_the_connection
    (json_loads : pystr -> option value) (json_error : pystr -> exn)
    (m : pystr) (rest : list pystr)
    (lost : bool) (s : t) (data : value) (kvs : list (pystr * value))
    (p : value) (tk : key) :
  AgentEventStream.running s = true ->
  pause s = false ->
  filtered_out (filter_app s) (VDict kvs) (str "app") = Ok false ->
  filtered_out (filter_type s) (VDict kvs) (str "event_type") = Ok false ->
  json_loads m = Some data ->
  carries (str "event") (str "data") (VDict kvs) data ->
  field_key (VDict kvs) (str "event_type") = Ok tk ->
  assoc (str "payload") kvs = Some p ->
  (forall items, p <> VDict items) ->
  connect_once json_loads json_error (Accepted (m :: rest) lost) s
  = (Ok (),
     AgentEventStream.set_output
       (fun out => out ++ [(Stdout, ConnectedBanner);
                           (Stdout, AgentEventStream.ErrorLine AttributeError)])
       (set_stats (fun d => incr tk (incr (KStr (str "total")) d)) s)).
Proof.
  intros Hrun Hp Hfa Hft Hloads Hcarries Htk Hpl Hnd.
  unfold connect_once, try_except.
  unfold bind at 1. unfold AgentEventStream.print at 1. unfold modify at 1.
  rewrite receive_cons. simpl AgentEventStream.running. rewrite Hrun.
  unfold bind at 1.
  unfold AgentEventStream.on_message, try_except, bind at 1, lift,
    AgentEventStream.loads.
  rewrite Hloads.
  rewrite (handle_message_event data (VDict kvs) _ Hcarries).
  rewrite (process_event_bad_payload (VDict kvs) p tk); try assumption;
    [|unfold py_get; rewrite Hpl; reflexivity].
  unfold AgentEventStream.print, modify, AgentEventStream.set_output, set_stats.
  simpl. rewrite <- app_assoc. reflexivity.
Qed.

Lemma event_with_bad_payload_ends_the_connection_witness :
  let kvs := [(str "payload", VNone)] in
  let data := VDict [(str "type", VStr (str "event"));
                     (str "data", VDict kvs)] in
  AgentEventStream.running init = true
  /\ pause init = false
  /\ filtered_out (filter_app init) (VDict kvs) (str "app") = Ok false
  /\ filtered_out (filter_type init) (VDict kvs) (str "event_type") = Ok false
  /\ sample_loads [3%N] = Some data
  /\ carries (str "event") (str "data") (VDict kvs) data
  /\ field_key (VDict kvs) (str "event_type") = Ok (KStr (str "unknown"))
  /\ assoc (str "payload") kvs = Some VNone
  /\ (forall items, VNone <> VDict items)
  /\ connect_once sample_loads sample_error (Accepted [[3%N]; [2%N]] false)
       init
     = (Ok (),
        AgentEventStream.set_output
          (fun out => out ++ [(Stdout, ConnectedBanner);
                              (Stdout, AgentEventStream.ErrorLine AttributeError)])
          (set_stats (fun d => incr (KStr (str "unknown"))
                                 (incr (KStr (str "total")) d)) init)).
Proof.
  intros kvs data.
  assert (carries (str "event") (str "data") (VDict kvs) data) as Hc.
  { eexists. split; [reflexivity|]. split; reflexivity. }
  assert (forall items, VNone <> VDict items) as Hnd by discriminate.
  repeat (split; [reflexivity|]).
  split; [exact Hc|]. repeat (split; [reflexivity|]).
  split; [exact Hnd|].
  exact (event_with_bad_payload_ends_the_connection sample_loads sample_error
           [3%N] [[2%N]]
           false init data kvs VNone (KStr (str "unknown"))
           eq_refl eq_refl eq_refl eq_refl eq_refl Hc eq_refl eq_refl Hnd).
Defined.

(** A frame on which [json.loads] raises another exception than
    [json.JSONDecodeError] (a text nested too deeply, a binary frame that is
    not UTF-8, an integer of too many digits) is not caught in the receive
    loop: like an event on which [process_event] raises, it ends the
    connection, "Error: ..." is printed, no counter changes, and the frames
    that follow on the connection are never read. *)
Lemma other_decode_error_ends_the_connection
    (json_loads : pystr -> option value) (json_error : pystr -> exn)
    (m : pystr) (rest : list pystr) (lost : bool) (s : t) :
  AgentEventStream.running s = true ->
  json_loads m = None ->
  json_error m <> JSONDecodeError ->
  json_error m <> ConnectionClosed ->
  connect_once json_loads json_error (Accepted (m :: rest) lost) s
  = (Ok (),
     AgentEventStream.set_output
       (fun out => out ++ [(Stdout, ConnectedBanner);
                           (Stdout, AgentEventStream.ErrorLine (json_error m))])
       s).
Proof.
  intros Hrun Hloads Hjson Hclosed.
  unfold connect_once, try_except.
  unfold bind at 1. unfold AgentEventStream.print at 1. unfold modify at 1.
  rewrite receive_cons. simpl AgentEventStream.running. rewrite Hrun.
  unfold bind at 1.
  unfold AgentEventStream.on_message, try_except, bind at 1, lift,
    AgentEventStream.loads.
  rewrite Hloads.
  destruct (json_error m); try congruence;
    unfold raise, AgentEventStream.print, modify, AgentEventStream.set_output;
    simpl; rewrite <- app_assoc; reflexivity.
Qed.

Lemma other_decode_error_ends_the_connection_example :
  connect_once sample_loads sample_error (Accepted [[4%N]; [2%N]] false) init
  = (Ok (),
     AgentEventStream.set_output
       (fun out => out ++ [(Stdout, ConnectedBanner);
                           (Stdout, AgentEventStream.ErrorLine RecursionError)])
       init).
Proof.
  apply (other_decode_error_ends_the_connection sample_loads sample_error
           [4%N] [[2%N]] false init); [reflexivity | reflexivity | |];
    discriminate.
Qed.

(** ** The category filter, and the two filters together *)

Lemma of_category_field_key (T : pystr) (e : value) :
  of_category T e = true -> field_key e (str "event_type") = Ok (KStr T).
Proof.
  unfold of_category, field_key, py_get.
  destruct e as [| | | | |kvs]; try discriminate.
  destruct (assoc (str "event_type") kvs) as [v|]; simpl; [|discriminate].
  destruct v; simpl; try discriminate.
  intros H. apply bool_decide_eq_true in H. subst. reflexivity.
Qed.

Lemma filtered_out_other_category (T : pystr) (e : value) :
  T <> [] -> of_category T e = false ->
  filtered_out (Some T) e (str "event_type") <> Ok false.
Proof.
  intros HT. unfold of_category, filtered_out.
  destruct T as [|c T']; [congruence|].
  destruct (py_get e (str "event_type") VNone) as [v|]; [|discriminate].
  intros ->. discriminate.
Qed.

Lemma process_event_category_filter (T : pystr) (e : value) (s : t) :
  T <> [] -> filter_type s = Some T ->
  let s' := exec (process_event e) s in
  (of_category T e = false -> s' = s)
  /\ (forall k, k <> KStr (str "total") -> k <> KStr T ->
                stats s' !! k = stats s !! k)
  /\ (forall x, x ∈ events s' -> x ∈ events s \/ of_category T x = true).
Proof.
  intros HT Hf s'.
  assert (of_category T e = false -> s' = s) as Hrej.
  { intros Hcat. apply process_event_rejected. right. right.
    rewrite Hf. apply filtered_out_other_category; assumption. }
  split; [exact Hrej|].
  destruct (of_category T e) eqn:Hcat.
  - pose proof (process_event_stats_effect e s) as (Hs & _).
    pose proof (process_event_effect e s) as (_ & Hev & _).
    fold s' in Hs, Hev.
    rewrite (of_category_field_key _ _ Hcat) in Hs.
    split.
    + intros k Hk HkT. apply Hs; congruence.
    + intros x Hx. destruct Hev as [Hev|Hev]; rewrite Hev in Hx; [auto|].
      apply elem_of_append_bounded in Hx as [Hx| ->]; auto.
  - rewrite (Hrej eq_refl). auto.
Qed.

(** X7. For every non-empty category T, every stream of records and every state
    whose category criterion is T, the append-log viewer ends in the state
    that the records whose "event_type" is exactly T would have given alone:
    no key of stats other than "total" and T changes, and every record
    that entered the recent buffer has category T. *)
Theorem category_filter_keeps_only_its_category
    (T : pystr) (es : list value) (s0 : t) :
  T <> [] -> filter_type s0 = Some T ->
  let s := process_all es s0 in
  s = process_all (List.filter (of_category T) es) s0
  /\ (forall k, k <> KStr (str "total") -> k <> KStr T ->
                stats s !! k = stats s0 !! k)
  /\ (forall x, x ∈ events s -> x ∈ events s0 \/ of_category T x = true).
Proof.
  intros HT. revert s0.
  induction es as [|e es IH]; intros s0 Hf; simpl.
  - repeat split; auto.
  - pose proof (process_event_category_filter T e s0 HT Hf) as (Hrej & Hs & Hev).
    pose proof (process_event_frame e s0) as (_ & _ & Hf' & _).
    simpl in Hf'. rewrite Hf in Hf'.
    specialize (IH _ Hf') as (IH1 & IHs & IHev).
    unfold process_all in *.
    split; [|split].
    + rewrite IH1. destruct (of_category T e) eqn:Hcat; simpl.
      * reflexivity.
      * rewrite (Hrej eq_refl). reflexivity.
    + intros k Hk HkT. rewrite (IHs k Hk HkT). apply Hs; assumption.
    + intros x Hx. destruct (IHev x Hx) as [Hx'|Hx']; auto.
Qed.

Lemma category_filter_keeps_only_its_category_witness :
  let es := [sample_event (str "A") (str "tool_use");
             sample_event (str "B") (str "error")] in
  let s0 := set_filter_type (Some (str "error")) init in
  str "error" <> []
  /\ filter_type s0 = Some (str "error")
  /\ let s := process_all es s0 in
     s = process_all (List.filter (of_category (str "error")) es) s0
     /\ (forall k, k <> KStr (str "total") -> k <> KStr (str "error") ->
                   stats s !! k = stats s0 !! k)
     /\ (forall x, x ∈ events s ->
                   x ∈ events s0 \/ of_category (str "error") x = true).
Proof.
  intros es s0.
  split; [discriminate|]. split; [reflexivity|].
  apply (category_filter_keeps_only_its_category (str "error") es s0).
  - discriminate.
  - reflexivity.
Defined.

(** X8. With a source criterion S and a category criterion T, both non-empty,
    the two filters compose: the viewer ends in the state that the records
    matching both would have given alone. *)
Theorem both_filters_keep_their_conjunction
    (S T : pystr) (es : list value) (s0 : t) :
  S <> [] -> T <> [] ->
  filter_app s0 = Some S -> filter_type s0 = Some T ->
  process_all es s0
  = process_all
      (List.filter (fun e => from_source S e && of_category T e) es) s0.
Proof.
  intros HS HT. revert s0.
  induction es as [|e es IH]; intros s0 Hfa Hft; simpl; [reflexivity|].
  pose proof (process_event_frame e s0) as (_ & Hfa' & Hft' & _).
  simpl in Hfa', Hft'. rewrite Hfa in Hfa'. rewrite Hft in Hft'.
  unfold process_all in *.
  rewrite (IH _ Hfa' Hft').
  destruct (from_source S e) eqn:Hsrc; simpl.
  - destruct (of_category T e) eqn:Hcat; simpl; [reflexivity|].
    destruct (process_event_category_filter T e s0 HT Hft) as (Hrej & _).
    rewrite (Hrej Hcat). reflexivity.
  - destruct (process_event_source_filter S e s0 HS Hfa) as (Hrej & _).
    rewrite (Hrej Hsrc). reflexivity.
Qed.

Lemma both_filters_keep_their_conjunction_witness :
  let es := [sample_event (str "A") (str "tool_use");
             sample_event (str "A") (str "error");
             sample_event (str "B") (str "error")] in
  let s0 := set_filter_type (Some (str "error"))
              (set_filter_app (Some (str "A")) init) in
  str "A" <> [] /\ str "error" <> []
  /\ filter_app s0 = Some (str "A") /\ filter_type s0 = Some (str "error")
  /\ process_all es s0
     = process_all
         (List.filter (fun e => from_source (str "A") e
                                && of_category (str "error") e) es) s0.
Proof.
  intros es s0.
  split; [discriminate|]. split; [discriminate|].
  split; [reflexivity|]. split; [reflexivity|].
  apply (both_filters_keep_their_conjunction (str "A") (str "error") es s0);
    [discriminate | discriminate | reflexivity | reflexivity].
Defined.

(** ** The display thread *)

Section Display.

Variable hms_of_iso : pystr -> option pystr.
Variable py_str : value -> pystr.

Lemma format_event_reads_show_details (e : value) (s s' : t) :
  show_details s' = show_details s ->
  format_event hms_of_iso py_str e s'
  = ((format_event hms_of_iso py_str e s).1, s').
Proof.
  intros H. unfold format_event, bind, get, lift, ret, raise. simpl.
  rewrite H. repeat (destruct_inner; simpl); reflexivity.
Qed.

Lemma run_display_thread_step_cons (e : value) (q : list value) (s : t) :
  event_queue s = e :: q ->
  run_display_thread_step hms_of_iso py_str s
  = (Ok (), AgentEventStream.set_output
              (fun out => out ++ [displayed hms_of_iso py_str s e])
              (set_event_queue (fun _ => q) s)).
Proof.
  intros Hq. unfold run_display_thread_step.
  unfold bind at 1. unfold get. simpl. rewrite Hq.
  unfold bind at 1. unfold modify at 1.
  unfold try_except, bind, displayed.
  rewrite (format_event_reads_show_details e s (set_event_queue (fun _ => q) s))
    by reflexivity.
  destruct (format_event hms_of_iso py_str e s).1; reflexivity.
Qed.

Lemma displayed_frame (e : value) (s s' : t) :
  show_details s' = show_details s ->
  displayed hms_of_iso py_str s' e = displayed hms_of_iso py_str s e.
Proof.
  intros H. unfold displayed.
  rewrite (format_event_reads_show_details e s s' H). reflexivity.
Qed.

(** X9. The display thread empties the queue first in, first out: every queued
    event gives exactly one printed line, in arrival order, its formatted line
    or "Display error: ..." when formatting raises; an event that cannot be
    formatted does not stop the thread, and neither the counters nor the
    recent buffer are touched. *)
Theorem display_thread_prints_the_queue_in_order (n : nat) (s : t) :
  AgentEventStream.running s = true ->
  (length (event_queue s) <= n)%nat ->
  run_display_thread hms_of_iso py_str n s
  = (Ok (), AgentEventStream.set_output
              (fun out => out ++ (displayed hms_of_iso py_str s <$> event_queue s))
              (set_event_queue (fun _ => []) s)).
Proof.
  revert s. induction n as [|n IH]; intros s Hrun Hlen.
  - destruct s as [ev st ag q r fa ft sd pa out]. simpl in *.
    destruct q; [|simpl in Hlen; lia].
    unfold ret, AgentEventStream.set_output, set_event_queue. simpl.
    rewrite app_nil_r. reflexivity.
  - simpl. unfold bind at 1. unfold get. simpl. rewrite Hrun.
    destruct (event_queue s) as [|e q] eqn:Hq.
    + unfold bind at 1. unfold run_display_thread_step.
      unfold bind at 1. unfold get. simpl. rewrite Hq. simpl.
      rewrite IH; [|exact Hrun | rewrite Hq; simpl; lia].
      rewrite Hq. reflexivity.
    + unfold bind at 1. rewrite (run_display_thread_step_cons e q s Hq).
      rewrite IH; [| exact Hrun | simpl in *; lia].
      simpl. f_equal.
      unfold AgentEventStream.set_output, set_event_queue. simpl.
      rewrite <- app_assoc. simpl.
      f_equal. f_equal. f_equal.
      apply list_fmap_ext. intros i x Hx.
      apply displayed_frame. reflexivity.
Qed.

End Display.

Lemma display_thread_prints_the_queue_in_order_witness :
  let s := process_all [sample_event (str "A") (str "tool_use"); unlisted_event]
             init in
  AgentEventStream.running s = true
  /\ (length (event_queue s) <= 5)%nat
  /\ run_display_thread (fun _ => None) str_of_str 5 s
     = (Ok (), AgentEventStream.set_output
                 (fun out => out ++ (displayed (fun _ => None) str_of_str s
                                       <$> event_queue s))
                 (set_event_queue (fun _ => []) s)).
Proof.
  intros s.
  assert (length (event_queue s) <= 5)%nat as Hlen by (vm_compute; lia).
  split; [reflexivity|]. split; [exact Hlen|].
  exact (display_thread_prints_the_queue_in_order (fun _ => None) str_of_str
           5 s eq_refl Hlen).
Defined.

(** ** Events without a timestamp *)

(** X10. An accepted event that has no "timestamp" is counted, buffered and
    queued like any other, but it is never shown: [fromisoformat] raises on
    the empty string that stands for the missing field, and the display
    thread prints "Display error: ..." in place of the event line. *)
Theorem event_without_timestamp_is_counted_but_not_shown
    (hms_of_iso : pystr -> option pystr) (py_str : value -> pystr)
    (kvs : list (pystr * value)) (s : t) :
  hms_of_iso [] = None ->
  assoc (str "timestamp") kvs = None ->
  accepted s (VDict kvs) ->
  let s' := exec (process_event (VDict kvs)) s in
  event_queue s' = event_queue s ++ [VDict kvs]
  /\ total (stats s) < total (stats s')
  /\ displayed hms_of_iso py_str s' (VDict kvs)
     = (Stdout, DisplayError ValueError).
Proof.
  intros Hiso Hts Hacc s'.
  destruct (process_event_accepted s (VDict kvs) Hacc)
    as (tk & ak & gk & Htk & Hstep).
  subst s'. rewrite Hstep. split; [reflexivity|]. split.
  - simpl. rewrite total_incr. destruct (bool_decide _); lia.
  - unfold displayed, format_event, bind, get, lift, py_get.
    rewrite Hts. simpl. rewrite Hiso. reflexivity.
Qed.

Lemma event_without_timestamp_is_counted_but_not_shown_witness :
  let kvs := [(str "app", VStr (str "A"));
              (str "event_type", VStr (str "tool_use"))] in
  (fun _ : pystr => @None pystr) [] = None
  /\ assoc (str "timestamp") kvs = None
  /\ accepted init (VDict kvs)
  /\ let s' := exec (process_event (VDict kvs)) init in
     event_queue s' = event_queue init ++ [VDict kvs]
     /\ total (stats init) < total (stats s')
     /\ displayed (fun _ => None) str_of_str s' (VDict kvs)
        = (Stdout, DisplayError ValueError).
Proof.
  intros kvs.
  assert (accepted init (VDict kvs)) as Hacc.
  { repeat split; try reflexivity; eexists; reflexivity. }
  split; [reflexivity|]. split; [reflexivity|]. split; [exact Hacc|].
  exact (event_without_timestamp_is_counted_but_not_shown (fun _ => None)
           str_of_str kvs init eq_refl eq_refl Hacc).
Defined.

(** ** The receive loop of the full-screen viewer *)

Lemma curses_on_message_never_raises (json_loads : pystr -> option value)
    (m : pystr) :
  never_raises (CursesAgentStream.on_message json_loads m).
Proof.
  intros s. unfold CursesAgentStream.on_message, try_except.
  match goal with |- context [match ?x with _ => _ end] => destruct x as [[[]|e] s'] end;
    reflexivity.
Qed.

(** X11. The receive loop of the full-screen viewer never raises, whatever the
    frames: its bare [except] passes on every error. *)
Theorem curses_receive_never_raises (json_loads : pystr -> option value)
    (ms : list pystr) :
  never_raises (CursesAgentStream.receive json_loads ms).
Proof.
  induction ms as [|m ms IH]; intros s; simpl; [reflexivity|].
  unfold bind at 1. unfold get. simpl.
  destruct (CursesAgentStream.running s); simpl; [|reflexivity].
  unfold bind. pose proof (curses_on_message_never_raises json_loads m s) as Hm.
  destruct (CursesAgentStream.on_message json_loads m s) as [[[]|e] s'];
    simpl in Hm; [apply IH | discriminate].
Qed.

(** X12. The full-screen viewer handles only the messages of type "event": a
    frame that decodes to anything else, the "init" backfill included, leaves
    the object as it was. *)
Theorem curses_viewer_ignores_other_messages
    (json_loads : pystr -> option value) (m : pystr) (data : value)
    (s : CursesAgentStream.t) :
  json_loads m = Some data ->
  (forall v, py_get data (str "type") VNone = Ok v ->
             eq_str v (str "event") = false) ->
  CursesAgentStream.on_message json_loads m s = (Ok (), s).
Proof.
  intros Hloads Htype.
  unfold CursesAgentStream.on_message, CursesAgentStream.loads, try_except,
    bind, lift.
  rewrite Hloads.
  destruct (py_get data (str "type") VNone) as [v|] eqn:Hv; [|reflexivity].
  rewrite (Htype v eq_refl). reflexivity.
Qed.

Lemma curses_viewer_ignores_other_messages_witness :
  let data := VDict [(str "type", VStr (str "init"));
                     (str "events",
                      VList [sample_event (str "A") (str "tool_use");
                             sample_event (str "B") (str "error")])] in
  sample_loads [1%N] = Some data
  /\ (forall v, py_get data (str "type") VNone = Ok v ->
                eq_str v (str "event") = false)
  /\ CursesAgentStream.on_message sample_loads [1%N] CursesAgentStream.init
     = (Ok (), CursesAgentStream.init).
Proof.
  intros data.
  assert (forall v, py_get data (str "type") VNone = Ok v ->
                    eq_str v (str "event") = false) as H.
  { intros v Hv. vm_compute in Hv. inversion Hv. reflexivity. }
  split; [reflexivity|]. split; [exact H|].
  exact (curses_viewer_ignores_other_messages sample_loads [1%N] data
           CursesAgentStream.init eq_refl H).
Defined.

(** X13. The full-screen viewer never applies a filter: with any values in
    [filter_app] and [filter_type], a frame is buffered and counted exactly as
    with none. *)
Theorem curses_viewer_applies_no_filter
    (json_loads : pystr -> option value) (m : pystr) (a b : option pystr)
    (s : CursesAgentStream.t) :
  CursesAgentStream.on_message json_loads m (with_filters a b s)
  = ((CursesAgentStream.on_message json_loads m s).1,
     with_filters a b (CursesAgentStream.on_message json_loads m s).2).
Proof.
  unfold CursesAgentStream.on_message, CursesAgentStream.update_stats,
    CursesAgentStream.loads, try_except, bind, lift, modify, ret.
  simpl. repeat (destruct_inner; simpl); reflexivity.
Qed.

Lemma last_n_all {A} (w : nat) (l : list A) :
  (length l <= w)%nat -> last_n w l = l.
Proof.
  intros H. unfold last_n.
  replace (length l - w)%nat with 0%nat by lia. reflexivity.
Qed.

Lemma last_n_app_last_n {A} (w : nat) (a b : list A) :
  last_n w (last_n w a ++ b) = last_n w (a ++ b).
Proof.
  unfold last_n. rewrite !drop_app, !length_app, !length_drop, drop_drop.
  f_equal; f_equal; lia.
Qed.

Lemma curses_update_stats_countable (e : value) (s : CursesAgentStream.t)
    (tk ak gk : key) :
  field_key e (str "event_type") = Ok tk ->
  agent_type_key e = Ok gk ->
  field_key e (str "app") = Ok ak ->
  CursesAgentStream.update_stats e s
  = (Ok (),
     CursesAgentStream.set_agent_stats
       (fun a => <[ak := incr gk (default ∅ (a !! ak))]> a)
       (CursesAgentStream.set_stats
          (fun d => incr tk (incr (KStr (str "total")) d)) s)).
Proof.
  intros Htk Hgk Hak.
  unfold CursesAgentStream.update_stats, bind, lift, modify. simpl.
  unfold field_key in Htk, Hak. unfold agent_type_key in Hgk.
  destruct (py_get e (str "event_type") _) as [ty|]; [|discriminate].
  rewrite Htk.
  destruct (py_get e (str "payload") _) as [payload|]; [|discriminate].
  destruct (py_get payload (str "agent_type") _) as [agent|]; [|discriminate].
  destruct (py_get e (str "app") _) as [app|]; [|discriminate].
  rewrite Hak, Hgk.
  unfold CursesAgentStream.set_agent_stats, CursesAgentStream.set_stats.
  simpl. rewrite lookup_insert_eq, insert_insert_eq. reflexivity.
Qed.

Lemma curses_on_message_live (json_loads : pystr -> option value) (m : pystr)
    (e : value) (s : CursesAgentStream.t) :
  live_frame json_loads m e -> countable e ->
  exists tk ak gk,
    field_key e (str "event_type") = Ok tk
    /\ exec (CursesAgentStream.on_message json_loads m) s
       = CursesAgentStream.set_events
           (fun evs => append_bounded CursesAgentStream.window e evs)
           (CursesAgentStream.set_agent_stats
              (fun a => <[ak := incr gk (default ∅ (a !! ak))]> a)
              (CursesAgentStream.set_stats
                 (fun d => incr tk (incr (KStr (str "total")) d)) s)).
Proof.
  intros (data & Hloads & kvs & -> & Htype & Hdata) ([tk Htk] & [ak Hak] & [gk Hgk]).
  exists tk, ak, gk. split; [exact Htk|].
  unfold exec, CursesAgentStream.on_message, CursesAgentStream.loads,
    try_except, bind, lift, py_get.
  rewrite Hloads, Htype, Hdata. cbn [from_option id].
  change (eq_str (VStr (str "event")) (str "event")) with true.
  unfold modify. cbv iota beta.
  rewrite (curses_update_stats_countable e _ tk ak gk Htk Hgk Hak).
  reflexivity.
Qed.

(** X14. The receive loop of the full-screen viewer, while [running] is on,
    on live events that [update_stats] can count: the recent buffer is the
    last 500 of what it held and what arrived, in arrival order;
    stats["total"] has grown by the number of events, plus one more for each
    event of category "total"; the counts of agent_stats have grown by the
    number of events. *)
Theorem curses_recent_and_tallies_on_live_events
    (json_loads : pystr -> option value) (ms : list pystr) (es : list value)
    (s : CursesAgentStream.t) :
  CursesAgentStream.running s = true ->
  Forall2 (live_frame json_loads) ms es ->
  Forall countable es ->
  (length (CursesAgentStream.events s) <= CursesAgentStream.window)%nat ->
  let s' := exec (CursesAgentStream.receive json_loads ms) s in
  CursesAgentStream.events s'
  = last_n CursesAgentStream.window (CursesAgentStream.events s ++ es)
  /\ total (CursesAgentStream.stats s')
     = total (CursesAgentStream.stats s) + Z.of_nat (length es)
       + Z.of_nat (length (List.filter category_is_total es))
  /\ agent_sum (CursesAgentStream.agent_stats s')
     = agent_sum (CursesAgentStream.agent_stats s) + Z.of_nat (length es).
Proof.
  intros Hrun Hlive. revert s Hrun.
  induction Hlive as [|m e ms es Hm _ IH]; intros s Hrun Hcount Hlen.
  - cbv zeta. unfold exec. cbn [CursesAgentStream.receive ret snd].
    rewrite app_nil_r, last_n_all by exact Hlen.
    simpl. repeat split; lia.
  - apply Forall_cons in Hcount as [He Hes].
    destruct (curses_on_message_live json_loads m e s Hm He)
      as (tk & ak & gk & Htk & Hstep).
    assert (category_is_total e = bool_decide (tk = KStr (str "total")))
      as Hcat by (unfold category_is_total; rewrite Htk; reflexivity).
    set (s1 := CursesAgentStream.set_events
                 (fun evs => append_bounded CursesAgentStream.window e evs)
                 (CursesAgentStream.set_agent_stats
                    (fun a => <[ak := incr gk (default ∅ (a !! ak))]> a)
                    (CursesAgentStream.set_stats
                       (fun d => incr tk (incr (KStr (str "total")) d)) s)))
      in *.
    assert (exec (CursesAgentStream.receive json_loads (m :: ms)) s
            = exec (CursesAgentStream.receive json_loads ms) s1) as Hrec.
    { unfold exec in *. cbn [CursesAgentStream.receive].
      unfold bind at 1. unfold get. rewrite Hrun. cbn [negb].
      unfold bind.
      pose proof (curses_on_message_never_raises json_loads m s) as Hok.
      destruct (CursesAgentStream.on_message json_loads m s) as [r s2].
      cbn [fst snd] in Hok, Hstep. subst r s2. reflexivity. }
    cbv zeta. rewrite Hrec.
    destruct (IH s1) as (IHev & IHt & IHa);
      [exact Hrun | exact Hes
       | subst s1; simpl; apply length_append_bounded, Hlen |].
    cbv zeta in IHev, IHt, IHa.
    rewrite IHev, IHt, IHa. subst s1. simpl.
    rewrite total_incr, agent_sum_incr, Hcat.
    split; [|split].
    + rewrite <- (last_n_all CursesAgentStream.window
                    (CursesAgentStream.events s)) at 1 by exact Hlen.
      rewrite append_bounded_last_n, last_n_app_last_n, <- app_assoc.
      reflexivity.
    + destruct (bool_decide (tk = KStr (str "total"))); simpl; lia.
    + lia.
Qed.

Lemma curses_recent_and_tallies_on_live_events_witness :
  let es := [sample_event (str "A") (str "tool_use");
             sample_event (str "A") (str "tool_use")] in
  CursesAgentStream.running CursesAgentStream.init = true
  /\ Forall2 (live_frame sample_loads) [[2%N]; [2%N]] es
  /\ Forall countable es
  /\ (length (CursesAgentStream.events CursesAgentStream.init)
      <= CursesAgentStream.window)%nat
  /\ let s' := exec (CursesAgentStream.receive sample_loads [[2%N]; [2%N]])
                 CursesAgentStream.init in
     CursesAgentStream.events s'
     = last_n CursesAgentStream.window
         (CursesAgentStream.events CursesAgentStream.init ++ es)
     /\ total (CursesAgentStream.stats s')
        = total (CursesAgentStream.stats CursesAgentStream.init)
          + Z.of_nat (length es)
          + Z.of_nat (length (List.filter category_is_total es))
     /\ agent_sum (CursesAgentStream.agent_stats s')
        = agent_sum (CursesAgentStream.agent_stats CursesAgentStream.init)
          + Z.of_nat (length es).
Proof.
  intros es.
  assert (live_frame sample_loads [2%N] (sample_event (str "A") (str "tool_use")))
    as Hl.
  { eexists. split; [reflexivity|]. eexists.
    split; [reflexivity|]. split; reflexivity. }
  assert (countable (sample_event (str "A") (str "tool_use"))) as Hc.
  { repeat split; eexists; reflexivity. }
  assert (Forall2 (live_frame sample_loads) [[2%N]; [2%N]] es) as H1
    by (repeat constructor; exact Hl).
  assert (Forall countable es) as H2
    by (apply Forall_cons; split; [exact Hc|];
        apply Forall_cons; split; [exact Hc | apply Forall_nil_2]).
  assert (length (CursesAgentStream.events CursesAgentStream.init)
          <= CursesAgentStream.window)%nat as H3 by (simpl; lia).
  split; [reflexivity|].
  split; [exact H1|]. split; [exact H2|]. split; [exact H3|].
  exact (curses_recent_and_tallies_on_live_events sample_loads [[2%N]; [2%N]]
           es CursesAgentStream.init eq_refl H1 H2 H3).
Defined.

(** ** What [draw_ui] draws *)

Section Rows.

Variable hms_of_iso : pystr -> option pystr.
Variable py_str : value -> pystr.
Variable addstr_ok : Z -> Z -> Z -> Z -> pystr -> bool.

Lemma draw_events_rows (height width : Z) (visible : list value) :
  forall i s,
    exists ops,
      screen (exec (draw_events hms_of_iso py_str addstr_ok height width i
                      visible) s)
      = screen s ++ ops
      /\ Forall (event_row height (3 + i)) ops
      /\ (length ops <= length visible)%nat
      /\ Z.of_nat (length ops) <= Z.max 0 (height - 6 - i).
Proof.
  induction visible as [|event rest IH]; intros i s.
  - exists []. simpl. rewrite app_nil_r. repeat split; [constructor | lia | lia].
  - unfold exec. simpl.
    destruct (height - 3 <=? 3 + i) eqn:Hrow.
    { exists []. simpl. rewrite app_nil_r.
      repeat split; [constructor | lia | lia]. }
    apply Z.leb_gt in Hrow.
    unfold bind at 1. unfold lift.
    destruct (event_line hms_of_iso py_str width event) as [[text a]|ex].
    2:{ exists []. simpl. rewrite app_nil_r.
        repeat split; [constructor | lia | lia]. }
    unfold bind, addstr. simpl.
    destruct (addstr_ok height width (3 + i) 0 text).
    2:{ exists []. simpl. rewrite app_nil_r.
        repeat split; [constructor | lia | lia]. }
    unfold modify.
    destruct (IH (i + 1) (set_screen (fun ops => ops ++ [AddStr (3 + i) 0 text a]) s))
      as (ops' & Hscreen & Hrows & Hlen & Hmax).
    unfold exec in Hscreen.
    exists (AddStr (3 + i) 0 text a :: ops'). split; [|split; [|split]].
    + rewrite Hscreen. simpl. rewrite <- app_assoc. reflexivity.
    + constructor.
      * exists (3 + i), text, a. split; [reflexivity | lia].
      * eapply Forall_impl; [exact Hrows|].
        intros op (y & t & b & -> & Hy). exists y, t, b.
        split; [reflexivity | lia].
    + simpl. lia.
    + simpl length. lia.
Qed.

End Rows.

Section Dashboard.

Variable hms_of_iso : pystr -> option pystr.
Variable py_str : value -> pystr.
Variable addstr_ok : Z -> Z -> Z -> Z -> pystr -> bool.

Lemma addstr_preserves (P : CursesAgentStream.t -> Prop)
    (height width y x : Z) (text : pystr) (a : attr) :
  (forall f, preserves P (modify (set_screen f))) ->
  preserves P (addstr addstr_ok height width y x text a).
Proof.
  intros H. unfold addstr.
  destruct (addstr_ok height width y x text); [apply H | apply preserves_raise].
Qed.

Lemma draw_events_preserves (P : CursesAgentStream.t -> Prop)
    (height width : Z) (visible : list value) :
  (forall f, preserves P (modify (set_screen f))) ->
  forall i,
    preserves P (draw_events hms_of_iso py_str addstr_ok height width i visible).
Proof.
  intros H. induction visible as [|e rest IH]; intros i; simpl.
  - apply preserves_ret.
  - destruct (height - 3 <=? 3 + i); [apply preserves_ret|].
    apply preserves_bind; [apply preserves_lift|]. intros la.
    apply preserves_bind; [apply addstr_preserves, H | intros _; apply IH].
Qed.

Lemma count_make_total (k : key) (d : gmap key Z) :
  count k (<[KStr (str "total") := default 0 (d !! KStr (str "total"))]> d)
  = count k d.
Proof.
  unfold count. destruct (decide (k = KStr (str "total"))) as [->|Hne].
  - rewrite lookup_insert_eq. reflexivity.
  - rewrite lookup_insert_ne by congruence. reflexivity.
Qed.

(** X16. Drawing changes nothing of what the viewer has collected: after
    [draw_ui], whether it returns or raises, the recent buffer, agent_stats,
    the flags and every count of stats are what they were (reading
    stats['total'] for the stats bar can only add the key with count 0). *)
Theorem draw_ui_changes_no_aggregate (height width : Z)
    (s : CursesAgentStream.t) :
  same_aggregate s (exec (draw_ui hms_of_iso py_str addstr_ok height width) s).
Proof.
  assert (forall f, preserves (same_aggregate s) (modify (set_screen f))) as Hscr.
  { intros f s0 H0. exact H0. }
  assert (preserves (same_aggregate s)
            (draw_ui hms_of_iso py_str addstr_ok height width)) as Hp;
    [|apply Hp; repeat split; reflexivity].
  unfold draw_ui.
  apply preserves_bind; [apply Hscr|]. intros _.
  apply preserves_bind; [apply addstr_preserves, Hscr|]. intros _.
  apply preserves_bind.
  { intros s0 (H1 & H2 & H3 & H4 & H5 & H6). repeat split; try assumption.
    intros k. simpl. rewrite count_make_total. apply H6. }
  intros _. apply preserves_bind; [apply preserves_get|]. intros self.
  apply preserves_bind; [apply addstr_preserves, Hscr|]. intros _.
  apply preserves_bind; [apply draw_events_preserves, Hscr|]. intros _.
  apply preserves_bind; [apply addstr_preserves, Hscr|]. intros _.
  apply Hscr.
Qed.

End Dashboard.

Import CursesAgentStream.

Section Area.

Variable hms_of_iso : pystr -> option pystr.
Variable py_str : value -> pystr.
Variable addstr_ok : Z -> Z -> Z -> Z -> pystr -> bool.

Lemma length_slice_from {A} (n : Z) (l : list A) :
  (length (slice_from n l) <= length l)%nat.
Proof. unfold slice_from. destruct (n <? 0); rewrite length_drop; lia. Qed.

Lemma length_filter_le {A} (f : A -> bool) (l : list A) :
  (length (List.filter f l) <= length l)%nat.
Proof.
  induction l as [|x l IH]; simpl; [lia|]. destruct (f x); simpl; lia.
Qed.

Lemma event_rows_in (height : Z) (pre ops post : list draw_op) :
  Forall (fun op => is_event_line op = false) pre ->
  Forall (fun op => is_event_line op = false) post ->
  Forall (event_row height 3) ops ->
  (forall op, op ∈ pre ++ ops ++ post -> is_event_line op = true ->
              event_row height 3 op)
  /\ (length (List.filter is_event_line (pre ++ ops ++ post))
      <= length ops)%nat.
Proof.
  intros Hpre Hpost Hops. split.
  - intros op Hin Hev.
    apply elem_of_app in Hin as [Hin|Hin].
    { rewrite Forall_forall in Hpre. rewrite (Hpre op Hin) in Hev.
      discriminate. }
    apply elem_of_app in Hin as [Hin|Hin].
    { rewrite Forall_forall in Hops. exact (Hops op Hin). }
    rewrite Forall_forall in Hpost. rewrite (Hpost op Hin) in Hev.
    discriminate.
  - rewrite !List.filter_app, !length_app.
    assert (forall l, Forall (fun op => is_event_line op = false) l ->
                      List.filter is_event_line l = []) as Hnone.
    { induction l as [|x l IH]; intros Hl; [reflexivity|].
      apply Forall_cons in Hl as [Hx Hl]. simpl. rewrite Hx. exact (IH Hl). }
    rewrite (Hnone pre Hpre), (Hnone post Hpost). simpl.
    pose proof (length_filter_le is_event_line ops). lia.
Qed.

(** X17. The event lines of [draw_ui] stay in the events area: each is written
    at column 0 on a row from 3 to height - 4, so none overwrites the header, the
    stats bar or the footer, and there are at most height - 6 of them and at
    most as many as there are buffered events. *)
Theorem event_lines_stay_in_the_events_area (height width : Z)
    (s : CursesAgentStream.t) :
  exists ops,
    screen (exec (draw_ui hms_of_iso py_str addstr_ok height width) s)
    = screen s ++ ops
    /\ (forall op, op ∈ ops -> is_event_line op = true ->
                   event_row height 3 op)
    /\ (length (List.filter is_event_line ops) <= length (events s))%nat
    /\ Z.of_nat (length (List.filter is_event_line ops))
       <= Z.max 0 (height - 6).
Proof.
  assert (forall pre ops post,
             Forall (fun op => is_event_line op = false) pre ->
             Forall (fun op => is_event_line op = false) post ->
             Forall (event_row height 3) ops ->
             (length ops <= length (events s))%nat ->
             Z.of_nat (length ops) <= Z.max 0 (height - 6) ->
             (forall op, op ∈ pre ++ ops ++ post -> is_event_line op = true ->
                         event_row height 3 op)
             /\ (length (List.filter is_event_line (pre ++ ops ++ post))
                 <= length (events s))%nat
             /\ Z.of_nat (length (List.filter is_event_line (pre ++ ops ++ post)))
                <= Z.max 0 (height - 6)) as Hall.
  { intros pre ops post Hpre Hpost Hops Hlen Hmax.
    destruct (event_rows_in height pre ops post Hpre Hpost Hops) as [H1 H2].
    split; [exact H1|]. split; lia. }
  unfold exec, draw_ui.
  unfold bind at 1. unfold modify at 1.
  unfold bind at 1. unfold addstr at 1. simpl.
  destruct (addstr_ok height width 0 _ header) eqn:Hheader.
  2:{ simpl. exists ([Clear] ++ [] ++ []). split; [reflexivity|].
      apply Hall; repeat constructor; simpl; lia. }
  unfold modify at 1. unfold bind at 1. unfold modify at 1.
  unfold bind at 1. unfold get at 1. simpl.
  unfold bind at 1. unfold addstr at 1. simpl.
  match goal with
  | |- context [addstr_ok height width 1 0 ?l] =>
      destruct (addstr_ok height width 1 0 l) eqn:Hstats
  end.
  2:{ simpl. eexists ([Clear; AddStr 0 _ header A_BOLD] ++ [] ++ []).
      split; [rewrite <- !app_assoc; reflexivity|].
      apply Hall; repeat constructor; simpl; lia. }
  unfold modify at 1. unfold bind at 1.
  match goal with
  | |- context [draw_events _ _ _ height width 0 ?vis ?s4] =>
      destruct (draw_events_rows hms_of_iso py_str addstr_ok height width vis
                  0 s4) as (ops & Hscreen & Hrows & Hlen & Hmax);
      unfold exec in Hscreen;
      destruct (draw_events hms_of_iso py_str addstr_ok height width 0 vis s4)
        as [[[]|ex] s5] eqn:Hev
  end; simpl in Hscreen.
  all: assert (length ops <= length (events s))%nat as Hlen'
      by (etransitivity; [exact Hlen | apply length_slice_from]).
  all: assert (Z.of_nat (length ops) <= Z.max 0 (height - 6)) as Hmax' by lia.
  all: assert (Forall (event_row height 3) ops) as Hrows'
      by (eapply Forall_impl; [exact Hrows|];
          intros op (y & t & b & -> & Hy); exists y, t, b;
          split; [reflexivity | lia]).
  - unfold bind at 1. unfold addstr at 1.
    destruct (addstr_ok height width (height - 1) 0 footer) eqn:Hfooter.
    + unfold modify. simpl. rewrite Hscreen.
      eexists ([Clear; AddStr 0 _ header A_BOLD; AddStr 1 0 _ A_NORMAL]
                 ++ ops ++ [AddStr (height - 1) 0 footer A_DIM; Refresh]).
      split; [rewrite <- !app_assoc; reflexivity|].
      apply Hall; try assumption; repeat constructor.
    + unfold raise. simpl. rewrite Hscreen.
      eexists ([Clear; AddStr 0 _ header A_BOLD; AddStr 1 0 _ A_NORMAL]
                 ++ ops ++ []).
      split; [rewrite app_nil_r, <- !app_assoc; reflexivity|].
      apply Hall; try assumption; repeat constructor.
  - simpl. rewrite Hscreen.
    eexists ([Clear; AddStr 0 _ header A_BOLD; AddStr 1 0 _ A_NORMAL]
               ++ ops ++ []).
    split; [rewrite app_nil_r, <- !app_assoc; reflexivity|].
    apply Hall; try assumption; repeat constructor.
Qed.

End Area.

Section Freeze.

Variable hms_of_iso : pystr -> option pystr.
Variable py_str : value -> pystr.
Variable addstr_ok : Z -> Z -> Z -> Z -> pystr -> bool.
Variable popup_ok : Z -> Z -> popup_stage -> CursesAgentStream.t -> bool.

(** X18. While the first visible event cannot be formatted (no timestamp, say),
    a turn of the main loop of the full-screen viewer draws the header and the
    stats bar and stops there: no event line, no footer and no refresh, and
    [handle_input] is not reached, so that the key is not read and the flags
    stay as they were, 'q' included. This holds even when every [addstr]
    succeeds. *)
Theorem unformattable_event_blocks_refresh_and_keys
    (height width key : Z) (s : CursesAgentStream.t) (e : value)
    (rest : list value) (ex : exn) :
  (forall y x text, addstr_ok height width y x text = true) ->
  6 < height ->
  slice_from (- ((height - 3) - 3)) (events s) = e :: rest ->
  event_line hms_of_iso py_str width e = Raise ex ->
  let s' := exec (run_step hms_of_iso py_str addstr_ok popup_ok height width
                    key) s in
  outcome (run_step hms_of_iso py_str addstr_ok popup_ok height width key) s
  = Ok ()
  /\ (exists ops, screen s' = screen s ++ ops
                  /\ (Refresh ∉ ops)
                  /\ Forall (fun op => is_event_line op = false) ops)
  /\ running s' = running s
  /\ pause s' = pause s
  /\ show_details s' = show_details s.
Proof.
  intros Hok Hheight Hvisible Hline.
  assert (exists s1,
             draw_ui hms_of_iso py_str addstr_ok height width s = (Raise ex, s1)
             /\ (exists ops, screen s1 = screen s ++ ops
                             /\ (Refresh ∉ ops)
                             /\ Forall (fun op => is_event_line op = false) ops)
             /\ running s1 = running s /\ pause s1 = pause s
             /\ show_details s1 = show_details s) as (s1 & Hdraw & Hops & Hflags).
  { unfold draw_ui.
    unfold bind at 1. unfold modify at 1.
    unfold bind at 1. unfold addstr at 1. rewrite Hok.
    unfold modify at 1. unfold bind at 1. unfold modify at 1.
    unfold bind at 1. unfold get at 1.
    unfold bind at 1. unfold addstr at 1. rewrite Hok.
    unfold modify at 1. unfold bind at 1.
    cbn [events set_stats set_screen]. rewrite Hvisible.
    cbn [draw_events].
    assert (((height - 3) <=? (3 + 0)) = false) as -> by (apply Z.leb_gt; lia).
    unfold bind at 1. unfold lift at 1. rewrite Hline.
    eexists. split; [reflexivity|]. split; [|repeat split].
    unfold set_screen, set_stats. cbn [screen].
    eexists. split; [rewrite <- !app_assoc; reflexivity|].
    split.
    - intros Hin.
      repeat (apply elem_of_cons in Hin as [Hin|Hin]; [discriminate|]).
      inversion Hin.
    - repeat constructor. }
  unfold exec, outcome, run_step, try_except, bind.
  rewrite Hdraw. simpl. split; [reflexivity|]. split; [exact Hops|exact Hflags].
Qed.

End Freeze.

Lemma unformattable_event_blocks_refresh_and_keys_witness :
  let s := CursesAgentStream.set_events (fun _ => [VDict []])
             CursesAgentStream.init in
  (forall y x text, addstr_always 24 80 y x text = true)
  /\ 6 < 24
  /\ slice_from (Z.opp (24 - 3 - 3)) (events s) = [VDict []]
  /\ event_line (fun _ => None) str_of_str 80 (VDict []) = Raise ValueError
  /\ running (exec (run_step (fun _ => None) str_of_str addstr_always
                      popup_always 24 80 113) s)
     = running s.
Proof.
  intros s.
  assert (forall y x text, addstr_always 24 80 y x text = true) as H1
    by reflexivity.
  assert (6 < 24) as H2 by lia.
  split; [exact H1|]. split; [exact H2|].
  split; [reflexivity|]. split; [reflexivity|].
  apply (unformattable_event_blocks_refresh_and_keys (fun _ => None) str_of_str
           addstr_always popup_always 24 80 113 s (VDict []) [] ValueError
           H1 H2);
    reflexivity.
Defined.

(** ** Keys *)

(** X19. After the key 'q' the receive loop of the full-screen viewer reads no
    further frame: whatever the connection still delivers, the object stays
    as the key left it. *)
Theorem quit_key_stops_the_receive_loop
    (json_loads : pystr -> option value)
    (popup_ok : Z -> Z -> popup_stage -> CursesAgentStream.t -> bool)
    (height width : Z) (ms : list pystr) (s : CursesAgentStream.t) :
  let s' := exec (handle_input popup_ok height width 113) s in
  running s' = false
  /\ CursesAgentStream.receive json_loads ms s' = (Ok (), s').
Proof.
  split; [reflexivity|].
  destruct ms as [|m ms]; reflexivity.
Qed.

(** The popup of the key 's' sorts the counters by their keys. With only
    categories that are strings it is shown; with a category that is not a
    str among them (an event whose "event_type" is the number 5), [sorted]
    raises [TypeError], the window is not shown, and the main loop passes on
    the error. *)
Lemma stats_popup_needs_keys_that_compare :
  let strs := CursesAgentStream.set_stats (fun _ => {[KStr (str "error") := 1]})
                CursesAgentStream.init in
  let mixed := CursesAgentStream.set_stats (fun _ => {[KInt 5 := 1]})
                 CursesAgentStream.init in
  let popup := handle_input popup_always 24 80 115 in
  popup strs
  = (Ok (),
     CursesAgentStream.set_screen (fun ops => ops ++ [StatsWindow])
       (CursesAgentStream.set_stats
          (fun d => <[KStr (str "total") := 0]> d) strs))
  /\ outcome popup mixed = Raise TypeError
  /\ screen (exec popup mixed) = []
  /\ outcome (run_step (fun _ => None) str_of_str addstr_always popup_always
                24 80 115) mixed = Ok ().
Proof. vm_compute. repeat split; reflexivity. Qed.

(** ** The two truncations of [draw_ui] *)

Lemma len_truncate_long (width : Z) (line : pystr) :
  width - 1 < len line -> 4 <= width ->
  len (truncate width line) = width - 1.
Proof.
  intros Hlong Hw. unfold truncate.
  assert ((width - 1 <? len line) = true) as -> by (apply Z.ltb_lt; lia).
  unfold slice_to.
  assert ((width - 4 <? 0) = false) as -> by (apply Z.ltb_ge; lia).
  rewrite len_app. unfold len in *. rewrite length_take. simpl. lia.
Qed.

(** X20. "Truncate if too long": a line longer than width - 1 comes out with
    exactly width - 1 characters, the last three being "...", when the width
    is at least 4; below 4 the slice bound [width - 4] is negative, and the
    line comes out longer than width - 1. *)
Theorem truncate_lengths (width : Z) (line : pystr) :
  width - 1 < len line ->
  (4 <= width ->
   len (truncate width line) = width - 1
   /\ str "..." `suffix_of` truncate width line)
  /\ (width < 4 -> width - 1 < len (truncate width line)).
Proof.
  intros Hlong. unfold truncate.
  assert ((width - 1 <? len line) = true) as -> by (apply Z.ltb_lt; lia).
  split.
  - intros Hw. split; [|apply suffix_app_r; reflexivity].
    unfold slice_to.
    assert ((width - 4 <? 0) = false) as -> by (apply Z.ltb_ge; lia).
    rewrite len_app. unfold len in *. rewrite length_take. simpl. lia.
  - intros Hw. rewrite len_app.
    assert (len (str "...") = 3) as -> by reflexivity.
    assert (0 <= len (slice_to (width - 4) line)) by (unfold len; lia).
    lia.
Qed.

Lemma truncate_lengths_witness :
  let line := replicate 100 120%N in
  80 - 1 < len line
  /\ (4 <= 80 ->
      len (truncate 80 line) = 80 - 1
      /\ str "..." `suffix_of` truncate 80 line)
  /\ (80 < 4 -> 80 - 1 < len (truncate 80 line)).
Proof.
  intros line.
  assert (80 - 1 < len line) as H by (vm_compute; reflexivity).
  split; [exact H|]. exact (truncate_lengths 80 line H).
Defined.

(** X21. "Add summary if available": when the summary is a string too long for
    the room left (and that room is at least 3), the shortened summary makes
    the line exactly [width] characters long, one more than fits, so that
    "Truncate if too long" always cuts the line a second time. *)
Theorem shortened_summary_overflows_by_one
    (py_str : value -> pystr) (width : Z) (line summary : pystr) :
  (forall v, py_str (VStr v) = v) ->
  3 <= width - len line - 3 ->
  width - len line - 3 < len summary ->
  exists line',
    with_summary py_str width line (VStr summary) = Ok line'
    /\ len line' = width
    /\ len (truncate width line') = width - 1.
Proof.
  intros Hstr Hroom Hlong.
  unfold with_summary, ellipsize, py_len, py_slice_to.
  assert (truthy (VStr summary) = true) as ->.
  { simpl. destruct summary; [unfold len in *; simpl in *; lia|].
    reflexivity. }
  fold (len summary).
  assert ((width - len line - 3 <? len summary) = true) as ->
    by (apply Z.ltb_lt; lia).
  eexists. split; [reflexivity|].
  assert (len (line ++ str " - "
                    ++ py_str (VStr (slice_to (width - len line - 3 - 3) summary
                                       ++ str "..."))) = width) as Hlen.
  { rewrite Hstr, !len_app. unfold slice_to.
    assert ((width - len line - 3 - 3 <? 0) = false) as ->
      by (apply Z.ltb_ge; lia).
    assert (len (str " - ") = 3) as -> by reflexivity.
    assert (len (str "...") = 3) as -> by reflexivity.
    unfold len in *. rewrite length_take. lia. }
  split; [exact Hlen|].
  apply len_truncate_long; [rewrite Hlen; lia | unfold len in *; lia].
Qed.

Lemma shortened_summary_overflows_by_one_witness :
  let line := replicate 30 120%N in
  let summary := replicate 100 121%N in
  (forall v, str_of_str (VStr v) = v)
  /\ 3 <= 80 - len line - 3
  /\ 80 - len line - 3 < len summary
  /\ exists line',
       with_summary str_of_str 80 line (VStr summary) = Ok line'
       /\ len line' = 80
       /\ len (truncate 80 line') = 80 - 1.
Proof.
  intros line summary.
  assert (forall v, str_of_str (VStr v) = v) as H1 by reflexivity.
  assert (3 <= 80 - len line - 3) as H2 by (vm_compute; discriminate).
  assert (80 - len line - 3 < len summary) as H3 by (vm_compute; reflexivity).
  split; [exact H1|]. split; [exact H2|]. split; [exact H3|].
  exact (shortened_summary_overflows_by_one str_of_str 80 line summary H1 H2 H3).
Defined.

(** ** The polling viewer, further *)

Set Warnings "-clear-no-such-hyp".

Section Poll.

Variable json_loads : pystr -> option value.
Variable hms_of_iso : pystr -> option pystr.
Variable py_str : value -> pystr.
Variable set_pop : gset key -> key.

Lemma poll_once_never_raises (r : response) :
  never_raises (poll_once json_loads hms_of_iso py_str set_pop r).
Proof.
  intros s. unfold poll_once, try_except.
  match goal with |- context [match ?x with _ => _ end] => destruct x as [[[]|e] s'] end;
    reflexivity.
Qed.

(** X22. [poll_events] never raises: a server that cannot be reached, a body
    that is not JSON or not a list, and a record that cannot be displayed are
    all caught, and the next poll follows. *)
Theorem poll_events_never_raises (rs : list response) :
  never_raises (poll_events json_loads hms_of_iso py_str set_pop rs).
Proof.
  assert (never_raises (poll_loop json_loads hms_of_iso py_str set_pop rs)) as H.
  { induction rs as [|r rs IH]; intros s; simpl; [reflexivity|].
    unfold bind at 1. unfold get. simpl.
    destruct (SimpleAgentStream.running s); [|reflexivity].
    unfold bind. pose proof (poll_once_never_raises r s) as Hr.
    destruct (poll_once json_loads hms_of_iso py_str set_pop r s)
      as [[[]|e] s']; simpl in Hr; [apply IH | discriminate]. }
  intros s. unfold poll_events, bind, modify. apply H.
Qed.

Lemma display_event_seen_ids (e : value) (s : SimpleAgentStream.t) :
  seen_ids (display_event json_loads hms_of_iso py_str e s).2 = seen_ids s.
Proof.
  unfold display_event, SimpleAgentStream.print, bind, lift, modify. simpl.
  repeat (destruct_inner; simpl); reflexivity.
Qed.

Lemma visit_seen (e : value) (k : key) (s : SimpleAgentStream.t) :
  id_key e = Ok k -> k ∈ seen_ids s ->
  visit json_loads hms_of_iso py_str set_pop e s = (Ok (), s).
Proof.
  intros Hid Hin. unfold id_key in Hid.
  unfold visit, bind, lift, get.
  destruct (py_get e (str "id") VNone) as [v|]; [|discriminate].
  rewrite Hid. rewrite bool_decide_eq_true_2 by exact Hin. reflexivity.
Qed.

Lemma visit_showable (e : value) (k : key) (s : SimpleAgentStream.t) :
  id_key e = Ok k ->
  (forall s0, (display_event json_loads hms_of_iso py_str e s0).1 = Ok ()) ->
  (size ({[k]} ∪ seen_ids s) <= 100)%nat ->
  (visit json_loads hms_of_iso py_str set_pop e s).1 = Ok ()
  /\ seen_ids (visit json_loads hms_of_iso py_str set_pop e s).2
     = {[k]} ∪ seen_ids s.
Proof.
  intros Hid Hshow Hsize.
  destruct (decide (k ∈ seen_ids s)) as [Hin|Hnot].
  - rewrite (visit_seen e k s Hid Hin). split; [reflexivity|].
    simpl. apply leibniz_equiv. intros x. rewrite elem_of_union, elem_of_singleton.
    split; [auto | intros [->|Hx]; assumption].
  - assert (exists s1,
               visit json_loads hms_of_iso py_str set_pop e s = (Ok (), s1)
               /\ seen_ids s1 = {[k]} ∪ seen_ids s) as (s1 & Hv & Hs1).
    { unfold id_key in Hid. unfold visit.
      unfold bind at 1. unfold lift at 1.
      destruct (py_get e (str "id") VNone) as [v|]; [|discriminate].
      unfold bind at 1. unfold lift at 1. rewrite Hid.
      unfold bind at 1. unfold get at 1.
      rewrite bool_decide_eq_false_2 by exact Hnot.
      unfold bind at 1. unfold modify at 1.
      unfold bind at 1.
      pose proof (Hshow (set_seen_ids (fun ids => {[k]} ∪ ids) s)) as Hd.
      pose proof (display_event_seen_ids e
                    (set_seen_ids (fun ids => {[k]} ∪ ids) s)) as Hs.
      destruct (display_event json_loads hms_of_iso py_str e
                  (set_seen_ids (fun ids => {[k]} ∪ ids) s)) as [[[]|ex] s1];
        simpl in Hd, Hs; [|discriminate].
      unfold bind, get. rewrite Hs.
      assert ((100 <? Z.of_nat (size ({[k]} ∪ seen_ids s))) = false) as ->
        by (apply Z.ltb_ge; lia).
      exists s1. split; [reflexivity | exact Hs]. }
    rewrite Hv. split; [reflexivity | exact Hs1].
Qed.

Lemma display_event_shown (e : value) (s : SimpleAgentStream.t) :
  (display_event json_loads hms_of_iso py_str e s).1 = Ok () ->
  lines_shown
    (SimpleAgentStream.output (display_event json_loads hms_of_iso py_str e s).2)
  = S (lines_shown (SimpleAgentStream.output s)).
Proof.
  unfold display_event, SimpleAgentStream.print, bind, lift, modify. simpl.
  repeat (destruct_inner; simpl); intros H; try discriminate H;
    unfold lines_shown; rewrite List.filter_app, length_app; simpl; lia.
Qed.

Lemma visit_forgets (e : value) (k : key) (s : SimpleAgentStream.t) :
  id_key e = Ok k ->
  (forall s0, (display_event json_loads hms_of_iso py_str e s0).1 = Ok ()) ->
  k ∉ seen_ids s ->
  (100 <= size (seen_ids s))%nat ->
  set_pop ({[k]} ∪ seen_ids s) = k ->
  let s1 := exec (visit json_loads hms_of_iso py_str set_pop e) s in
  seen_ids s1 = seen_ids s
  /\ lines_shown (SimpleAgentStream.output s1)
     = S (lines_shown (SimpleAgentStream.output s)).
Proof.
  intros Hid Hshow Hnot Hsize Hpop.
  assert (exists s1,
             visit json_loads hms_of_iso py_str set_pop e s = (Ok (), s1)
             /\ seen_ids s1 = seen_ids s
             /\ lines_shown (SimpleAgentStream.output s1)
                = S (lines_shown (SimpleAgentStream.output s)))
    as (s1 & Hv & Hs1).
  { unfold id_key in Hid. unfold visit.
    unfold bind at 1. unfold lift at 1.
    destruct (py_get e (str "id") VNone) as [v|]; [|discriminate].
    unfold bind at 1. unfold lift at 1. rewrite Hid.
    unfold bind at 1. unfold get at 1.
    rewrite bool_decide_eq_false_2 by exact Hnot.
    unfold bind at 1. unfold modify at 1.
    unfold bind at 1.
    pose proof (Hshow (set_seen_ids (fun ids => {[k]} ∪ ids) s)) as Hd.
    pose proof (display_event_seen_ids e
                  (set_seen_ids (fun ids => {[k]} ∪ ids) s)) as Hs.
    pose proof (display_event_shown e
                  (set_seen_ids (fun ids => {[k]} ∪ ids) s) Hd) as Hl.
    destruct (display_event json_loads hms_of_iso py_str e
                (set_seen_ids (fun ids => {[k]} ∪ ids) s)) as [[[]|ex] s1];
      simpl in Hd, Hs, Hl; [|discriminate].
    unfold bind, get. rewrite Hs.
    assert (size ({[k]} ∪ seen_ids s) = S (size (seen_ids s))) as Hsz.
    { rewrite size_union by set_solver. rewrite size_singleton. lia. }
    assert ((100 <? Z.of_nat (size ({[k]} ∪ seen_ids s))) = true) as ->
      by (apply Z.ltb_lt; lia).
    unfold modify. eexists. split; [reflexivity|].
    split; [|exact Hl].
    simpl. rewrite Hs, Hpop. apply leibniz_equiv. set_solver. }
  unfold exec. rewrite Hv. exact Hs1.
Qed.

(** [seen_ids.pop()] gives up an arbitrary identifier, not the oldest: the
    comment says "Keep only last 100 IDs". When, with 100 identifiers seen,
    it gives up the one just added, the record is forgotten as soon as it is
    shown, and the next visit of the same record shows it again. *)
Lemma pop_can_forget_a_shown_id (e : value) (k : key)
    (s : SimpleAgentStream.t) :
  id_key e = Ok k ->
  (forall s0, (display_event json_loads hms_of_iso py_str e s0).1 = Ok ()) ->
  k ∉ seen_ids s ->
  (100 <= size (seen_ids s))%nat ->
  set_pop ({[k]} ∪ seen_ids s) = k ->
  let s1 := exec (visit json_loads hms_of_iso py_str set_pop e) s in
  let s2 := exec (visit json_loads hms_of_iso py_str set_pop e) s1 in
  seen_ids s1 = seen_ids s
  /\ lines_shown (SimpleAgentStream.output s1)
     = S (lines_shown (SimpleAgentStream.output s))
  /\ lines_shown (SimpleAgentStream.output s2)
     = S (S (lines_shown (SimpleAgentStream.output s))).
Proof.
  intros Hid Hshow Hnot Hsize Hpop s1 s2.
  destruct (visit_forgets e k s Hid Hshow Hnot Hsize Hpop) as [Hseen Hlines].
  fold s1 in Hseen, Hlines.
  split; [exact Hseen|]. split; [exact Hlines|].
  destruct (visit_forgets e k s1 Hid Hshow) as [_ Hlines2];
    [rewrite Hseen; exact Hnot | rewrite Hseen; exact Hsize
     | rewrite Hseen; exact Hpop |].
  fold s2 in Hlines2. rewrite Hlines2, Hlines. reflexivity.
Qed.

End Poll.

(** With the identifiers 412 to 511 seen and a [pop] that gives up 512 from
    the set that holds it, the record 512 is shown at each visit. *)
Lemma pop_can_forget_a_shown_id_example :
  let s := set_seen_ids (fun _ => list_to_set (KInt <$> seqZ 412 100))
             SimpleAgentStream.init in
  let visit512 :=
    visit (fun _ => None) (fun _ => Some (str "12:00:00")) str_of_str
      (fun _ => KInt 512) (record_with_id (str "2024-01-01T12:00:00") 512) in
  lines_shown (SimpleAgentStream.output (exec visit512 (exec visit512 s)))
  = 2%nat.
Proof.
  intros s visit512.
  assert (KInt 512 ∉ seen_ids s) as Hnot.
  { apply (bool_decide_unpack (KInt 512 ∉ seen_ids s)). vm_compute. exact I. }
  assert (100 <= size (seen_ids s))%nat as Hsize by (vm_compute; lia).
  destruct (pop_can_forget_a_shown_id (fun _ => None)
              (fun _ => Some (str "12:00:00")) str_of_str (fun _ => KInt 512)
              (record_with_id (str "2024-01-01T12:00:00") 512) (KInt 512) s
              eq_refl (fun _ => eq_refl) Hnot Hsize eq_refl) as (_ & _ & H).
  exact H.
Qed.

Section PollAgain.

Variable json_loads : pystr -> option value.
Variable hms_of_iso : pystr -> option pystr.
Variable py_str : value -> pystr.
Variable set_pop : gset key -> key.

Lemma visit_all_showable (es : list value) :
  Forall (showable json_loads hms_of_iso py_str) es ->
  forall s,
    (size (ids_of es ∪ seen_ids s) <= 100)%nat ->
    (for_each (visit json_loads hms_of_iso py_str set_pop) es s).1 = Ok ()
    /\ seen_ids (for_each (visit json_loads hms_of_iso py_str set_pop) es s).2
       = ids_of es ∪ seen_ids s.
Proof.
  induction 1 as [|e es [[k Hk] Hshow] _ IH]; intros s Hsize.
  - simpl. split; [reflexivity|]. apply leibniz_equiv. set_solver.
  - simpl in Hsize. rewrite Hk in Hsize.
    assert (size ({[k]} ∪ seen_ids s) <= 100)%nat as Hk100.
    { etransitivity; [|exact Hsize]. apply subseteq_size. set_solver. }
    destruct (visit_showable json_loads hms_of_iso py_str set_pop e k s
                Hk Hshow Hk100) as [Hv Hs].
    simpl. unfold bind.
    destruct (visit json_loads hms_of_iso py_str set_pop e s) as [[[]|ex] s1];
      simpl in Hv, Hs; [|discriminate].
    assert (size (ids_of es ∪ seen_ids s1) <= 100)%nat as Hrest.
    { rewrite Hs. etransitivity; [|exact Hsize].
      apply subseteq_size. set_solver. }
    destruct (IH s1 Hrest) as [IHv IHs].
    split; [exact IHv|]. rewrite IHs, Hs, Hk.
    apply leibniz_equiv. set_solver.
Qed.

Lemma visit_all_seen (es : list value) (s : SimpleAgentStream.t) :
  Forall (fun e => exists k, id_key e = Ok k) es ->
  ids_of es ⊆ seen_ids s ->
  for_each (visit json_loads hms_of_iso py_str set_pop) es s = (Ok (), s).
Proof.
  induction 1 as [|e es [k Hk] _ IH]; intros Hsub; [reflexivity|].
  simpl in Hsub. rewrite Hk in Hsub.
  simpl. unfold bind.
  rewrite (visit_seen json_loads hms_of_iso py_str set_pop e k s Hk)
    by set_solver.
  apply IH. set_solver.
Qed.

(** X23. Polling the same records again shows nothing and counts nothing: after
    a poll that displayed a batch (each record with an identifier, each
    displayed without error, at most 100 identifiers seen in all), a second
    poll that fetches the same batch leaves the object exactly as it was. *)
Theorem polling_a_batch_again_changes_nothing
    (body : pystr) (es : list value) (s : SimpleAgentStream.t) :
  json_loads body = Some (VList es) ->
  Forall (showable json_loads hms_of_iso py_str) es ->
  (size (ids_of es ∪ seen_ids s) <= 100)%nat ->
  let s1 := exec (poll_once json_loads hms_of_iso py_str set_pop (Body body)) s in
  poll_once json_loads hms_of_iso py_str set_pop (Body body) s1 = (Ok (), s1).
Proof.
  intros Hbody Hshow Hsize.
  assert (forall s0,
             poll_once json_loads hms_of_iso py_str set_pop (Body body) s0
             = try_except
                 (for_each (visit json_loads hms_of_iso py_str set_pop) es)
                 (fun e => SimpleAgentStream.print (SimpleAgentStream.ErrorLine e))
                 s0) as Hpoll.
  { intros s0. unfold poll_once, try_except, fetch_events, bind, lift, ret.
    rewrite Hbody. reflexivity. }
  destruct (visit_all_showable es Hshow s Hsize) as [Hv Hs].
  destruct (for_each (visit json_loads hms_of_iso py_str set_pop) es s)
    as [[[]|ex] s1] eqn:Hfirst; simpl in Hv, Hs; [|discriminate].
  assert (poll_once json_loads hms_of_iso py_str set_pop (Body body) s
          = (Ok (), s1)) as H1.
  { rewrite Hpoll. unfold try_except. rewrite Hfirst. reflexivity. }
  cbv zeta. unfold exec. rewrite H1. simpl.
  rewrite Hpoll. unfold try_except.
  rewrite visit_all_seen; [reflexivity | |].
  - eapply Forall_impl; [exact Hshow|]. intros e [Hid _]. exact Hid.
  - rewrite Hs. set_solver.
Qed.

End PollAgain.

Lemma showable_record_with_id (stamp : pystr) (n : Z) :
  showable (fun _ => None) (fun _ => Some (str "12:00:00")) str_of_str
    (record_with_id stamp n).
Proof.
  split; [eexists; reflexivity|]. intros s. reflexivity.
Qed.

Lemma polling_a_batch_again_changes_nothing_witness :
  let es := [record_with_id (str "2024-01-01T12:00:00") 1;
             record_with_id (str "2024-01-01T12:00:00") 2] in
  let loads := fun _ : pystr => Some (VList es) in
  let hms := fun _ : pystr => Some (str "12:00:00") in
  loads [] = Some (VList es)
  /\ Forall (showable loads hms str_of_str) es
  /\ (size (ids_of es ∪ seen_ids SimpleAgentStream.init) <= 100)%nat
  /\ let s1 := exec (poll_once loads hms str_of_str (fun _ => KNone) (Body []))
                 SimpleAgentStream.init in
     poll_once loads hms str_of_str (fun _ => KNone) (Body []) s1 = (Ok (), s1).
Proof.
  intros es loads hms.
  assert (Forall (showable loads hms str_of_str) es) as Hshow.
  { apply Forall_cons; split;
      [split; [eexists; reflexivity | intros s; reflexivity]|].
    apply Forall_cons; split;
      [split; [eexists; reflexivity | intros s; reflexivity]|].
    apply Forall_nil_2. }
  assert (size (ids_of es ∪ seen_ids SimpleAgentStream.init) <= 100)%nat
    as Hsize by (vm_compute; lia).
  split; [reflexivity|]. split; [exact Hshow|]. split; [exact Hsize|].
  exact (polling_a_batch_again_changes_nothing loads hms str_of_str
           (fun _ => KNone)
           [] es SimpleAgentStream.init eq_refl Hshow Hsize).
Defined.

Section Records.

Variable json_loads : pystr -> option value.
Variable hms_of_iso : pystr -> option pystr.
Variable py_str : value -> pystr.
Variable set_pop : gset key -> key.

(** X24. A record that cannot be displayed is lost for good: its identifier is
    put among the seen ones before [display_event] raises (here on a missing
    timestamp), nothing is counted, "Error: ..." is printed, the records that
    follow it in the batch are skipped for this poll, and when the record is
    fetched again it is taken for a duplicate. *)
Theorem undisplayable_record_is_marked_seen
    (body : pystr) (kvs : list (pystr * value)) (rest : list value) (k : key)
    (s : SimpleAgentStream.t) :
  json_loads body = Some (VList (VDict kvs :: rest)) ->
  id_key (VDict kvs) = Ok k ->
  k ∉ seen_ids s ->
  hms_of_iso [] = None ->
  assoc (str "timestamp") kvs = None ->
  let s' := SimpleAgentStream.set_output
              (fun out => out ++ [SimpleAgentStream.ErrorLine ValueError])
              (set_seen_ids (fun ids => {[k]} ∪ ids) s) in
  poll_once json_loads hms_of_iso py_str set_pop (Body body) s = (Ok (), s')
  /\ visit json_loads hms_of_iso py_str set_pop (VDict kvs) s' = (Ok (), s').
Proof.
  intros Hbody Hid Hnot Hiso Hts s'. split.
  - unfold poll_once, try_except, fetch_events.
    unfold bind at 1. unfold ret at 1. rewrite Hbody.
    unfold bind at 1. unfold lift at 1. unfold py_iter.
    cbn [for_each]. unfold bind at 1.
    unfold visit. unfold id_key in Hid.
    unfold bind at 1. unfold lift at 1.
    destruct (py_get (VDict kvs) (str "id") VNone) as [v|]; [|discriminate].
    unfold bind at 1. unfold lift at 1. rewrite Hid.
    unfold bind at 1. unfold get at 1.
    rewrite bool_decide_eq_false_2 by exact Hnot.
    unfold bind at 1. unfold modify at 1.
    unfold bind at 1. unfold display_event.
    unfold bind at 1. unfold lift at 1. unfold py_get at 1. rewrite Hts.
    cbn [from_option id]. unfold bind at 1. unfold lift at 1.
    unfold clock. rewrite Hiso. reflexivity.
  - apply (visit_seen json_loads hms_of_iso py_str set_pop (VDict kvs) k s' Hid).
    simpl. set_solver.
Qed.

Lemma assoc_cons_ne {V} (k k' : pystr) (v : V) (kvs : list (pystr * V)) :
  k' <> k -> assoc k ((k', v) :: kvs) = assoc k kvs.
Proof.
  intros H. simpl. destruct (decide (k' = k)); [congruence | reflexivity].
Qed.

Lemma assoc_cons_eq {V} (k : pystr) (v : V) (kvs : list (pystr * V)) :
  assoc k ((k, v) :: kvs) = Some v.
Proof. simpl. destruct (decide (k = k)); [reflexivity | congruence]. Qed.

(** X25. A payload that arrives as a JSON string is decoded before it is read:
    the record is displayed and counted exactly as the record that holds the
    decoded payload (an object, or any value that is not again a string), and
    a string that is not JSON stands for the empty payload. *)
Theorem string_payload_is_decoded
    (kvs : list (pystr * value)) (p : pystr) (d : value)
    (s : SimpleAgentStream.t) :
  default (VDict []) (json_loads p) = d ->
  (forall q, d <> VStr q) ->
  display_event json_loads hms_of_iso py_str
    (VDict ((str "payload", VStr p) :: kvs)) s
  = display_event json_loads hms_of_iso py_str
      (VDict ((str "payload", d) :: kvs)) s.
Proof.
  intros Hd Hnot. unfold display_event, py_get.
  rewrite !assoc_cons_eq.
  rewrite !(assoc_cons_ne (str "timestamp")) by discriminate.
  rewrite !(assoc_cons_ne (str "app")) by discriminate.
  rewrite !(assoc_cons_ne (str "event_type")) by discriminate.
  rewrite !(assoc_cons_ne (str "summary")) by discriminate.
  unfold bind, lift.
  destruct (clock hms_of_iso (default (VStr []) (assoc (str "timestamp") kvs)));
    [|reflexivity].
  cbn [from_option id]. rewrite Hd.
  destruct d; try reflexivity. exfalso. exact (Hnot _ eq_refl).
Qed.

End Records.

Lemma undisplayable_record_is_marked_seen_witness :
  let stamp := str "2024-01-01T12:00:00" in
  let kvs := [(str "id", VInt 7); (str "app", VStr (str "A"))] in
  let rest := [record_with_id stamp 8] in
  let loads := fun _ : pystr => Some (VList (VDict kvs :: rest)) in
  let hms := fun iso : pystr =>
               match iso with [] => None | _ => Some (str "12:00:00") end in
  let s := SimpleAgentStream.init in
  let s' := SimpleAgentStream.set_output
              (fun out => out ++ [SimpleAgentStream.ErrorLine ValueError])
              (set_seen_ids (fun ids => {[KInt 7]} ∪ ids) s) in
  (loads [] = Some (VList (VDict kvs :: rest))
   /\ id_key (VDict kvs) = Ok (KInt 7)
   /\ (KInt 7 ∉ seen_ids s)
   /\ hms [] = None
   /\ assoc (str "timestamp") kvs = None)
  /\ poll_once loads hms str_of_str (fun _ => KNone) (Body []) s = (Ok (), s')
  /\ visit loads hms str_of_str (fun _ => KNone) (VDict kvs) s' = (Ok (), s').
Proof.
  intros stamp kvs rest loads hms s s'.
  assert (KInt 7 ∉ seen_ids s) as Hnot by (vm_compute; set_solver).
  split.
  - repeat split; try reflexivity. exact Hnot.
  - exact (undisplayable_record_is_marked_seen loads hms str_of_str
             (fun _ => KNone)
             [] kvs rest (KInt 7) s eq_refl eq_refl Hnot eq_refl eq_refl).
Defined.

Lemma string_payload_is_decoded_witness :
  let d := VDict [(str "agent_type", VStr (str "openai"))] in
  let loads := fun _ : pystr => Some d in
  let hms := fun _ : pystr => Some (str "12:00:00") in
  let kvs := [(str "timestamp", VStr (str "2024-01-01T12:00:00"));
              (str "app", VStr (str "A"))] in
  (default (VDict []) (loads []) = d /\ (forall q, d <> VStr q))
  /\ display_event loads hms str_of_str
       (VDict ((str "payload", VStr []) :: kvs)) SimpleAgentStream.init
     = display_event loads hms str_of_str
         (VDict ((str "payload", d) :: kvs)) SimpleAgentStream.init.
Proof.
  intros d loads hms kvs.
  assert (forall q, d <> VStr q) as Hnot by (intros q; discriminate).
  split; [split; [reflexivity | exact Hnot]|].
  exact (string_payload_is_decoded loads hms str_of_str kvs [] d
           SimpleAgentStream.init eq_refl Hnot).
Defined.

Lemma accepted_sample_event (a c : pystr) :
  accepted AgentEventStream.init (sample_event a c).
Proof.
  repeat split; try reflexivity; eexists; reflexivity.
Qed.

Lemma recent_and_total_on_accepted_witness :
  let es := [sample_event (str "A") (str "tool_use");
             sample_event (str "B") (str "total")] in
  let s := AgentEventStream.init in
  (Forall (accepted s) es
   /\ (length (AgentEventStream.events s) <= AgentEventStream.window)%nat)
  /\ AgentEventStream.events (process_all es s)
     = last_n AgentEventStream.window (AgentEventStream.events s ++ es)
  /\ total (AgentEventStream.stats (process_all es s))
     = total (AgentEventStream.stats s) + Z.of_nat (length es)
       + Z.of_nat (length (List.filter category_is_total es)).
Proof.
  intros es s.
  assert (Forall (accepted s) es) as Hacc.
  { apply Forall_cons; split; [apply accepted_sample_event|].
    apply Forall_cons; split; [apply accepted_sample_event|].
    apply Forall_nil_2. }
  assert (length (AgentEventStream.events s) <= AgentEventStream.window)%nat
    as Hlen by (vm_compute; lia).
  split; [split; [exact Hacc | exact Hlen]|].
  exact (recent_and_total_on_accepted es s Hacc Hlen).
Defined.

Lemma tallies_on_accepted_witness :
  let es := [sample_event (str "A") (str "total");
             sample_event (str "B") (str "tool_use");
             sample_event (str "A") (str "total")] in
  let s := AgentEventStream.init in
  Forall (accepted s) es
  /\ let s' := process_all es s in
     let totals := Z.of_nat (length (List.filter category_is_total es)) in
     total (AgentEventStream.stats s')
     = total (AgentEventStream.stats s) + Z.of_nat (length es) + totals
     /\ category_sum (AgentEventStream.stats s')
        = category_sum (AgentEventStream.stats s) + Z.of_nat (length es)
          - totals
     /\ agent_sum (AgentEventStream.agent_stats s')
        = agent_sum (AgentEventStream.agent_stats s) + Z.of_nat (length es).
Proof.
  intros es s.
  assert (Forall (accepted s) es) as Hacc.
  { apply Forall_cons; split; [apply accepted_sample_event|].
    apply Forall_cons; split; [apply accepted_sample_event|].
    apply Forall_cons; split; [apply accepted_sample_event|].
    apply Forall_nil_2. }
  split; [exact Hacc|].
  exact (tallies_on_accepted es s Hacc).
Defined.

(** ** The flags of the full-screen viewer *)

Section Flags.

Variable json_loads : pystr -> option value.
Variable hms_of_iso : pystr -> option pystr.
Variable py_str : value -> pystr.
Variable addstr_ok : Z -> Z -> Z -> Z -> pystr -> bool.

Lemma commutes_addstr (f : CursesAgentStream.t -> CursesAgentStream.t)
    (height width y x : Z) (text : pystr) (a : attr) :
  (forall g, commutes f (modify (set_screen g))) ->
  commutes f (addstr addstr_ok height width y x text a).
Proof.
  intros H. unfold addstr.
  destruct (addstr_ok height width y x text); [apply H|].
  intros s. reflexivity.
Qed.

Lemma commutes_draw_events (f : CursesAgentStream.t -> CursesAgentStream.t)
    (height width : Z) (visible : list value) :
  (forall g, commutes f (modify (set_screen g))) ->
  forall i,
    commutes f (draw_events hms_of_iso py_str addstr_ok height width i visible).
Proof.
  intros H. induction visible as [|e rest IH]; intros i; simpl.
  - apply commutes_ret.
  - destruct (height - 3 <=? 3 + i); [apply commutes_ret|].
    apply commutes_bind; [apply commutes_lift|]. intros la.
    apply commutes_bind; [apply commutes_addstr, H | intros _; apply IH].
Qed.

Lemma curses_on_message_flags (p d : bool) (m : pystr) :
  commutes (fun s => set_pause p (set_show_details d s))
    (CursesAgentStream.on_message json_loads m).
Proof.
  intros s.
  unfold CursesAgentStream.on_message, CursesAgentStream.update_stats,
    CursesAgentStream.loads, try_except, bind, lift, modify, ret.
  simpl. repeat (destruct_inner; simpl); reflexivity.
Qed.

Lemma commutes_get {S A} (f : S -> S) (k : S -> M S A) :
  (forall self, k (f self) = k self) ->
  (forall self, commutes f (k self)) ->
  commutes f (bind get k).
Proof.
  intros Hread Hk s. unfold bind, get. rewrite Hread. apply Hk.
Qed.

Lemma curses_receive_flags (p d : bool) (ms : list pystr) :
  commutes (fun s => set_pause p (set_show_details d s))
    (CursesAgentStream.receive json_loads ms).
Proof.
  induction ms as [|m ms IH]; simpl; [apply commutes_ret|].
  apply commutes_get; [intros self; reflexivity|]. intros self.
  destruct (negb (running self)); [apply commutes_ret|].
  apply commutes_bind; [apply curses_on_message_flags | intros _; exact IH].
Qed.

(** X15. In the full-screen viewer the key 'p' pauses nothing and the key 'd'
    shows nothing more. Reception reads neither flag: with any values of
    [pause] and [show_details] the frames are buffered and counted exactly as
    without. Drawing does not read [show_details]: the screen is drawn the
    same whatever the flag is. (Only the word "PAUSED" in the stats bar
    depends on [pause].) *)
Theorem pause_and_details_flags_stop_nothing (p d : bool) :
  (forall ms,
     commutes (fun s => set_pause p (set_show_details d s))
       (CursesAgentStream.receive json_loads ms))
  /\ (forall height width,
        commutes (set_show_details d)
          (draw_ui hms_of_iso py_str addstr_ok height width)).
Proof.
  split; [intros ms; apply curses_receive_flags|].
  intros height width.
  assert (forall g, commutes (set_show_details d) (modify (set_screen g)))
    as Hscreen by (intros g s; reflexivity).
  unfold draw_ui.
  apply commutes_bind; [apply Hscreen|]. intros _.
  apply commutes_bind; [apply commutes_addstr, Hscreen|]. intros _.
  apply commutes_bind; [intros s; reflexivity|]. intros _.
  apply commutes_get; [intros self; reflexivity|]. intros self. cbv zeta.
  apply commutes_bind; [apply commutes_addstr, Hscreen|]. intros _.
  apply commutes_bind; [apply commutes_draw_events, Hscreen|]. intros _.
  apply commutes_bind; [apply commutes_addstr, Hscreen|]. intros _.
  apply Hscreen.
Qed.

End Flags.
